(** * CSV Doctor: data-quality scoring, profiling and cleaning

    A shallow embedding of the decision logic of [utils.py], [validator.py],
    [analyzer.py], [cleaner.py] and [csv_loader.py], and of the route
    [/api/clean] of [main.py].

    - Numbers are modelled as the interpreter has them: Python [int]
      (unbounded), NumPy [int64] (wrap-around), and IEEE-754 binary64 values
      for Python [float] and NumPy [float64]; floating-point operations are
      the bit-exact ones of [SpecFloat] at precision 53.
    - A [DataFrame] is an index and a list of typed columns; pandas objects
      live in a store, so that [copy()] and in-place updates are distinct.
    - Library routines whose numerical result no statement depends on
      (string-to-number parsing, Pearson correlation, quantiles, ...) are
      the fields of the class [Lib]. *)

From Stdlib Require Import ZArith List String Ascii Lia Bool.
From Stdlib Require Import Sorting.Sorted Sorting.Permutation.
From Stdlib Require Import Floats.SpecFloat.
From Stdlib Require Import Strings.String DecimalString.
From stdpp Require Import gmap strings list fin_maps.
Import ListNotations.
Local Open Scope string_scope.
Local Open Scope Z_scope.

(* ===================================================================== *)
(** * IEEE-754 binary64 *)
(* ===================================================================== *)

Module F64.

Abbreviation float := spec_float.

Definition prec : Z := 53.
Definition emax : Z := 1024.

Definition nan : float := S754_nan.
Definition zero : float := S754_zero false.

(** Conversion of an integer (C [int64 -> double], Python [float(n)]):
    round to nearest, ties to even. *)
Definition of_Z (z : Z) : float := binary_normalize prec emax z 0 false.

(** An integer as an unrounded significand with exponent 0: the operand of
    a quotient that is rounded once (Python's [int / int], a decimal
    literal). *)
Definition exact (z : Z) : float :=
  match z with
  | Z0 => S754_zero false
  | Zpos p => S754_finite false p 0
  | Zneg p => S754_finite true p 0
  end.

Definition add : float -> float -> float := SFadd prec emax.
Definition sub : float -> float -> float := SFsub prec emax.
Definition mul : float -> float -> float := SFmul prec emax.
Definition div : float -> float -> float := SFdiv prec emax.
Definition abs : float -> float := SFabs.

Definition eqb : float -> float -> bool := SFeqb.
Definition ltb : float -> float -> bool := SFltb.
Definition leb : float -> float -> bool := SFleb.
(** [x > y] and [x >= y]; both are false when an operand is NaN. *)
Definition gtb (x y : float) : bool := ltb y x.
Definition geb (x y : float) : bool := leb y x.
(** [x != y] is true when an operand is NaN. *)
Definition neqb (x y : float) : bool := negb (eqb x y).

Definition is_nan (x : float) : bool :=
  match x with S754_nan => true | _ => false end.

Definition is_zero (x : float) : bool :=
  match x with S754_zero _ => true | _ => false end.

(** [x] is a finite non-zero number or an infinity, of sign [s]. *)
Definition signed_nonzero (s : bool) (x : float) : bool :=
  match x with
  | S754_finite s' _ _ | S754_infinity s' => Bool.eqb s s'
  | _ => false
  end.

(** The double nearest to the decimal literal [n / 10^d] (e.g. [0.8] is
    [literal 8 1]). *)
Definition literal (n : Z) (d : Z) : float := div (exact n) (exact (10 ^ d)).

(** Round half to even of the rational [num / den], [den > 0]. *)
Definition div_half_even (num den : Z) : Z :=
  let q := num / den in
  let r := num mod den in
  match 2 * r ?= den with
  | Lt => q
  | Gt => q + 1
  | Eq => if Z.even q then q else q + 1
  end.

(** C [rint]: the nearest integral double, ties to even, sign kept. *)
Definition rint (x : float) : float :=
  match x with
  | S754_finite s m e =>
      if 0 <=? e then x
      else
        let y := div_half_even (Zpos m) (2 ^ (- e)) in
        binary_normalize prec emax (if s then - y else y) 0 s
  | _ => x
  end.

(** Truncation toward zero ([int(x)]); [None] for NaN and infinities. *)
Definition trunc (x : float) : option Z :=
  match x with
  | S754_zero _ => Some 0
  | S754_finite s m e =>
      let a := if 0 <=? e then Zpos m * 2 ^ e else Zpos m / 2 ^ (- e) in
      Some (if s then - a else a)
  | _ => None
  end.

End F64.

Abbreviation float := spec_float.

(* ===================================================================== *)
(** * Python values: exceptions, numbers, [round], [str] methods *)
(* ===================================================================== *)

Module Py.

Inductive exn : Type :=
  | ZeroDivisionError
  | TypeError
  | AttributeError
  | KeyError
  | ValueError
  | OverflowError.

(** The outcome of a call: a value, or a raised exception. *)
Inductive result (A : Type) : Type :=
  | Ok (a : A)
  | Raise (e : exn).
Arguments Ok {A} a.
Arguments Raise {A} e.

Definition bind {A B : Type} (k : A -> result B) (m : result A) : result B :=
  match m with
  | Ok a => k a
  | Raise e => Raise e
  end.

#[global] Instance result_ret : MRet result := fun A a => Ok a.
#[global] Instance result_bind : MBind result := fun A B k m => bind k m.

(** [for x in l: f(x)] collecting the results; stops at the first raise. *)
Fixpoint for_each {A B : Type} (f : A -> result B) (l : list A) : result (list B) :=
  match l with
  | [] => Ok []
  | a :: l' => b ← f a; bs ← for_each f l'; Ok (b :: bs)
  end.

(** Numbers as the interpreter distinguishes them. *)
Inductive number : Type :=
  | PyInt (z : Z)
  | NpInt64 (z : Z)
  | PyFloat (f : float)
  | NpFloat64 (f : float).

(** Two's-complement wrap-around of a 64-bit signed integer. *)
Definition wrap64 (z : Z) : Z := (z + 2 ^ 63) mod 2 ^ 64 - 2 ^ 63.

Definition is_np (x : number) : bool :=
  match x with NpInt64 _ | NpFloat64 _ => true | _ => false end.

Definition is_int (x : number) : bool :=
  match x with PyInt _ | NpInt64 _ => true | _ => false end.

Definition int_val (x : number) : Z :=
  match x with PyInt z | NpInt64 z => z | _ => 0 end.

(** [float(x)]. *)
Definition to_float (x : number) : float :=
  match x with
  | PyInt z | NpInt64 z => F64.of_Z z
  | PyFloat f | NpFloat64 f => f
  end.

Definition float_kind (a b : number) (f : float) : number :=
  if is_np a || is_np b then NpFloat64 f else PyFloat f.

(** [a * b], [a - b], [a + b]: integer arithmetic stays exact for Python
    ints and wraps for int64; anything else is done in binary64. *)
Definition arith (iop : Z -> Z -> Z) (fop : float -> float -> float)
    (a b : number) : number :=
  if is_int a && is_int b then
    if is_np a || is_np b then NpInt64 (wrap64 (iop (int_val a) (int_val b)))
    else PyInt (iop (int_val a) (int_val b))
  else float_kind a b (fop (to_float a) (to_float b)).

Definition mul : number -> number -> number := arith Z.mul F64.mul.
Definition sub : number -> number -> number := arith Z.sub F64.sub.
Definition add : number -> number -> number := arith Z.add F64.add.

(** [a / b]. Between Python numbers a zero divisor raises
    [ZeroDivisionError], and [int / int] is the exact quotient rounded once.
    As soon as one operand is a NumPy scalar the division is the IEEE one:
    [x / 0] is an infinity or NaN (with a warning only). *)
Definition truediv (a b : number) : result number :=
  if is_np a || is_np b then Ok (NpFloat64 (F64.div (to_float a) (to_float b)))
  else
    match a, b with
    | PyInt x, PyInt y =>
        if y =? 0 then Raise ZeroDivisionError
        else Ok (PyFloat (F64.div (F64.exact x) (F64.exact y)))
    | _, _ =>
        if F64.is_zero (to_float b) then Raise ZeroDivisionError
        else Ok (PyFloat (F64.div (to_float a) (to_float b)))
    end.

(** [a > b]. *)
Definition gt (a b : number) : bool :=
  if is_int a && is_int b then int_val b <? int_val a
  else F64.gtb (to_float a) (to_float b).

(** [a < b]. *)
Definition lt (a b : number) : bool := gt b a.

(** The builtin [max(a, b)]: [b] when [b > a], otherwise [a] (so a NaN in
    second position is never selected). *)
Definition max (a b : number) : number := if gt b a then b else a.

(** [round(x, ndigits)] for a Python [float] and [ndigits >= 0]: the
    decimal nearest to [x] with [ndigits] places (ties to even, decided on
    the exact binary value), converted back to the nearest double. NaN and
    infinities are returned as they are. *)
Definition round_float (x : float) (ndigits : Z) : float :=
  match x with
  | S754_finite s m e =>
      let p := 10 ^ ndigits in
      let y :=
        if 0 <=? e then Zpos m * 2 ^ e * p
        else F64.div_half_even (Zpos m * p) (2 ^ (- e)) in
      match y with
      | Zpos q => F64.div (S754_finite s q 0) (F64.exact p)
      | _ => S754_zero s
      end
  | _ => x
  end.

(** [round(x, ndigits)] for a NumPy [float64]: scale, [rint], unscale. *)
Definition np_round (x : float) (ndigits : Z) : float :=
  let p := F64.of_Z (10 ^ ndigits) in
  F64.div (F64.rint (F64.mul x p)) p.

(** The builtin [round(x, ndigits)]: by the type of [x]. *)
Definition round (x : number) (ndigits : Z) : number :=
  match x with
  | PyFloat f => PyFloat (round_float f ndigits)
  | NpFloat64 f => NpFloat64 (np_round f ndigits)
  | _ => x
  end.

(** [a == b] and [a != b]. *)
Definition eq (a b : number) : bool :=
  if is_int a && is_int b then int_val a =? int_val b
  else F64.eqb (to_float a) (to_float b).
Definition ne (a b : number) : bool := negb (eq a b).

(** [abs(x)]. *)
Definition abs (x : number) : number :=
  match x with
  | PyInt z => PyInt (Z.abs z)
  | NpInt64 z => NpInt64 (wrap64 (Z.abs z))
  | PyFloat f => PyFloat (F64.abs f)
  | NpFloat64 f => NpFloat64 (F64.abs f)
  end.

(** [int(x)]: truncation; NaN raises [ValueError], an infinity
    [OverflowError]. *)
Definition int (x : number) : result Z :=
  match x with
  | PyInt z | NpInt64 z => Ok z
  | PyFloat f | NpFloat64 f =>
      match F64.trunc f with
      | Some z => Ok z
      | None => if F64.is_nan f then Raise ValueError else Raise OverflowError
      end
  end.

(** [str(n)] of a non-negative integer. *)
Definition str_of_int (z : Z) : string :=
  NilZero.string_of_int (Z.to_int z).

(** ** [str] methods, on code points U+0000..U+00FF *)

Definition code (c : ascii) : Z := Z.of_N (N_of_ascii c).

Definition between (lo hi x : Z) : bool := (lo <=? x) && (x <=? hi).

(** [c.isspace()]. *)
Definition isspace (c : ascii) : bool :=
  let n := code c in
  between 9 13 n || between 28 32 n || (n =? 133) || (n =? 160).

(** [c.isalnum()]: letters, decimal digits, and the numeric characters
    (superscript digits, vulgar fractions) of the Latin-1 block. *)
Definition isalnum (c : ascii) : bool :=
  let n := code c in
  between 48 57 n || between 65 90 n || between 97 122 n
  || (n =? 170) || (n =? 181) || (n =? 186)
  || (n =? 178) || (n =? 179) || (n =? 185) || between 188 190 n
  || between 192 214 n || between 216 246 n || between 248 255 n.

Definition lower_char (c : ascii) : ascii :=
  let n := code c in
  if between 65 90 n || between 192 214 n || between 216 222 n
  then ascii_of_N (Z.to_N (n + 32)) else c.

Definition chars (s : string) : list ascii := list_ascii_of_string s.
Definition str (l : list ascii) : string := string_of_list_ascii l.

(** [s.lower()]. *)
Definition lower (s : string) : string := str (List.map lower_char (chars s)).

Fixpoint lstrip_chars (l : list ascii) : list ascii :=
  match l with
  | c :: l' => if isspace c then lstrip_chars l' else l
  | [] => []
  end.

Definition strip_chars (l : list ascii) : list ascii :=
  rev (lstrip_chars (rev (lstrip_chars l))).

(** [s.strip()]. *)
Definition strip (s : string) : string := str (strip_chars (chars s)).

(** [s.replace(a, b)] for single characters [a], [b]. *)
Definition replace (a b : ascii) (s : string) : string :=
  str (List.map (fun c => if Ascii.eqb c a then b else c) (chars s)).

(** [''.join(c for c in s if p(c))]. *)
Definition join_if (p : ascii -> bool) (s : string) : string :=
  str (List.filter p (chars s)).

(** [sub in s]. *)
Fixpoint contains (sub s : string) : bool :=
  String.prefix sub s
  || match s with
     | EmptyString => false
     | String _ s' => contains sub s'
     end.

(** [s.count(c)] for a single character [c]. *)
Definition count (c : ascii) (s : string) : Z :=
  Z.of_nat (length (List.filter (Ascii.eqb c) (chars s))).

(** ** Objects

    The values that reports are made of: scalars, lists and dictionaries
    with string keys (in insertion order). [ONumber] covers Python and NumPy
    integers and floats; [OOther] is any other scalar that pandas does not
    regard as missing (a [Timestamp], a [Path], ...), given by its [str()].
    Tuples, sets and arrays are not represented. *)
Unset Elimination Schemes.
Inductive object : Type :=
  | ONone
  | OBool (b : bool)
  | ONumber (x : number)
  | OStr (s : string)
  | ONpBool (b : bool)
  | ONaT
  | ONA
  | OOther (text : string)
  | OList (items : list object)
  | ODict (items : list (string * object)).
Set Elimination Schemes.

End Py.

Import Py.

(* ===================================================================== *)
(** * pandas: cells, Series, DataFrame *)
(* ===================================================================== *)

Module pd.

(** A scalar stored in a column. [CNone] is the missing marker of an
    object column; in a float column the missing marker is NaN. *)
Inductive cell : Type :=
  | CNone
  | CInt (z : Z)
  | CFloat (f : float)
  | CStr (s : string)
  | CBool (b : bool).

Inductive dtype : Type := Int64 | Float64 | Bool | Object | Datetime64.

Record Series : Type := { name : string; dtype_of : dtype; values : list cell }.

(** Row labels and columns; in a well-formed frame every column has one
    value per row label. *)
Record DataFrame : Type := { index : list Z; columns : list Series }.

Definition wf (df : DataFrame) : Prop :=
  Forall (fun s => length (values s) = length (index df)) (columns df).

(** [len(df)], [len(df.columns)], [len(series)]. *)
Definition len (df : DataFrame) : Z := Z.of_nat (length (index df)).
Definition ncols (df : DataFrame) : Z := Z.of_nat (length (columns df)).
Definition size (l : list cell) : Z := Z.of_nat (length l).

Definition column_names (df : DataFrame) : list string :=
  List.map name (columns df).

(** [isna] / [notna] of one value. *)
Definition isna (c : cell) : bool :=
  match c with
  | CNone => true
  | CFloat f => F64.is_nan f
  | _ => false
  end.
Definition notna (c : cell) : bool := negb (isna c).

(** [series.isna().sum()], [series.notna().sum()], [series.dropna()]. *)
Definition isna_sum (l : list cell) : Z := Z.of_nat (length (List.filter isna l)).
Definition notna_sum (l : list cell) : Z := Z.of_nat (length (List.filter notna l)).
Definition dropna (l : list cell) : list cell := List.filter notna l.

(** [df.isna().sum().sum()]. *)
Definition isna_total (df : DataFrame) : Z :=
  fold_right Z.add 0 (List.map (fun s => isna_sum (values s)) (columns df)).

(** Equality of two values as the hash tables behind [unique],
    [duplicated] and [drop_duplicates] see it: missing values are equal to
    each other, floats compare by [==]. *)
Definition cell_eqb (a b : cell) : bool :=
  if isna a then isna b
  else
    match a, b with
    | CInt x, CInt y => x =? y
    | CFloat x, CFloat y => F64.eqb x y
    | CStr x, CStr y => String.eqb x y
    | CBool x, CBool y => Bool.eqb x y
    | _, _ => false
    end.

(** [series.unique()]: the distinct values in order of first appearance. *)
Fixpoint unique_from (seen : list cell) (l : list cell) : list cell :=
  match l with
  | [] => []
  | c :: l' =>
      if existsb (cell_eqb c) seen then unique_from seen l'
      else c :: unique_from (c :: seen) l'
  end.
Definition unique (l : list cell) : list cell := unique_from [] l.

(** [series.nunique()] (missing values are not counted). *)
Definition nunique (l : list cell) : Z := size (unique (dropna l)).

(** Rows. *)
Definition row : Type := list cell.

Definition row_at (cols : list Series) (i : nat) : row :=
  List.map (fun s => nth i (values s) CNone) cols.

Definition rows_of (n : nat) (cols : list Series) : list row :=
  List.map (row_at cols) (seq 0 n).

Definition rows (df : DataFrame) : list row :=
  rows_of (length (index df)) (columns df).

Fixpoint row_eqb (r1 r2 : row) : bool :=
  match r1, r2 with
  | [], [] => true
  | a :: r1', b :: r2' => cell_eqb a b && row_eqb r1' r2'
  | _, _ => false
  end.

(** Boolean indexing: the elements of [l] whose mask bit is set. *)
Fixpoint take {A : Type} (mask : list bool) (l : list A) : list A :=
  match mask, l with
  | b :: mask', a :: l' => if b then a :: take mask' l' else take mask' l'
  | _, _ => []
  end.

(** [series[mask]]. *)
Definition mask_values (mask : list bool) (s : Series) : Series :=
  {| name := name s; dtype_of := dtype_of s; values := take mask (values s) |}.

(** [series.iloc[1:]]. *)
Definition tail_values (s : Series) : Series :=
  {| name := name s; dtype_of := dtype_of s; values := tl (values s) |}.

(** [df[mask]]. *)
Definition loc_rows (mask : list bool) (df : DataFrame) : DataFrame :=
  {| index := take mask (index df);
     columns := List.map (mask_values mask) (columns df) |}.

(** [duplicated(keep=...)] over a list of rows. *)
Inductive keep : Type := KeepFirst | KeepLast | KeepFalse.

Fixpoint seen_before (seen : list row) (rs : list row) : list bool :=
  match rs with
  | [] => []
  | r :: rs' => existsb (row_eqb r) seen :: seen_before (r :: seen) rs'
  end.

Definition duplicated_rows (k : keep) (rs : list row) : list bool :=
  let first := seen_before [] rs in
  let last := rev (seen_before [] (rev rs)) in
  match k with
  | KeepFirst => first
  | KeepLast => last
  | KeepFalse => List.map (fun '(a, b) => a || b) (combine first last)
  end.

(** No row of [l] equals a row of [seen] or an earlier row of [l]. *)
Fixpoint distinct_from (seen : list row) (l : list row) : Prop :=
  match l with
  | [] => True
  | x :: l' =>
      (forall s, In s seen -> row_eqb x s = false) /\ distinct_from (x :: seen) l'
  end.

(** [df.duplicated(keep=k)] (all columns). *)
Definition duplicated (k : keep) (df : DataFrame) : list bool :=
  duplicated_rows k (rows df).

(** [mask.sum()]. *)
Definition sum_mask (mask : list bool) : Z :=
  Z.of_nat (length (List.filter (fun b => b) mask)).

(** Column selection. *)
Definition is_number_dtype (d : dtype) : bool :=
  match d with Int64 | Float64 => true | _ => false end.

Definition is_object_dtype (d : dtype) : bool :=
  match d with Object => true | _ => false end.

(** [pd.api.types.is_numeric_dtype]: booleans count as numeric here. *)
Definition is_numeric_dtype (d : dtype) : bool :=
  match d with Int64 | Float64 | Bool => true | _ => false end.

(** [df.select_dtypes(include=[np.number])], [include=['object']]. *)
Definition select_number (df : DataFrame) : list Series :=
  List.filter (fun s => is_number_dtype (dtype_of s)) (columns df).
Definition select_object (df : DataFrame) : list Series :=
  List.filter (fun s => is_object_dtype (dtype_of s)) (columns df).

(** [df[col]] and [col in df.columns]. *)
Definition getitem (df : DataFrame) (col : string) : option Series :=
  List.find (fun s => String.eqb (name s) col) (columns df).
Definition has_column (df : DataFrame) (col : string) : bool :=
  existsb (fun s => String.eqb (name s) col) (columns df).

(** [df[col] = series] for a column that exists: the values and the dtype
    are replaced, the position is kept. *)
Definition setitem (df : DataFrame) (col : string) (d : dtype) (vs : list cell)
    : DataFrame :=
  {| index := index df;
     columns :=
       List.map (fun s => if String.eqb (name s) col
                          then {| name := col; dtype_of := d; values := vs |}
                          else s) (columns df) |}.

(** Library routines taken as given. Each works on the values of one
    column (two for [corr]). *)
Class Lib : Type := {
  (** [pd.to_numeric(s, errors='coerce')]: the converted values, NaN where a
      value does not parse; [None] when the call raises. *)
  to_numeric : list cell -> option (list cell);
  (** [pd.to_datetime(s, errors='coerce')], likewise with NaT. *)
  to_datetime : list cell -> option (list cell);
  (** [s.std()], [s.mean()], [s.median()] (missing values skipped). *)
  std : list cell -> float;
  mean : list cell -> float;
  median : list cell -> float;
  (** [s.mode()]. *)
  mode : list cell -> list cell;
  (** [s.quantile(q)]. *)
  quantile : list cell -> float -> float;
  (** One cell of [df.corr()]: the Pearson coefficient of two columns. *)
  corr : list cell -> list cell -> float;
  (** [scipy.stats.zscore]. *)
  zscore : list cell -> list float;
  (** [s.astype(t)]; [inl] the converted column, [inr] the message of the
      exception. *)
  astype : string -> Series -> Series + string;
  (** [str.upper], [str.title]. *)
  upper : string -> string;
  title : string -> string;
  (** [str(e)] for the exception a failed conversion of these values
      raises. *)
  exception_text : list cell -> string;
  (** The mask [(s >= Q1 - k*IQR) & (s <= Q3 + k*IQR)] of a datetime
      column, computed on timestamps. *)
  datetime_iqr_mask : list cell -> float -> list bool
}.

End pd.

(* ===================================================================== *)
(** * utils.py *)
(* ===================================================================== *)

Module utils.

(** Two decimal digits, zero-padded. *)
Definition two_digits (z : Z) : string :=
  let pad := if z <? 10 then "0" else "" in
  (pad ++ str_of_int z)%string.

(** [f"{x:.2f}"] for a float: the decimal with two places nearest to the
    exact value of [x] (ties to even); the sign is that of [x], also when the
    digits are all zero. *)
Definition format_2f (x : float) : string :=
  let sign (s : bool) := if s then "-" else "" in
  match x with
  | S754_nan => "nan"
  | S754_infinity s => (sign s ++ "inf")%string
  | S754_zero s => (sign s ++ "0.00")%string
  | S754_finite s m e =>
      let y :=
        if 0 <=? e then Zpos m * 2 ^ e * 100
        else F64.div_half_even (Zpos m * 100) (2 ^ (- e)) in
      let whole := str_of_int (y / 100) in
      let cents := two_digits (y mod 100) in
      (sign s ++ whole ++ "." ++ cents)%string
  end.

(** [float(x)] where the interpreter needs a float: an integer too large
    for a double raises [OverflowError]. *)
Definition as_float (x : number) : result float :=
  match to_float x with
  | S754_infinity s => if is_int x then Raise OverflowError else Ok (S754_infinity s)
  | f => Ok f
  end.

(** The loop of [format_bytes] over the units that are left. *)
Fixpoint format_loop (units : list string) (bytes_size : number) : result string :=
  match units with
  | [] => f ← as_float bytes_size; Ok (format_2f f ++ " TB")%string
  | unit :: rest =>
      if lt bytes_size (PyFloat (F64.of_Z 1024))
      then f ← as_float bytes_size; Ok (format_2f f ++ " " ++ unit)%string
      else
        _ ← as_float bytes_size;
        q ← truediv bytes_size (PyFloat (F64.of_Z 1024));
        format_loop rest q
  end.

Definition format_bytes (bytes_size : number) : result string :=
  format_loop ["B"; "KB"; "MB"; "GB"] bytes_size.

(** [pd.isna(obj) or (isinstance(obj, float) and np.isnan(obj))] for a
    scalar. *)
Definition is_missing (obj : object) : bool :=
  match obj with
  | ONone | ONaT | ONA => true
  | ONumber (PyFloat f) | ONumber (NpFloat64 f) => F64.is_nan f
  | _ => false
  end.

(** [sanitize_dict(obj)]. After the dictionary and list cases: a missing
    value becomes [None]; a NumPy integer or float becomes the Python number
    [obj.item()]; [int], [float], [str], [bool] and [None] are returned as
    they are; anything else becomes [str(obj)]. *)
Fixpoint sanitize_dict (obj : object) : object :=
  match obj with
  | ODict items => ODict (List.map (fun '(k, v) => (k, sanitize_dict v)) items)
  | OList items => OList (List.map sanitize_dict items)
  | _ =>
      if is_missing obj then ONone
      else
        match obj with
        | ONumber (NpInt64 z) => ONumber (PyInt z)
        | ONumber (NpFloat64 f) => ONumber (PyFloat f)
        | ONumber _ | OStr _ | OBool _ | ONone => obj
        | ONpBool b => OStr (if b then "True" else "False")
        | OOther text => OStr text
        | _ => obj
        end
  end.

(** What [json] writes without a custom encoder and reads back unchanged
    in kind: [None], [bool], Python [int], Python [float] other than NaN,
    [str], and lists and dictionaries of these. *)
Fixpoint plain (obj : object) : bool :=
  match obj with
  | ONone | OBool _ | OStr _ | ONumber (PyInt _) => true
  | ONumber (PyFloat f) => negb (F64.is_nan f)
  | OList items => forallb plain items
  | ODict items => forallb (fun '(_, v) => plain v) items
  | _ => false
  end.

Section WithLib.
Context `{L : pd.Lib}.

(** [converted.notna().sum() / len(non_null) > 0.8], inside
    [try: ... except: pass]: a raise counts as a failed test. *)
Definition coerces (converted : option (list pd.cell)) (non_null : list pd.cell)
    : bool :=
  match converted with
  | Some r =>
      match truediv (NpInt64 (pd.notna_sum r)) (PyInt (pd.size non_null)) with
      | Ok q => gt q (PyFloat (F64.literal 8 1))
      | Raise _ => false
      end
  | None => false
  end.

(** How many values a conversion turned into a value that is present
    (none when the conversion raised). *)
Definition coerced_count (converted : option (list pd.cell)) : Z :=
  match converted with
  | Some r => pd.notna_sum r
  | None => 0
  end.

Definition infer_column_type (series : pd.Series) : result string :=
  let non_null := pd.dropna (pd.values series) in
  if pd.size non_null =? 0 then Ok "unknown"
  else if coerces (pd.to_numeric non_null) non_null then Ok "numeric"
  else if coerces (pd.to_datetime non_null) non_null then Ok "datetime"
  else
    unique_ratio ← truediv (PyInt (pd.size (pd.unique non_null)))
                           (PyInt (pd.size non_null));
    if lt unique_ratio (PyFloat (F64.literal 5 2))
       || (pd.size (pd.unique non_null) <? 20)
    then Ok "categorical"
    else Ok "text".

End WithLib.
End utils.

(* ===================================================================== *)
(** * validator.py *)
(* ===================================================================== *)

Module CSVValidator.

(** One value of the dictionary returned by [get_null_distribution]: the
    entry of a column, or the entry under the key ['total']. *)
Inductive null_entry : Type :=
  | ColumnNulls (null_count : Z) (null_percentage : number) (non_null_count : Z)
  | TotalNulls (null_count : Z) (null_percentage : number).

Record duplicate_stats : Type := {
  duplicate_count : Z;
  duplicate_percentage : number;
  duplicate_rows : Z
}.

Inductive anomaly_type : Type :=
  | constant_column
  | high_null_percentage
  | high_variance.

(** An anomaly: its ['type'] and ['column']. The remaining keys (the
    offending value, rounded statistics, the message) are not represented. *)
Record anomaly : Type := { type : anomaly_type; column : string }.

Record score_breakdown : Type := {
  null_score : number;
  duplicate_score : number;
  type_score : number;
  anomaly_score : number
}.

Record quality : Type := {
  overall_score : number;
  scores : score_breakdown;
  issues_count : Z
}.

(** A dictionary built by successive [d[k] = v]. *)
Definition dict_of {V : Type} (items : list (string * V)) : gmap string V :=
  fold_left (fun d kv => <[kv.1 := kv.2]> d) items ∅.

Section WithLib.
Context `{L : pd.Lib}.

Definition get_null_distribution (df : pd.DataFrame)
    : result (gmap string null_entry) :=
  let total_cells := pd.len df * pd.ncols df in
  per_column ←
    for_each (fun s =>
      let null_count := pd.isna_sum (pd.values s) in
      pct ← truediv (mul (PyInt 100) (PyInt null_count)) (PyInt (pd.len df));
      Ok (pd.name s,
          ColumnNulls null_count (round pct 2) (pd.len df - null_count)))
      (pd.columns df);
  total_pct ← truediv (mul (PyInt 100) (NpInt64 (pd.isna_total df)))
                      (PyInt total_cells);
  Ok (<["total" := TotalNulls (pd.isna_total df) (round total_pct 2)]>
        (dict_of per_column)).

Definition detect_duplicates (df : pd.DataFrame) : result duplicate_stats :=
  let duplicates := pd.duplicated pd.KeepFalse df in
  let duplicate_count := pd.sum_mask duplicates in
  pct ← truediv (mul (PyInt 100) (PyInt duplicate_count)) (PyInt (pd.len df));
  pairs ← (if 0 <? duplicate_count
           then half ← truediv (NpInt64 (pd.sum_mask (pd.duplicated pd.KeepFalse df)))
                               (PyInt 2);
                int half
           else Ok 0);
  Ok {| duplicate_count := duplicate_count;
        duplicate_percentage := round pct 2;
        duplicate_rows := pairs |}.

(** The three passes of [detect_anomalies], in order. *)
Definition constant_columns (df : pd.DataFrame) : list anomaly :=
  flat_map (fun s =>
    if pd.nunique (pd.values s) =? 1
    then [{| type := constant_column; column := pd.name s |}] else [])
    (pd.columns df).

Definition high_null_columns (df : pd.DataFrame) : result (list anomaly) :=
  found ← for_each (fun s =>
    null_pct ← truediv (mul (PyInt 100) (NpInt64 (pd.isna_sum (pd.values s))))
                       (PyInt (pd.len df));
    Ok (if gt null_pct (PyInt 50)
        then [{| type := high_null_percentage; column := pd.name s |}] else []))
    (pd.columns df);
  Ok (concat found).

Definition high_variance_columns (df : pd.DataFrame) : result (list anomaly) :=
  found ← for_each (fun s =>
    if 0 <? pd.size (pd.dropna (pd.values s)) then
      let std := PyFloat (pd.std (pd.values s)) in
      let mean := PyFloat (pd.mean (pd.values s)) in
      if ne mean (PyInt 0) then
        ratio ← truediv std (abs mean);
        Ok (if gt ratio (PyInt 2)
            then [{| type := high_variance; column := pd.name s |}] else [])
      else Ok []
    else Ok [])
    (pd.select_number df);
  Ok (concat found).

Definition detect_anomalies (df : pd.DataFrame) : result (list anomaly) :=
  let a1 := constant_columns df in
  a2 ← high_null_columns df;
  a3 ← high_variance_columns df;
  Ok (a1 ++ a2 ++ a3)%list.

(** The body of the type-consistency loop for one column: 1 when the
    column adds a type issue. The result of [pd.to_numeric] is not used; the
    percentage is taken from the column itself. A raise is swallowed. *)
Definition type_issue (df : pd.DataFrame) (s : pd.Series) : Z :=
  if pd.is_object_dtype (pd.dtype_of s) then
    match pd.to_numeric (pd.values s) with
    | Some _ =>
        match truediv (mul (PyInt 100) (NpInt64 (pd.isna_sum (pd.values s))))
                      (PyInt (pd.len df)) with
        | Ok non_numeric_pct => if gt non_numeric_pct (PyInt 10) then 1 else 0
        | Raise _ => 0
        end
    | None => 0
    end
  else 0.

Definition type_issues (df : pd.DataFrame) : Z :=
  fold_left (fun n s => n + type_issue df s) (pd.columns df) 0.

(** What the specification counts instead: whether more than 10% of the
    values of column [s] are missing once [pd.to_numeric] has been applied,
    that is, whether the numeric-coercion failure rate exceeds 10%. *)
Definition coercion_failure_rate_exceeds_10 (df : pd.DataFrame) (s : pd.Series)
    : bool :=
  match pd.to_numeric (pd.values s) with
  | Some converted =>
      match truediv (mul (PyInt 100) (NpInt64 (pd.isna_sum converted)))
                    (PyInt (pd.len df)) with
      | Ok non_numeric_pct => gt non_numeric_pct (PyInt 10)
      | Raise _ => false
      end
  | None => false
  end.

(** The specification's [n]: the number of object columns whose
    numeric-coercion failure rate exceeds 10%. *)
Definition documented_type_issues (df : pd.DataFrame) : Z :=
  Z.of_nat (length (List.filter
    (fun s => pd.is_object_dtype (pd.dtype_of s)
              && coercion_failure_rate_exceeds_10 df s) (pd.columns df))).

Definition get_data_quality_score (df : pd.DataFrame) : result quality :=
  let total_cells := pd.len df * pd.ncols df in
  null_pct ← truediv (mul (PyInt 100) (NpInt64 (pd.isna_total df)))
                     (PyInt total_cells);
  let null_score := max (PyInt 0) (sub (PyInt 100) null_pct) in
  dup_pct ← (if 0 <? pd.len df
             then truediv (mul (PyInt 100)
                               (NpInt64 (pd.sum_mask (pd.duplicated pd.KeepFirst df))))
                          (PyInt (pd.len df))
             else Ok (PyInt 0));
  let dup_score := max (PyInt 0) (sub (PyInt 100) dup_pct) in
  let type_score :=
    max (PyInt 0) (sub (PyInt 100) (mul (PyInt (type_issues df)) (PyInt 10))) in
  anomalies ← detect_anomalies df;
  let n_anomalies := Z.of_nat (length anomalies) in
  let anomaly_score :=
    max (PyInt 0) (sub (PyInt 100) (mul (PyInt n_anomalies) (PyInt 15))) in
  let overall_score :=
    add (add (add (mul null_score (PyFloat (F64.literal 3 1)))
                  (mul dup_score (PyFloat (F64.literal 2 1))))
             (mul type_score (PyFloat (F64.literal 2 1))))
        (mul anomaly_score (PyFloat (F64.literal 3 1))) in
  Ok {| overall_score := round (PyFloat (to_float overall_score)) 2;
        scores :=
          {| null_score := round (PyFloat (to_float null_score)) 2;
             duplicate_score := round (PyFloat (to_float dup_score)) 2;
             type_score := round (PyFloat (to_float type_score)) 2;
             anomaly_score := round (PyFloat (to_float anomaly_score)) 2 |};
        issues_count :=
          n_anomalies + (if gt dup_pct (PyInt 0) then 1 else 0)
                      + (if gt null_pct (PyInt 0) then 1 else 0) |}.

(** The dictionary [issues['missing_values']] of [detect_malformed_rows]. *)
Record missing_values : Type := {
  missing_count : Z;
  sample_rows : list Z
}.

(** The result of [detect_malformed_rows]: the keys ['count'], ['rows'] and
    ['issues']. *)
Record malformed : Type := {
  malformed_count : Z;
  malformed_rows : list Z;
  malformed_issues : gmap string missing_values
}.

(** [df[df.isna().any(axis=1)].index.tolist()]. *)
Definition rows_with_nulls (df : pd.DataFrame) : list Z :=
  pd.index (pd.loc_rows (List.map (existsb pd.isna) (pd.rows df)) df).

Definition detect_malformed_rows (df : pd.DataFrame) : malformed :=
  let rows_with_nulls := rows_with_nulls df in
  match rows_with_nulls with
  | [] => {| malformed_count := 0; malformed_rows := []; malformed_issues := ∅ |}
  | _ =>
      {| malformed_count := 0 + Z.of_nat (length rows_with_nulls);
         malformed_rows := [];
         malformed_issues :=
           {[ "missing_values" :=
                {| missing_count := Z.of_nat (length rows_with_nulls);
                   sample_rows := firstn 10 rows_with_nulls |} ]} |}
  end.

(** [str(dtype)]. *)
Definition dtype_name (d : pd.dtype) : string :=
  match d with
  | pd.Int64 => "int64"
  | pd.Float64 => "float64"
  | pd.Bool => "bool"
  | pd.Object => "object"
  | pd.Datetime64 => "datetime64[ns]"
  end.

(** One value of the dictionary returned by [check_column_types]. *)
Record column_type : Type := {
  current_dtype : string;
  inferred_type : string;
  unique_values : Z;
  null_count : Z;
  null_percentage : number
}.

Definition check_column_types (df : pd.DataFrame)
    : result (gmap string column_type) :=
  type_report ←
    for_each (fun s =>
      inferred_type ← utils.infer_column_type s;
      pct ← truediv (mul (PyInt 100) (NpInt64 (pd.isna_sum (pd.values s))))
                    (PyInt (pd.len df));
      Ok (pd.name s,
          {| current_dtype := dtype_name (pd.dtype_of s);
             inferred_type := inferred_type;
             unique_values := pd.size (pd.unique (pd.values s));
             null_count := pd.isna_sum (pd.values s);
             null_percentage := round pct 2 |}))
      (pd.columns df);
  Ok (dict_of type_report).

Record data_shape : Type := { shape_rows : Z; shape_columns : Z }.

(** The dictionary returned by [generate_validation_report]; its values are
    computed in the order of the keys. *)
Record validation_report : Type := {
  report_data_shape : data_shape;
  null_distribution : gmap string null_entry;
  column_types : gmap string column_type;
  duplicates : duplicate_stats;
  report_malformed_rows : malformed;
  anomalies : list anomaly
}.

Definition generate_validation_report (df : pd.DataFrame)
    : result validation_report :=
  null_distribution ← get_null_distribution df;
  column_types ← check_column_types df;
  duplicates ← detect_duplicates df;
  let malformed_rows := detect_malformed_rows df in
  anomalies ← detect_anomalies df;
  Ok {| report_data_shape :=
          {| shape_rows := pd.len df; shape_columns := pd.ncols df |};
        null_distribution := null_distribution;
        column_types := column_types;
        duplicates := duplicates;
        report_malformed_rows := malformed_rows;
        anomalies := anomalies |}.

End WithLib.

(** The result of [validate_against_schema]. An entry of ['errors'] is the
    message ['Missing columns: {...}'], given by the set it prints. *)
Record schema_validation : Type := {
  valid : bool;
  errors : list (gset string);
  warnings : list string
}.

Section Schema.
(** [pd.api.types.is_string_dtype], whose answer on an object column
    depends on the version of pandas. *)
Variable is_string_dtype : pd.Series -> bool.

(** The warning one schema item adds, if any. *)
Definition schema_warning (col expected_type : string) (s : pd.Series)
    : list string :=
  let current_type := dtype_name (pd.dtype_of s) in
  if String.eqb (Py.lower expected_type) "numeric" then
    if negb (pd.is_numeric_dtype (pd.dtype_of s))
    then ["Column '" ++ col ++ "' expected numeric but got " ++ current_type]
    else []
  else if String.eqb (Py.lower expected_type) "string" then
    if negb (is_string_dtype s) && negb (pd.is_object_dtype (pd.dtype_of s))
    then ["Column '" ++ col ++ "' expected string but got " ++ current_type]
    else []
  else [].

(** [validate_against_schema(schema)]; the schema is the list of its items,
    in insertion order. *)
Definition validate_against_schema (df : pd.DataFrame)
    (schema : list (string * string)) : schema_validation :=
  let missing_cols : gset string :=
    list_to_set (List.map fst schema) ∖ list_to_set (pd.column_names df) in
  let missing := negb (bool_decide (missing_cols = ∅)) in
  {| valid := negb missing;
     errors := if missing then [missing_cols] else [];
     warnings :=
       flat_map (fun '(col, expected_type) =>
         match pd.getitem df col with
         | None => []
         | Some s => schema_warning col expected_type s
         end) schema |}.

End Schema.
End CSVValidator.

(* ===================================================================== *)
(** * analyzer.py *)
(* ===================================================================== *)

Module CSVAnalyzer.

Record null_stats : Type := {
  null_count : Z;
  null_percentage : number;
  non_null_count : Z;
  non_null_percentage : number
}.

(** An element of the list returned by [get_high_correlations]. *)
Record correlation_entry : Type := {
  column_1 : string;
  column_2 : string;
  correlation : float
}.

(** [list(enumerate(l))]. *)
Definition enumerate {A : Type} (l : list A) : list (nat * A) :=
  combine (seq 0 (length l)) l.

(** [sorted(l, key=key, reverse=True)]. The sort is stable and only asks
    whether one key is less than another; with [reverse=True] elements whose
    keys are equal stay in their original order. On keys that [<] orders
    totally every such sort gives the list below: each element, taken from
    the right, is placed behind the elements with a strictly greater key. *)
Fixpoint insert_desc {A : Type} (key : A -> float) (x : A) (l : list A) : list A :=
  match l with
  | [] => [x]
  | y :: l' =>
      if F64.ltb (key x) (key y) then y :: insert_desc key x l'
      else x :: y :: l'
  end.

Definition sorted_reverse {A : Type} (key : A -> float) (l : list A) : list A :=
  fold_right (insert_desc key) [] l.

(** [a] may stand before [b] in a list sorted by decreasing key. *)
Definition descending {A : Type} (key : A -> float) (a b : A) : Prop :=
  F64.leb (key b) (key a) = true.

(** The two column names of an entry. *)
Definition pair_of (e : correlation_entry) : string * string :=
  (column_1 e, column_2 e).

Section WithLib.
Context `{L : pd.Lib}.

Definition get_null_distribution (df : pd.DataFrame)
    : result (gmap string null_stats) :=
  per_column ←
    for_each (fun s =>
      let null_count := NpInt64 (pd.isna_sum (pd.values s)) in
      pct ← truediv (mul (PyInt 100) null_count) (PyInt (pd.len df));
      non_null ← int (sub (PyInt (pd.len df)) null_count);
      non_null_pct ← truediv (mul (PyInt 100) (sub (PyInt (pd.len df)) null_count))
                             (PyInt (pd.len df));
      Ok (pd.name s,
          {| null_count := int_val null_count;
             null_percentage := round pct 2;
             non_null_count := non_null;
             non_null_percentage := round non_null_pct 2 |}))
      (pd.columns df);
  Ok (CSVValidator.dict_of per_column).

(** [numeric_df.corr()], cell by cell: row label [i], column label [j]. *)
Definition corr_cell (ci cj : pd.Series) : float :=
  pd.corr (pd.values ci) (pd.values cj).

(** [corr_matrix.round(3).to_dict()]: column label, then row label. *)
Definition get_correlation_matrix (df : pd.DataFrame)
    : gmap string (gmap string float) :=
  let numeric_df := pd.select_number df in
  if (length numeric_df =? 0)%nat then ∅
  else
    CSVValidator.dict_of
      (List.map (fun cj =>
         (pd.name cj,
          CSVValidator.dict_of
            (List.map (fun ci => (pd.name ci, np_round (corr_cell ci cj) 3))
                      numeric_df)))
         numeric_df).

(** [corr_matrix.where(np.triu(..., k=1))]: the cell at row [i], column [j]
    is kept above the diagonal and is NaN elsewhere. *)
Definition upper (i j : nat) (v : float) : float :=
  if (i <? j)%nat then v else F64.nan.

(** The entry recorded for the pair of columns [idx], [column]. *)
Definition entry_of (idx column : pd.Series) : correlation_entry :=
  {| column_1 := pd.name idx;
     column_2 := pd.name column;
     correlation := round_float (F64.abs (corr_cell idx column)) 3 |}.

(** The list [high_corr] built by the two nested loops, before sorting. *)
Definition high_corr (numeric_df : list pd.Series) (threshold : float)
    : list correlation_entry :=
  flat_map (fun '(j, column) =>
    flat_map (fun '(i, idx) =>
      let corr_val := upper i j (F64.abs (corr_cell idx column)) in
      if F64.gtb corr_val threshold
      then [{| column_1 := pd.name idx;
               column_2 := pd.name column;
               correlation := round_float corr_val 3 |}]
      else [])
      (enumerate numeric_df))
    (enumerate numeric_df).

Definition get_high_correlations (df : pd.DataFrame) (threshold : float)
    : list correlation_entry :=
  let numeric_df := pd.select_number df in
  if (length numeric_df <? 2)%nat then []
  else sorted_reverse (fun x => F64.abs (correlation x)) (high_corr numeric_df threshold).

End WithLib.

(** The dictionary returned by [get_overall_summary]
    ([overall_null_percentage] is its key ['null_percentage']). *)
Record overall_summary : Type := {
  total_rows : Z;
  total_columns : Z;
  total_cells : Z;
  null_cells : Z;
  overall_null_percentage : number;
  duplicate_rows : Z;
  memory_usage_bytes : Z;
  numeric_columns : Z;
  categorical_columns : Z;
  column_names : list string
}.

Section Summary.
(** [int(df.memory_usage(deep=True).sum())]. *)
Variable memory_usage : pd.DataFrame -> Z.

Definition get_overall_summary (df : pd.DataFrame) : result overall_summary :=
  pct ← truediv (mul (PyInt 100) (NpInt64 (pd.isna_total df)))
                (PyInt (pd.len df * pd.ncols df));
  Ok {| total_rows := pd.len df;
        total_columns := pd.ncols df;
        total_cells := pd.len df * pd.ncols df;
        null_cells := pd.isna_total df;
        overall_null_percentage := round (PyFloat (to_float pct)) 2;
        duplicate_rows := pd.sum_mask (pd.duplicated pd.KeepFirst df);
        memory_usage_bytes := memory_usage df;
        numeric_columns := Z.of_nat (length (pd.select_number df));
        categorical_columns := Z.of_nat (length (pd.select_object df));
        column_names := pd.column_names df |}.

End Summary.
End CSVAnalyzer.

(* ===================================================================== *)
(** * cleaner.py *)
(* ===================================================================== *)

Module CSVCleaner.

(** DataFrame objects live in a store; a variable or attribute holds the
    address of one. [copy()] allocates, an [inplace=True] operation or an
    item assignment overwrites, and [self.df = ...] rebinds. *)
Abbreviation loc := nat.
Abbreviation store := (gmap nat pd.DataFrame).

Definition empty_frame : pd.DataFrame := {| pd.index := []; pd.columns := [] |}.

Definition deref (h : store) (l : loc) : pd.DataFrame :=
  default empty_frame (h !! l).

(** A new object holding [v]. *)
Definition alloc (h : store) (v : pd.DataFrame) : store * loc :=
  let l := fresh (dom h) in (<[l := v]> h, l).

(** [df.copy()]. *)
Definition copy (h : store) (l : loc) : store * loc := alloc h (deref h l).

(** The attributes of a [CSVCleaner] instance. *)
Record instance : Type := {
  df : loc;
  original_df : loc;
  changes : list string
}.

Record state : Type := { heap : store; self : instance }.

(** [CSVCleaner(df)]. *)
Definition init (h : store) (arg : loc) : state :=
  let '(h1, a) := copy h arg in
  let '(h2, b) := copy h1 arg in
  {| heap := h2; self := {| df := a; original_df := b; changes := [] |} |}.

Definition reset (st : state) : state :=
  let '(h, a) := copy (heap st) (original_df (self st)) in
  {| heap := h;
     self := {| df := a; original_df := original_df (self st); changes := [] |} |}.

Definition get_changes (st : state) : list string := changes (self st).
Definition get_cleaned_df (st : state) : loc := df (self st).

(** The table [self.df] points to. *)
Definition current (st : state) : pd.DataFrame := deref (heap st) (df (self st)).

(** [self.df = v]: a new object, and [self.df] rebound to it. *)
Definition rebind (st : state) (v : pd.DataFrame) : state :=
  let '(h, l) := alloc (heap st) v in
  {| heap := h;
     self := {| df := l; original_df := original_df (self st);
                changes := changes (self st) |} |}.

(** An update of the object [self.df] points to, in place. *)
Definition mutate (st : state) (v : pd.DataFrame) : state :=
  {| heap := <[df (self st) := v]> (heap st); self := self st |}.

(** [self.changes.append(msg)]. *)
Definition log (st : state) (msg : string) : state :=
  {| heap := heap st;
     self := {| df := df (self st); original_df := original_df (self st);
                changes := (changes (self st) ++ [msg])%list |} |}.

Definition log_if (b : bool) (st : state) (msg : string) : state :=
  if b then log st msg else st.

(** [frames st st']: going from [st] to [st'] leaves every object other
    than the one [self.df] pointed to as it was and allocated, never makes
    [self.df] point to it, and does not rebind [self.original_df]. *)
Definition frames (st st' : state) : Prop :=
  original_df (self st') = original_df (self st)
  /\ forall l : loc,
       l <> df (self st) -> l ∈ dom (heap st) ->
       heap st' !! l = heap st !! l /\ l <> df (self st') /\ l ∈ dom (heap st').

(** ** Table-level steps *)

(** [df.dropna(how='all')]: the rows with at least one value present. *)
Definition dropna_rows_all (d : pd.DataFrame) : pd.DataFrame :=
  pd.loc_rows (List.map (existsb pd.notna) (pd.rows d)) d.

(** [df.dropna(axis=1, how='all')]. *)
Definition dropna_columns_all (d : pd.DataFrame) : pd.DataFrame :=
  {| pd.index := pd.index d;
     pd.columns := List.filter (fun s => existsb pd.notna (pd.values s))
                               (pd.columns d) |}.

(** [df[names]]: [KeyError] when a name is not a column. *)
Definition select (d : pd.DataFrame) (names : list string)
    : result (list pd.Series) :=
  for_each (fun n => match pd.getitem d n with
                     | Some s => Ok s
                     | None => Raise KeyError
                     end) names.

(** [df.drop_duplicates(subset=subset, keep=keep)]. *)
Definition drop_duplicates (subset : option (list string)) (k : pd.keep)
    (d : pd.DataFrame) : result pd.DataFrame :=
  cols ← match subset with
         | None => Ok (pd.columns d)
         | Some names => select d names
         end;
  let mask := pd.duplicated_rows k (pd.rows_of (length (pd.index d)) cols) in
  Ok (pd.loc_rows (List.map negb mask) d).

(** Element-wise [.str] method on an object column: strings are mapped,
    anything else becomes missing. *)
Definition str_map (f : string -> string) (vs : list pd.cell) : list pd.cell :=
  List.map (fun c => match c with
                     | pd.CStr s => pd.CStr (f s)
                     | _ => pd.CFloat F64.nan
                     end) vs.

(** [for col in columns: if col in df.columns: df[col] = df[col].str.f()].
    The [.str] accessor raises on a column that is not of object dtype; the
    columns assigned before that stay assigned. *)
Fixpoint str_loop (f : string -> string) (columns : list string)
    (d : pd.DataFrame) : pd.DataFrame * result unit :=
  match columns with
  | [] => (d, Ok tt)
  | col :: rest =>
      match pd.getitem d col with
      | None => str_loop f rest d
      | Some s =>
          if pd.is_object_dtype (pd.dtype_of s)
          then str_loop f rest (pd.setitem d col pd.Object (str_map f (pd.values s)))
          else (d, Raise AttributeError)
      end
  end.

(** The value a fill stores, and the dtype of the column afterwards. *)
Definition fits (t : pd.dtype) (c : pd.cell) : bool :=
  match t, c with
  | pd.Float64, pd.CFloat _ => true
  | pd.Int64, pd.CInt _ => true
  | pd.Bool, pd.CBool _ => true
  | pd.Datetime64, (pd.CInt _ | pd.CNone) => true
  | pd.Object, _ => true
  | _, _ => false
  end.

Definition coerce (t : pd.dtype) (c : pd.cell) : pd.cell :=
  match t, c with
  | pd.Float64, pd.CInt z => pd.CFloat (F64.of_Z z)
  | _, _ => c
  end.

(** [s.fillna(v)]. *)
Definition fillna (v : pd.cell) (s : pd.Series) : pd.Series :=
  let v' := coerce (pd.dtype_of s) v in
  {| pd.name := pd.name s;
     pd.dtype_of := if fits (pd.dtype_of s) v' then pd.dtype_of s else pd.Object;
     pd.values := List.map (fun c => if pd.isna c then v' else c) (pd.values s) |}.

(** [s.fillna(method='ffill')] and ['bfill']. *)
Fixpoint ffill_from (last : option pd.cell) (l : list pd.cell) : list pd.cell :=
  match l with
  | [] => []
  | c :: l' =>
      if pd.isna c
      then match last with Some v => v | None => c end :: ffill_from last l'
      else c :: ffill_from (Some c) l'
  end.

Definition with_values (s : pd.Series) (vs : list pd.cell) : pd.Series :=
  {| pd.name := pd.name s; pd.dtype_of := pd.dtype_of s; pd.values := vs |}.

Definition ffill (s : pd.Series) : pd.Series :=
  with_values s (ffill_from None (pd.values s)).
Definition bfill (s : pd.Series) : pd.Series :=
  with_values s (rev (ffill_from None (rev (pd.values s)))).

(** [str(col).lower().strip()], [.replace(' ', '_')], then the characters
    that are alphanumeric or an underscore. *)
Definition standard_name (col : string) : string :=
  let new_col := Py.strip (Py.lower col) in
  let new_col := Py.replace " " "_" new_col in
  Py.join_if (fun c => Py.isalnum c || Ascii.eqb c "_") new_col.

(** The same on lists of characters. *)
Definition name_char (c : ascii) : bool := Py.isalnum c || Ascii.eqb c "_".
Definition respace (c : ascii) : ascii := if Ascii.eqb c " " then "_"%char else c.
Definition standard_chars (l : list ascii) : list ascii :=
  List.filter name_char (List.map respace (Py.strip_chars (List.map lower_char l))).

(** A character that lowering leaves alone, that is not white space and is
    not a space. *)
Definition settled (c : ascii) : bool :=
  Ascii.eqb (lower_char c) c && negb (Py.isspace c) && negb (Ascii.eqb c " ").

(** [df.rename(columns=mapping)] with [mapping = {col: f(col)}]. *)
Definition rename (f : string -> string) (d : pd.DataFrame) : pd.DataFrame :=
  {| pd.index := pd.index d;
     pd.columns := List.map (fun s => {| pd.name := f (pd.name s);
                                         pd.dtype_of := pd.dtype_of s;
                                         pd.values := pd.values s |})
                            (pd.columns d) |}.

(** A value of a numeric column as a double. *)
Definition as_double (c : pd.cell) : float :=
  match c with
  | pd.CInt z => F64.of_Z z
  | pd.CFloat f => f
  | _ => F64.nan
  end.

Section WithLib.
Context `{L : pd.Lib}.

(** One column of [fill_missing_values], after the test
    [null_count == 0]. *)
Definition fill_column (method : string) (fill_value : option pd.cell)
    (s : pd.Series) : pd.Series :=
  if String.eqb method "mean" then
    if pd.is_numeric_dtype (pd.dtype_of s)
    then fillna (pd.CFloat (pd.mean (pd.values s))) s else s
  else if String.eqb method "median" then
    if pd.is_numeric_dtype (pd.dtype_of s)
    then fillna (pd.CFloat (pd.median (pd.values s))) s else s
  else if String.eqb method "mode" then
    match pd.mode (pd.values s) with
    | v :: _ => fillna v s
    | [] => s
    end
  else if String.eqb method "forward_fill" then ffill s
  else if String.eqb method "backward_fill" then bfill s
  else if String.eqb method "value" then
    match fill_value with
    | Some v => fillna v s
    | None => s
    end
  else s.

Definition fill_loop (method : string) (fill_value : option pd.cell)
    (columns : list string) (d : pd.DataFrame) : pd.DataFrame :=
  fold_left (fun d col =>
    match pd.getitem d col with
    | None => d
    | Some s =>
        if pd.isna_sum (pd.values s) =? 0 then d
        else
          let s' := fill_column method fill_value s in
          pd.setitem d col (pd.dtype_of s') (pd.values s')
    end) columns d.

(** [df[columns].isna().sum().sum()]. *)
Definition nulls_in (d : pd.DataFrame) (columns : list string) : result Z :=
  cols ← select d columns;
  Ok (fold_right Z.add 0 (List.map (fun s => pd.isna_sum (pd.values s)) cols)).

(** The IQR filter of one column:
    [df[(df[col] >= lower_bound) & (df[col] <= upper_bound)]]. *)
Definition iqr_mask (vs : list pd.cell) (threshold : float) : list bool :=
  let Q1 := pd.quantile vs (F64.literal 25 2) in
  let Q3 := pd.quantile vs (F64.literal 75 2) in
  let IQR := F64.sub Q3 Q1 in
  let lower_bound := F64.sub Q1 (F64.mul threshold IQR) in
  let upper_bound := F64.add Q3 (F64.mul threshold IQR) in
  List.map (fun c => F64.geb (as_double c) lower_bound
                     && F64.leb (as_double c) upper_bound) vs.

(** The z-score filter:
    [df[np.abs(stats.zscore(df[col].fillna(df[col].mean()))) < threshold]]. *)
Definition zscore_mask (s : pd.Series) (threshold : float) : list bool :=
  let filled := fillna (pd.CFloat (pd.mean (pd.values s))) s in
  List.map (fun z => F64.ltb (F64.abs z) threshold) (pd.zscore (pd.values filled)).

(** The loop of [remove_outliers]: every pass rebinds [self.df]. A column
    that is neither numeric nor (for the IQR method) a datetime makes the
    statistics raise. *)
Fixpoint outlier_loop (method : string) (threshold : float)
    (columns : list string) (st : state) : state * result unit :=
  match columns with
  | [] => (st, Ok tt)
  | col :: rest =>
      match pd.getitem (current st) col with
      | None => outlier_loop method threshold rest st
      | Some s =>
          if String.eqb method "iqr" then
            if pd.is_number_dtype (pd.dtype_of s) then
              outlier_loop method threshold rest
                (rebind st (pd.loc_rows (iqr_mask (pd.values s) threshold) (current st)))
            else
              match pd.dtype_of s with
              | pd.Datetime64 =>
                  outlier_loop method threshold rest
                    (rebind st (pd.loc_rows (pd.datetime_iqr_mask (pd.values s) threshold)
                                            (current st)))
              | _ => (st, Raise TypeError)
              end
          else if String.eqb method "zscore" then
            if pd.is_number_dtype (pd.dtype_of s) then
              outlier_loop method threshold rest
                (rebind st (pd.loc_rows (zscore_mask s threshold) (current st)))
            else (st, Raise TypeError)
          else outlier_loop method threshold rest st
      end
  end.

(** The dtype of the result of [pd.to_numeric]. *)
Definition numeric_dtype (vs : list pd.cell) : pd.dtype :=
  if forallb (fun c => match c with pd.CInt _ => true | _ => false end) vs
  then pd.Int64 else pd.Float64.

(** One item of [convert_dtypes]: the table after the assignment, or the
    warning to log. *)
Definition convert_column (d : pd.DataFrame) (col dtype : string) (s : pd.Series)
    : pd.DataFrame + string :=
  let warning (e : string) :=
    ("Warning: Could not convert " ++ col ++ " to " ++ dtype ++ ": " ++ e)%string in
  if String.eqb dtype "numeric" then
    match pd.to_numeric (pd.values s) with
    | Some vs => inl (pd.setitem d col (numeric_dtype vs) vs)
    | None => inr (warning (pd.exception_text (pd.values s)))
    end
  else if String.eqb dtype "datetime" then
    match pd.to_datetime (pd.values s) with
    | Some vs => inl (pd.setitem d col pd.Datetime64 vs)
    | None => inr (warning (pd.exception_text (pd.values s)))
    end
  else
    let target :=
      if String.eqb dtype "string" || String.eqb dtype "object" then "str"
      else dtype in
    match pd.astype target s with
    | inl s' => inl (pd.setitem d col (pd.dtype_of s') (pd.values s'))
    | inr e => inr (warning e)
    end.

(** ** The methods *)

Definition remove_empty_rows (st : state) : state * result unit :=
  let initial_rows := pd.len (current st) in
  let st := rebind st (dropna_rows_all (current st)) in
  let removed := initial_rows - pd.len (current st) in
  (log_if (0 <? removed) st
     ("Removed " ++ str_of_int removed ++ " completely empty rows"), Ok tt).

Definition remove_empty_columns (st : state) : state * result unit :=
  let initial_cols := pd.ncols (current st) in
  let st := rebind st (dropna_columns_all (current st)) in
  let removed := initial_cols - pd.ncols (current st) in
  (log_if (0 <? removed) st
     ("Removed " ++ str_of_int removed ++ " completely empty columns"), Ok tt).

Definition trim_whitespace (columns : option (list string)) (st : state)
    : state * result unit :=
  let columns := match columns with
                 | Some cs => cs
                 | None => List.map pd.name (pd.select_object (current st))
                 end in
  match str_loop Py.strip columns (current st) with
  | (d, Ok _) =>
      (log (mutate st d)
         ("Trimmed whitespace from " ++ str_of_int (Z.of_nat (length columns))
          ++ " columns"), Ok tt)
  | (d, Raise e) => (mutate st d, Raise e)
  end.

Definition remove_duplicates (subset : option (list string)) (keep : pd.keep)
    (st : state) : state * result unit :=
  let initial_rows := pd.len (current st) in
  match drop_duplicates subset keep (current st) with
  | Raise e => (st, Raise e)
  | Ok d =>
      let st := rebind st d in
      let removed := initial_rows - pd.len (current st) in
      (log_if (0 <? removed) st
         ("Removed " ++ str_of_int removed ++ " duplicate rows"), Ok tt)
  end.

Definition fill_missing_values (method : string) (columns : option (list string))
    (fill_value : option pd.cell) (st : state) : state * result unit :=
  let columns := match columns with
                 | Some cs => cs
                 | None => pd.column_names (current st)
                 end in
  match nulls_in (current st) columns with
  | Raise e => (st, Raise e)
  | Ok initial_nulls =>
      let st := mutate st (fill_loop method fill_value columns (current st)) in
      match nulls_in (current st) columns with
      | Raise e => (st, Raise e)
      | Ok final_nulls =>
          let filled := initial_nulls - final_nulls in
          (log_if (0 <? filled) st
             ("Filled " ++ str_of_int filled ++ " missing values using " ++ method),
           Ok tt)
      end
  end.

Definition standardize_column_names (st : state) : state * result unit :=
  (log (mutate st (rename standard_name (current st))) "Standardized column names",
   Ok tt).

Definition normalize_text_case (columns : option (list string)) (case : string)
    (st : state) : state * result unit :=
  let columns := match columns with
                 | Some cs => cs
                 | None => List.map pd.name (pd.select_object (current st))
                 end in
  let loop :=
    if String.eqb case "lower" then str_loop Py.lower columns (current st)
    else if String.eqb case "upper" then str_loop pd.upper columns (current st)
    else if String.eqb case "title" then str_loop pd.title columns (current st)
    else (current st, Ok tt) in
  match loop with
  | (d, Ok _) =>
      (log (mutate st d)
         ("Normalized text case to " ++ case ++ " in "
          ++ str_of_int (Z.of_nat (length columns)) ++ " columns"), Ok tt)
  | (d, Raise e) => (mutate st d, Raise e)
  end.

Definition remove_outliers (columns : option (list string)) (method : string)
    (threshold : float) (st : state) : state * result unit :=
  let columns := match columns with
                 | Some cs => cs
                 | None => List.map pd.name (pd.select_number (current st))
                 end in
  let initial_rows := pd.len (current st) in
  match outlier_loop method threshold columns st with
  | (st, Raise e) => (st, Raise e)
  | (st, Ok _) =>
      let removed := initial_rows - pd.len (current st) in
      (log_if (0 <? removed) st
         ("Removed " ++ str_of_int removed ++ " outlier rows using " ++ method),
       Ok tt)
  end.

Definition convert_dtypes (columns_types : list (string * string)) (st : state)
    : state * result unit :=
  (fold_left (fun st '(col, dtype) =>
     match pd.getitem (current st) col with
     | None => st
     | Some s =>
         match convert_column (current st) col dtype s with
         | inl d => mutate st d
         | inr w => log st w
         end
     end) columns_types st, Ok tt).

(** A call of one cleaning method with its arguments. *)
Inductive call : Type :=
  | RemoveEmptyRows
  | RemoveEmptyColumns
  | TrimWhitespace (columns : option (list string))
  | RemoveDuplicates (subset : option (list string)) (keep : pd.keep)
  | FillMissingValues (method : string) (columns : option (list string))
      (fill_value : option pd.cell)
  | StandardizeColumnNames
  | NormalizeTextCase (columns : option (list string)) (case : string)
  | RemoveOutliers (columns : option (list string)) (method : string)
      (threshold : float)
  | ConvertDtypes (columns_types : list (string * string)).

Definition perform (c : call) (st : state) : state * result unit :=
  match c with
  | RemoveEmptyRows => remove_empty_rows st
  | RemoveEmptyColumns => remove_empty_columns st
  | TrimWhitespace cs => trim_whitespace cs st
  | RemoveDuplicates subset keep => remove_duplicates subset keep st
  | FillMissingValues m cs v => fill_missing_values m cs v st
  | StandardizeColumnNames => standardize_column_names st
  | NormalizeTextCase cs case => normalize_text_case cs case st
  | RemoveOutliers cs m t => remove_outliers cs m t st
  | ConvertDtypes cts => convert_dtypes cts st
  end.

(** A sequence of calls; a call that raises leaves the state it reached. *)
Definition run (calls : list call) (st : state) : state :=
  fold_left (fun st c => fst (perform c st)) calls st.

End WithLib.
End CSVCleaner.

(* ===================================================================== *)
(** * main.py: the route [/api/clean] *)
(* ===================================================================== *)

Module Main.
Import CSVCleaner.

(** A value of the global dictionary [sessions]. The key ['changes'] is
    absent until the first successful cleaning. *)
Record session : Type := {
  filepath : string;
  session_df : loc;
  session_original_df : loc;
  filename : string;
  metadata : object;
  session_changes : option (list string)
}.

(** The dictionary [options] of the request, as the handler reads it: the
    truth value of each switch, and [options.get('fill_method', 'mean')],
    [options.get('text_case', 'lower')] and
    [options.get('outlier_method', 'iqr')]. *)
Record options : Type := {
  opt_remove_empty_rows : bool;
  opt_remove_empty_columns : bool;
  opt_trim_whitespace : bool;
  opt_remove_duplicates : bool;
  opt_standardize_column_names : bool;
  opt_fill_missing : bool;
  fill_method : string;
  opt_normalize_text_case : bool;
  text_case : string;
  opt_remove_outliers : bool;
  outlier_method : string
}.

(** The answer of the handler: the JSON body of a success, or the status of
    an error (400 for an unknown session, 500 with the exception caught). *)
Inductive response : Type :=
  | Cleaned (changes : list string) (rows columns : Z)
      (sample : list (list (string * pd.cell)))
  | Session_not_found
  | Server_error (e : exn).

(** The cleaning calls the handler makes, in the order it makes them. *)
Definition requested (o : options) : list call :=
  ((if opt_remove_empty_rows o then [RemoveEmptyRows] else [])
   ++ (if opt_remove_empty_columns o then [RemoveEmptyColumns] else [])
   ++ (if opt_trim_whitespace o then [TrimWhitespace None] else [])
   ++ (if opt_remove_duplicates o then [RemoveDuplicates None pd.KeepFirst] else [])
   ++ (if opt_standardize_column_names o then [StandardizeColumnNames] else [])
   ++ (if opt_fill_missing o then [FillMissingValues (fill_method o) None None] else [])
   ++ (if opt_normalize_text_case o then [NormalizeTextCase None (text_case o)] else [])
   ++ (if opt_remove_outliers o
       then [RemoveOutliers None (outlier_method o) (F64.literal 15 1)] else []))%list.

Section WithLib.
Context `{L : pd.Lib}.

(** Calls made one after the other inside [try:]; the first one that
    raises ends the sequence. *)
Fixpoint attempt (calls : list call) (st : state) : state * result unit :=
  match calls with
  | [] => (st, Ok tt)
  | c :: rest =>
      match perform c st with
      | (st', Ok _) => attempt rest st'
      | (st', Raise e) => (st', Raise e)
      end
  end.

(** [cleaned_df.head().to_dict('records')]. *)
Definition head_records (d : pd.DataFrame) : list (list (string * pd.cell)) :=
  List.map (combine (pd.column_names d)) (firstn 5 (pd.rows d)).

(** [clean_data()] for a request naming [session_id] with [options]: the
    store and the sessions afterwards, and the response. Building the
    response from the cleaned table is taken not to raise. *)
Definition clean_data (h : store) (sessions : gmap string session)
    (session_id : string) (o : options)
    : store * gmap string session * response :=
  match sessions !! session_id with
  | None => (h, sessions, Session_not_found)
  | Some s =>
      let '(h1, df) := copy h (session_df s) in
      let cleaner := init h1 df in
      match attempt (requested o) cleaner with
      | (st, Raise e) => (heap st, sessions, Server_error e)
      | (st, Ok _) =>
          let cleaned_df := get_cleaned_df st in
          let s' := {| filepath := filepath s;
                       session_df := cleaned_df;
                       session_original_df := session_original_df s;
                       filename := filename s;
                       metadata := metadata s;
                       session_changes := Some (get_changes st) |} in
          (heap st, <[session_id := s']> sessions,
           Cleaned (get_changes st)
                   (pd.len (deref (heap st) cleaned_df))
                   (pd.ncols (deref (heap st) cleaned_df))
                   (head_records (deref (heap st) cleaned_df)))
      end
  end.

End WithLib.
End Main.

(* ===================================================================== *)
(** * csv_loader.py *)
(* ===================================================================== *)

Module CSVLoader.

Definition delimiters : list ascii := [","; ";"; "009"; "|"]%char.

(** One pass of the loop of [_detect_delimiter] over the pair
    [(max_count, detected_sep)]. *)
Definition consider (line : string) (best : Z * ascii) (sep : ascii) : Z * ascii :=
  let count := Py.count sep line in
  if best.1 <? count then (count, sep) else best.

Definition _detect_delimiter (line : string) : ascii :=
  (fold_left (consider line) delimiters (0, ","%char)).2.

(** An entry of the list ['issues'] of [validate_structure]: the messages
    ['CSV not loaded'], ['CSV is empty'], ['Empty columns found: [...]'] and
    ['Unnamed columns found: [...]'], the last two with the list of column
    names they print. *)
Inductive issue : Type :=
  | CSV_not_loaded
  | CSV_is_empty
  | Empty_columns_found (empty_cols : list string)
  | Unnamed_columns_found (unnamed_cols : list string).

Record validation : Type := { is_valid : bool; issues : list issue }.

(** [[col for col in df.columns if df[col].isna().all()]]. *)
Definition empty_cols (df : pd.DataFrame) : list string :=
  List.map pd.name
    (List.filter (fun s => forallb pd.isna (pd.values s)) (pd.columns df)).

(** [[col for col in df.columns if 'Unnamed' in str(col)]]. *)
Definition unnamed_cols (df : pd.DataFrame) : list string :=
  List.filter (Py.contains "Unnamed") (pd.column_names df).

(** [validate_structure()]; [self.df] is [None] until a file is loaded. *)
Definition validate_structure (df : option pd.DataFrame) : validation :=
  match df with
  | None => {| is_valid := false; issues := [CSV_not_loaded] |}
  | Some df =>
      let issues := if pd.len df =? 0 then [CSV_is_empty] else [] in
      let issues :=
        match empty_cols df with
        | [] => issues
        | cols => (issues ++ [Empty_columns_found cols])%list
        end in
      let issues :=
        match unnamed_cols df with
        | [] => issues
        | cols => (issues ++ [Unnamed_columns_found cols])%list
        end in
      {| is_valid := true; issues := issues |}
  end.

End CSVLoader.

(* ===================================================================== *)
(** * A concrete library instance and example tables *)
(* ===================================================================== *)

Module Demo.

Definition is_digit (c : ascii) : bool := between 48 57 (code c).

(** The value of a non-empty string of decimal digits. *)
Definition parse_digits (s : string) : option Z :=
  match chars s with
  | [] => None
  | l =>
      if forallb is_digit l
      then Some (fold_left (fun n c => 10 * n + (code c - 48)) l 0)
      else None
  end.

(** A date written [YYYY-MM-DD]. *)
Definition is_iso_date (s : string) : bool :=
  match chars s with
  | [y1; y2; y3; y4; d1; m1; m2; d2; a1; a2] =>
      forallb is_digit [y1; y2; y3; y4; m1; m2; a1; a2]
      && Ascii.eqb d1 "-" && Ascii.eqb d2 "-"
  | _ => false
  end.

Definition to_numeric_cell (c : pd.cell) : pd.cell :=
  match c with
  | pd.CStr s =>
      match parse_digits s with
      | Some z => pd.CFloat (F64.of_Z z)
      | None => pd.CFloat F64.nan
      end
  | pd.CBool b => pd.CInt (if b then 1 else 0)
  | pd.CNone => pd.CFloat F64.nan
  | _ => c
  end.

Definition to_datetime_cell (digits_are_dates : bool) (c : pd.cell) : pd.cell :=
  match c with
  | pd.CStr s =>
      if is_iso_date s then pd.CInt 0
      else if digits_are_dates && bool_decide (is_Some (parse_digits s)) then pd.CInt 0
      else pd.CNone
  | _ => pd.CNone
  end.

Definition doubles (l : list pd.cell) : list float :=
  List.map CSVCleaner.as_double (pd.dropna l).

Definition fsum (l : list float) : float := fold_left F64.add l F64.zero.

Definition mean (l : list pd.cell) : float :=
  F64.div (fsum (doubles l)) (F64.of_Z (pd.size (pd.dropna l))).

Definition sq_dev (l : list pd.cell) : list float :=
  List.map (fun x => let d := F64.sub x (mean l) in F64.mul d d) (doubles l).

(** Sample standard deviation ([n - 1] in the denominator). *)
Definition std (l : list pd.cell) : float :=
  SFsqrt F64.prec F64.emax
    (F64.div (fsum (sq_dev l)) (F64.of_Z (pd.size (pd.dropna l) - 1))).

Fixpoint insert_asc (x : float) (l : list float) : list float :=
  match l with
  | [] => [x]
  | y :: l' => if F64.ltb y x then y :: insert_asc x l' else x :: y :: l'
  end.

(** Linear interpolation between the two order statistics around
    position [q * (n - 1)]. *)
Definition quantile (l : list pd.cell) (q : float) : float :=
  let xs := fold_right insert_asc [] (doubles l) in
  match xs with
  | [] => F64.nan
  | _ =>
      let pos := F64.mul q (F64.of_Z (Z.of_nat (length xs) - 1)) in
      match F64.trunc pos with
      | Some k =>
          let a := nth (Z.to_nat k) xs F64.nan in
          let b := nth (Z.to_nat k + 1) xs a in
          F64.add a (F64.mul (F64.sub b a) (F64.sub pos (F64.of_Z k)))
      | None => F64.nan
      end
  end.

(** Pearson's coefficient of two columns without missing values. *)
Definition corr (a b : list pd.cell) : float :=
  let da := List.map (fun x => F64.sub x (mean a)) (doubles a) in
  let db := List.map (fun y => F64.sub y (mean b)) (doubles b) in
  let dot u v := fsum (List.map (fun '(x, y) => F64.mul x y) (combine u v)) in
  F64.div (dot da db)
          (SFsqrt F64.prec F64.emax (F64.mul (dot da da) (dot db db))).

Definition zscore (l : list pd.cell) : list float :=
  List.map (fun x => F64.div (F64.sub x (mean l)) (std l))
           (List.map CSVCleaner.as_double l).

Definition upper_char (c : ascii) : ascii :=
  if between 97 122 (code c) then ascii_of_N (Z.to_N (code c - 32)) else c.

Definition make (digits_are_dates : bool) : pd.Lib :=
  {| pd.to_numeric := fun l => Some (List.map to_numeric_cell l);
     pd.to_datetime := fun l => Some (List.map (to_datetime_cell digits_are_dates) l);
     pd.std := std;
     pd.mean := mean;
     pd.median := fun l => quantile l (F64.literal 5 1);
     pd.mode := fun l => firstn 1 (pd.dropna l);
     pd.quantile := quantile;
     pd.corr := corr;
     pd.zscore := zscore;
     pd.astype := fun t s => if String.eqb t "str" then inl s else inr "unsupported";
     pd.upper := fun s => str (List.map upper_char (chars s));
     pd.title := fun s => s;
     pd.exception_text := fun _ => "conversion failed";
     pd.datetime_iqr_mask := fun l _ => List.map pd.notna l |}.

(** The instance used by the examples: pandas' answers on digit strings,
    ISO dates and small integer columns. *)
Definition lib : pd.Lib := make false.
(** The same, with digit strings also read as dates. *)
Definition lib_dates : pd.Lib := make true.

Definition series (n : string) (t : pd.dtype) (vs : list pd.cell) : pd.Series :=
  {| pd.name := n; pd.dtype_of := t; pd.values := vs |}.

Definition frame (cols : list pd.Series) : pd.DataFrame :=
  {| pd.index :=
       List.map Z.of_nat
         (seq 0 (match cols with s :: _ => length (pd.values s) | [] => 0%nat end));
     pd.columns := cols |}.

Definition strs (l : list string) : list pd.cell := List.map pd.CStr l.
Definition ints (l : list Z) : list pd.cell := List.map pd.CInt l.

(** An object column none of whose values is a number and none is null. *)
Definition words : pd.DataFrame :=
  frame [series "word" pd.Object (strs ["a"; "b"; "c"])].

(** Four numbers out of five values, and four dates out of five. *)
Definition mostly_numbers : pd.Series :=
  series "n" pd.Object (strs ["1"; "2"; "3"; "4"; "x"]).
Definition mostly_dates : pd.Series :=
  series "d" pd.Object
    (strs ["2020-01-01"; "2020-01-02"; "2020-01-03"; "2020-01-04"; "x"]).
Definition all_numbers : pd.Series :=
  series "n" pd.Object (strs ["1"; "2"; "3"; "4"; "5"]).

(** A header and no row. *)
Definition no_rows : pd.DataFrame := frame [series "a" pd.Object []].

(** A clean table: an integer column and a column of digit strings. *)
Definition clean : pd.DataFrame :=
  frame [series "id" pd.Int64 (ints [1; 2; 3]);
         series "code" pd.Object (strs ["7"; "8"; "9"])].

(** One numeric column. *)
Definition one_numeric : pd.DataFrame :=
  frame [series "x" pd.Int64 (ints [1; 2; 3]);
         series "tag" pd.Object (strs ["x"; "y"; "z"])].

(** Two perfectly anti-correlated columns. *)
Definition anti : pd.DataFrame :=
  frame [series "x" pd.Int64 (ints [1; 2; 3]);
         series "y" pd.Int64 (ints [3; 2; 1])].

(** Repeated rows. *)
Definition repeated : pd.DataFrame :=
  frame [series "k" pd.Int64 (ints [1; 2; 1; 1; 2]);
         series "v" pd.Object (strs ["a"; "b"; "a"; "a"; "b"])].

(** A numeric column with a missing value and an outlier. *)
Definition with_gap : pd.DataFrame :=
  frame [series "x" pd.Float64
           [pd.CFloat (F64.of_Z 1); pd.CFloat (F64.of_Z 2); pd.CFloat F64.nan;
            pd.CFloat (F64.of_Z 3); pd.CFloat (F64.of_Z 100)];
         series "tag" pd.Object (strs ["a"; "b"; "c"; "d"; "e"])].

(** Column names in need of standardizing. *)
Definition untidy : pd.DataFrame :=
  frame [series "  First Name " pd.Object (strs ["a"]);
         series "Total ($)" pd.Int64 (ints [1])].

(** A row that is missing throughout, a column that is missing throughout,
    and padded strings. *)
Definition with_empty_row : pd.DataFrame :=
  frame [series "name" pd.Object [pd.CStr " ann "; pd.CNone; pd.CStr "bob"];
         series "age" pd.Float64
           [pd.CFloat (F64.of_Z 31); pd.CFloat F64.nan; pd.CFloat F64.nan];
         series "note" pd.Float64
           [pd.CFloat F64.nan; pd.CFloat F64.nan; pd.CFloat F64.nan]].

(** A table one of whose columns is named ['total']. *)
Definition with_total : pd.DataFrame :=
  frame [series "item" pd.Object (strs ["a"; "b"]);
         series "total" pd.Float64 [pd.CFloat (F64.of_Z 5); pd.CFloat F64.nan]].

(** A store holding one table at address 0. *)
Definition store_of (d : pd.DataFrame) : gmap nat pd.DataFrame := {[ 0%nat := d ]}.

End Demo.

(* ===================================================================== *)
(** * Facts about binary64 arithmetic *)
(* ===================================================================== *)

Section RoundingFacts.

Lemma digits2_pos_bounds (m : positive) :
  2 ^ (Zpos (digits2_pos m) - 1) <= Zpos m < 2 ^ Zpos (digits2_pos m).
Proof.
  induction m as [m IH | m IH | ]; cbn [digits2_pos].
  - rewrite Pos2Z.inj_succ.
    replace (Z.succ (Zpos (digits2_pos m)) - 1) with (Z.succ (Zpos (digits2_pos m) - 1)) by lia.
    rewrite !Z.pow_succ_r by lia. lia.
  - rewrite Pos2Z.inj_succ.
    replace (Z.succ (Zpos (digits2_pos m)) - 1) with (Z.succ (Zpos (digits2_pos m) - 1)) by lia.
    rewrite !Z.pow_succ_r by lia. lia.
  - cbn. lia.
Qed.

Lemma shr_1_m (r : shr_record) :
  0 <= shr_m r -> shr_m (shr_1 r) = shr_m r / 2.
Proof.
  destruct r as [m r s]; cbn [shr_m]; intros Hm.
  destruct m as [ | [p | p | ] | p ]; cbn [shr_1 shr_m]; try lia; try reflexivity.
  - apply Z.div_unique with (r := 1); lia.
  - apply Z.div_unique with (r := 0); lia.
Qed.

Lemma shr_1_nonneg (r : shr_record) : 0 <= shr_m r -> 0 <= shr_m (shr_1 r).
Proof.
  intros H. rewrite shr_1_m by exact H. apply Z.div_pos; lia.
Qed.

Lemma pow2_xO (p : positive) : 2 ^ Zpos p~0 = 2 ^ Zpos p * 2 ^ Zpos p.
Proof.
  replace (Zpos p~0) with (Zpos p + Zpos p) by lia. apply Z.pow_add_r; lia.
Qed.

Lemma pow2_xI (p : positive) : 2 ^ Zpos p~1 = 2 * (2 ^ Zpos p * 2 ^ Zpos p).
Proof.
  replace (Zpos p~1) with (1 + (Zpos p + Zpos p)) by lia.
  rewrite Z.pow_add_r by lia. rewrite Z.pow_add_r by lia. reflexivity.
Qed.

Lemma iter_pos_shr_m (p : positive) (r : shr_record) :
  0 <= shr_m r ->
  shr_m (SpecFloat.iter_pos shr_1 p r) = shr_m r / 2 ^ Zpos p.
Proof.
  revert r. induction p as [p IH | p IH | ]; intros r Hr; cbn [SpecFloat.iter_pos].
  - assert (H1 : 0 <= shr_m (shr_1 r)) by (apply shr_1_nonneg; exact Hr).
    assert (H2 : 0 <= shr_m (SpecFloat.iter_pos shr_1 p (shr_1 r))).
    { rewrite IH by exact H1. apply Z.div_pos; lia. }
    rewrite IH by exact H2. rewrite IH by exact H1. rewrite shr_1_m by exact Hr.
    rewrite !Z.div_div by lia. rewrite pow2_xI. reflexivity.
  - assert (H2 : 0 <= shr_m (SpecFloat.iter_pos shr_1 p r)).
    { rewrite IH by exact Hr. apply Z.div_pos; lia. }
    rewrite IH by exact H2. rewrite IH by exact Hr.
    rewrite Z.div_div by lia. rewrite pow2_xO. reflexivity.
  - rewrite shr_1_m by exact Hr. reflexivity.
Qed.

Lemma shr_m_of_loc (m : Z) (l : location) : shr_m (shr_record_of_loc m l) = m.
Proof. destruct l as [ | [ | | ] ]; reflexivity. Qed.

Lemma shr_nonneg (r : shr_record) (e n : Z) :
  0 <= shr_m r -> 0 <= shr_m (fst (shr r e n)).
Proof.
  intros Hr. destruct n as [ | p | p ]; cbn [shr fst]; try exact Hr.
  rewrite iter_pos_shr_m by exact Hr. apply Z.div_pos; lia.
Qed.

Lemma round_nearest_even_ge (m : Z) (l : location) : m <= round_nearest_even m l.
Proof.
  destruct l as [ | [ | | ] ]; cbn [round_nearest_even]; try lia.
  destruct (Z.even m); lia.
Qed.

Lemma round_nearest_even_le (m : Z) (l : location) : round_nearest_even m l <= m + 1.
Proof.
  destruct l as [ | [ | | ] ]; cbn [round_nearest_even]; try lia.
  destruct (Z.even m); lia.
Qed.

(** Rounding a non-negative significand never produces NaN. *)
Lemma binary_round_aux_not_nan (s : bool) (m e : Z) (l : location) :
  0 <= m -> F64.is_nan (binary_round_aux F64.prec F64.emax s m e l) = false.
Proof.
  intros Hm. unfold binary_round_aux, shr_fexp.
  set (n1 := fexp F64.prec F64.emax (Zdigits2 m + e) - e).
  pose proof (shr_nonneg (shr_record_of_loc m l) e n1) as H1.
  rewrite shr_m_of_loc in H1. specialize (H1 Hm).
  destruct (shr (shr_record_of_loc m l) e n1) as [mrs1 e1]; cbn [fst] in H1.
  set (m1 := round_nearest_even (shr_m mrs1) (loc_of_shr_record mrs1)).
  assert (Hm1 : 0 <= m1).
  { pose proof (round_nearest_even_ge (shr_m mrs1) (loc_of_shr_record mrs1)). subst m1. lia. }
  set (n2 := fexp F64.prec F64.emax (Zdigits2 m1 + e1) - e1).
  pose proof (shr_nonneg (shr_record_of_loc m1 loc_Exact) e1 n2) as H2.
  rewrite shr_m_of_loc in H2. specialize (H2 Hm1).
  destruct (shr (shr_record_of_loc m1 loc_Exact) e1 n2) as [mrs2 e2]; cbn [fst] in H2.
  destruct (shr_m mrs2) as [ | p | p ]; try reflexivity; try lia.
  destruct (e2 <=? F64.emax - F64.prec); reflexivity.
Qed.

(** The shift applied before rounding leaves a positive significand
    positive as long as the exponent is not below [emin]. *)
Lemma shr_fexp_pos (m : positive) (e : Z) (l : location) :
  -1074 <= e ->
  0 < shr_m (fst (shr_fexp F64.prec F64.emax (Zpos m) e l))
  /\ -1074 <= snd (shr_fexp F64.prec F64.emax (Zpos m) e l).
Proof.
  intros He. unfold shr_fexp. cbn [Zdigits2].
  pose proof (digits2_pos_bounds m) as [Hlo Hhi].
  set (d := Zpos (digits2_pos m)) in *.
  unfold fexp, SpecFloat.emin, F64.prec, F64.emax.
  remember (Z.max (d + e - 53) (3 - 1024 - 53) - e) as n eqn:Hn.
  destruct n as [ | p | p ]; cbn [shr fst snd]; rewrite ?shr_m_of_loc; try lia.
  rewrite iter_pos_shr_m by (rewrite shr_m_of_loc; lia).
  rewrite shr_m_of_loc. split; [ | lia ].
  assert (Hp : Zpos p = d - 53) by lia.
  assert (Hle : 2 ^ Zpos p <= Zpos m).
  { etransitivity; [ | exact Hlo ]. apply Z.pow_le_mono_r; lia. }
  apply Z.div_str_pos. split; [ apply Z.pow_pos_nonneg; lia | exact Hle ].
Qed.

Lemma binary_round_aux_nonzero (s : bool) (m : positive) (e : Z) (l : location) :
  -1074 <= e ->
  F64.signed_nonzero s (binary_round_aux F64.prec F64.emax s (Zpos m) e l) = true.
Proof.
  intros He. unfold binary_round_aux.
  pose proof (shr_fexp_pos m e l He) as [H1 H1e].
  destruct (shr_fexp F64.prec F64.emax (Zpos m) e l) as [mrs1 e1]; cbn [fst snd] in *.
  pose proof (round_nearest_even_ge (shr_m mrs1) (loc_of_shr_record mrs1)) as Hge.
  remember (round_nearest_even (shr_m mrs1) (loc_of_shr_record mrs1)) as m1 eqn:Hm1.
  destruct m1 as [ | p1 | p1 ]; try lia.
  pose proof (shr_fexp_pos p1 e1 loc_Exact H1e) as [H2 _].
  destruct (shr_fexp F64.prec F64.emax (Zpos p1) e1 loc_Exact) as [mrs2 e2]; cbn [fst] in *.
  destruct (shr_m mrs2) as [ | p2 | p2 ]; try lia.
  destruct (e2 <=? F64.emax - F64.prec); cbn; apply eqb_reflx.
Qed.

Lemma of_Z_pos (z : Z) : 0 < z -> F64.signed_nonzero false (F64.of_Z z) = true.
Proof.
  intros Hz. destruct z as [ | p | p ]; try lia.
  unfold F64.of_Z, binary_normalize, binary_round.
  destruct (shl_align p 0 _) as [mz ez] eqn:Hs.
  apply binary_round_aux_nonzero.
  unfold shl_align in Hs.
  destruct (fexp F64.prec F64.emax (Zpos (digits2_pos p) + 0) - 0) as [ | q | q ] eqn:Hq;
    inversion Hs; subst; try lia.
  unfold fexp, SpecFloat.emin, F64.prec, F64.emax in *. lia.
Qed.

(** [0 / n] is [0.0] for every positive count [n]. *)
Lemma div_zero_of_Z (z : Z) :
  0 < z -> F64.div (S754_zero false) (F64.of_Z z) = S754_zero false.
Proof.
  intros Hz. pose proof (of_Z_pos z Hz) as H.
  destruct (F64.of_Z z) as [ s | s | | s m e ]; cbn in H; try discriminate;
    destruct s; try discriminate; reflexivity.
Qed.

End RoundingFacts.

(** ** Order on doubles *)

Lemma SFcompare_antisym (x y : float) :
  SFcompare y x = option_map CompOpp (SFcompare x y).
Proof.
  destruct x as [sx | sx | | sx mx ex], y as [sy | sy | | sy my ey]; cbn;
    try reflexivity;
    try (destruct sx; reflexivity); try (destruct sy; reflexivity);
    try (destruct sx, sy; reflexivity).
  destruct sx, sy; cbn; try reflexivity;
    rewrite (Z.compare_antisym ex ey); destruct (ex ?= ey); cbn; try reflexivity;
    change (Pos.compare_cont Eq my mx) with (Pos.compare my mx);
    change (Pos.compare_cont Eq mx my) with (Pos.compare mx my);
    rewrite (Pos.compare_antisym mx my); destruct (Pos.compare mx my); reflexivity.
Qed.

Lemma eqb_sym (x y : float) : F64.eqb x y = F64.eqb y x.
Proof.
  unfold F64.eqb, SFeqb. rewrite (SFcompare_antisym y x).
  destruct (SFcompare y x) as [ [ | | ] | ]; reflexivity.
Qed.

Lemma compare_not_nan (x y : float) :
  F64.is_nan x = false -> F64.is_nan y = false -> exists c, SFcompare x y = Some c.
Proof.
  destruct x, y; cbn; intros; try discriminate; eauto.
Qed.

(** On numbers, [not (x < y)] is [y <= x]. *)
Lemma ltb_false_leb (x y : float) :
  F64.is_nan x = false -> F64.is_nan y = false ->
  F64.ltb x y = false -> F64.leb y x = true.
Proof.
  intros Hx Hy. unfold F64.ltb, F64.leb, SFltb, SFleb.
  rewrite (SFcompare_antisym x y).
  destruct (compare_not_nan x y Hx Hy) as [c ->]. destruct c; cbn; congruence.
Qed.

Lemma ltb_leb (x y : float) : F64.ltb x y = true -> F64.leb x y = true.
Proof.
  unfold F64.ltb, F64.leb, SFltb, SFleb.
  destruct (SFcompare x y) as [ [ | | ] | ]; congruence.
Qed.

(** A comparison that holds has no NaN operand. *)
Lemma ltb_not_nan (x y : float) :
  F64.ltb x y = true -> F64.is_nan x = false /\ F64.is_nan y = false.
Proof.
  unfold F64.ltb, SFltb. destruct x, y; cbn; intros; try discriminate; auto.
Qed.

Lemma leb_not_nan (x y : float) :
  F64.leb x y = true -> F64.is_nan x = false /\ F64.is_nan y = false.
Proof.
  unfold F64.leb, SFleb. destruct x, y; cbn; intros; try discriminate; auto.
Qed.

Lemma abs_not_nan (x : float) : F64.is_nan (F64.abs x) = F64.is_nan x.
Proof. destruct x; reflexivity. Qed.

(** [round] of a number is a number. *)
Lemma round_float_not_nan (x : float) (d : Z) :
  F64.is_nan x = false -> F64.is_nan (round_float x d) = false.
Proof.
  destruct x as [s | s | | s m e]; cbn [round_float]; try (intros; assumption).
  intros _.
  match goal with |- context [match ?y with Zpos _ => _ | _ => _ end] => destruct y as [ | q | q ] end;
    try reflexivity.
  unfold F64.div, SFdiv, F64.exact.
  assert (Hp : 0 < 10 ^ d \/ 10 ^ d = 0).
  { destruct (Z.lt_ge_cases d 0) as [Hd | Hd].
    - right. apply Z.pow_neg_r. exact Hd.
    - left. apply Z.pow_pos_nonneg; lia. }
  destruct (10 ^ d) as [ | p | p ]; try lia; try reflexivity.
  destruct (SFdiv_core_binary F64.prec F64.emax (Zpos q) 0 (Zpos p) 0) as [[mz ez] lz] eqn:Hc.
  apply binary_round_aux_not_nan.
  unfold SFdiv_core_binary in Hc.
  match type of Hc with context [Z.div_eucl ?a ?b] =>
    pose proof (Z.div_eucl_eq a b ltac:(lia)) as Hq;
    pose proof (Z.mod_pos_bound a b ltac:(lia)) as Hr;
    assert (Ha : 0 <= a);
    [ | unfold Z.modulo in Hr; destruct (Z.div_eucl a b) as [q0 r0] ]
  end.
  { match goal with |- 0 <= match ?s with _ => _ end => destruct s end; try lia.
    apply Z.shiftl_nonneg. lia. }
  inversion Hc; subst. nia.
Qed.

(** ** Conversion of a count and the quotient of two counts *)

Section Quotient.

Lemma digits_of_range (p : positive) (d : Z) :
  2 ^ (d - 1) <= Zpos p < 2 ^ d -> Zpos (digits2_pos p) = d.
Proof.
  intros [Hlo Hhi]. pose proof (digits2_pos_bounds p) as [Blo Bhi].
  set (D := Zpos (digits2_pos p)) in *.
  assert (HD : 0 < D) by (unfold D; lia).
  destruct (Z.lt_trichotomy D d) as [Hlt | [Heq | Hgt]]; [ | exact Heq | ].
  - exfalso. assert (2 ^ D <= 2 ^ (d - 1)) by (apply Z.pow_le_mono_r; lia). lia.
  - exfalso. destruct (Z.le_gt_cases 0 d) as [Hd | Hd].
    + assert (2 ^ d <= 2 ^ (D - 1)) by (apply Z.pow_le_mono_r; lia). lia.
    + rewrite (Z.pow_neg_r 2 d) in Hhi by lia. lia.
Qed.

Lemma iter_xO_value (p q : positive) : Zpos (Pos.iter xO p q) = Zpos p * 2 ^ Zpos q.
Proof.
  induction q as [ | q IH] using Pos.peano_ind.
  - cbn. lia.
  - rewrite Pos.iter_succ, Pos2Z.inj_xO, IH, Pos2Z.inj_succ, Z.pow_succ_r by lia. lia.
Qed.

(** A positive integer below [2^53] converts exactly, to a significand of
    53 digits. *)
Lemma of_Z_exact (z : Z) :
  0 < z < 2 ^ 53 ->
  exists (m : positive) (d : Z),
    F64.of_Z z = S754_finite false m (d - 53)
    /\ 1 <= d <= 53
    /\ 2 ^ (d - 1) <= z < 2 ^ d
    /\ Zpos m = z * 2 ^ (53 - d).
Proof.
  intros [Hpos Hlt]. destruct z as [ | p | p ]; try lia.
  pose proof (digits2_pos_bounds p) as [Blo Bhi].
  set (d := Zpos (digits2_pos p)) in *.
  assert (Hd1 : 1 <= d) by (unfold d; lia).
  assert (Hd53 : d <= 53).
  { destruct (Z.le_gt_cases d 53) as [H | H]; [ exact H | exfalso ].
    assert (2 ^ 53 <= 2 ^ (d - 1)) by (apply Z.pow_le_mono_r; lia). lia. }
  unfold F64.of_Z, binary_normalize, binary_round.
  unfold shl_align, fexp, SpecFloat.emin, F64.prec, F64.emax. fold d.
  replace (Z.max (d + 0 - 53) (3 - 1024 - 53)) with (d - 53) by lia.
  rewrite Z.sub_0_r.
  assert (Hround : forall m : positive,
            Zpos m = Zpos p * 2 ^ (53 - d) ->
            binary_round_aux 53 1024 false (Zpos m) (d - 53) loc_Exact
            = S754_finite false m (d - 53)).
  { intros m Hm.
    assert (Hdm : Zpos (digits2_pos m) = 53).
    { apply digits_of_range. rewrite Hm. split.
      - replace (53 - 1) with ((d - 1) + (53 - d)) by lia.
        rewrite Z.pow_add_r by lia. apply Z.mul_le_mono_nonneg_r; [ apply Z.pow_nonneg; lia | exact Blo ].
      - replace 53 with (d + (53 - d)) at 2 by lia.
        rewrite Z.pow_add_r by lia. apply Z.mul_lt_mono_pos_r; [ apply Z.pow_pos_nonneg; lia | exact Bhi ]. }
    unfold binary_round_aux, shr_fexp, fexp, SpecFloat.emin. cbn [Zdigits2]. rewrite Hdm.
    replace (Z.max (53 + (d - 53) - 53) (3 - 1024 - 53) - (d - 53)) with 0 by lia.
    cbn [shr shr_record_of_loc loc_of_shr_record shr_m round_nearest_even Zdigits2].
    rewrite Hdm.
    replace (Z.max (53 + (d - 53) - 53) (3 - 1024 - 53) - (d - 53)) with 0 by lia.
    cbn [shr shr_record_of_loc shr_m].
    replace (d - 53 <=? 1024 - 53) with true by (symmetry; apply Z.leb_le; lia).
    reflexivity. }
  assert (Hal : exists m : positive,
            match d - 53 with
            | Zneg q => (Pos.iter xO p q, d - 53)
            | _ => (p, 0)
            end = (m, d - 53)
            /\ Zpos m = Zpos p * 2 ^ (53 - d)).
  { destruct (d - 53) as [ | q | q ] eqn:Hq; try lia.
    - exists p. split; [ reflexivity | ]. replace (53 - d) with 0 by lia. cbn. lia.
    - exists (Pos.iter xO p q). split; [ reflexivity | ].
      rewrite iter_xO_value. f_equal. f_equal. lia. }
  destruct Hal as (m & -> & Hm). exists m, d.
  split; [ apply Hround; exact Hm | ].
  split; [ lia | split; [ split; assumption | exact Hm ] ].
Qed.

(** The shift that brings a significand of 53 or 54 digits to 53. *)
Lemma shr_fexp_norm (m e : Z) (l : location) :
  2 ^ 52 <= m < 2 ^ 54 -> -1074 <= e ->
  let r := shr_fexp 53 1024 m e l in
  (m < 2 ^ 53 /\ shr_m r.1 = m /\ r.2 = e)
  \/ (2 ^ 53 <= m /\ shr_m r.1 = m / 2 /\ r.2 = e + 1).
Proof.
  intros [Hlo Hhi] He. destruct m as [ | p | p ]; try lia.
  unfold shr_fexp, fexp, SpecFloat.emin. cbn [Zdigits2 fst snd].
  destruct (Z.lt_ge_cases (Zpos p) (2 ^ 53)) as [H53 | H53].
  - left. rewrite (digits_of_range p 53) by (split; [ exact Hlo | exact H53 ]).
    replace (Z.max (53 + e - 53) (3 - 1024 - 53) - e) with 0 by lia.
    cbn [shr fst snd]. rewrite shr_m_of_loc. auto.
  - right. rewrite (digits_of_range p 54) by (split; [ exact H53 | exact Hhi ]).
    replace (Z.max (54 + e - 53) (3 - 1024 - 53) - e) with 1 by lia.
    cbn [shr fst snd SpecFloat.iter_pos].
    rewrite shr_1_m by (rewrite shr_m_of_loc; lia). rewrite shr_m_of_loc.
    split; [ exact H53 | split; [ reflexivity | lia ] ].
Qed.

(** Rounding a significand of 53 or 54 digits: the result is normal, and
    its significand is the (halved) input or the next integer. *)
Lemma binary_round_aux_norm (m e : Z) (l : location) :
  2 ^ 52 <= m < 2 ^ 54 -> -1074 <= e <= 900 ->
  exists (m1 : positive) (e1 : Z),
    binary_round_aux 53 1024 false m e l = S754_finite false m1 e1
    /\ 2 ^ 52 <= Zpos m1 < 2 ^ 53
    /\ ((m < 2 ^ 53 /\ e1 = e /\ m <= Zpos m1 <= m + 1)
        \/ (m < 2 ^ 53 /\ e1 = e + 1 /\ m + 1 = 2 ^ 53 /\ Zpos m1 = 2 ^ 52)
        \/ (2 ^ 53 <= m /\ e1 = e + 1 /\ m / 2 <= Zpos m1 <= m / 2 + 1)
        \/ (2 ^ 53 <= m /\ e1 = e + 2 /\ m / 2 + 1 = 2 ^ 53 /\ Zpos m1 = 2 ^ 52)).
Proof.
  intros Hm He. unfold binary_round_aux.
  pose proof (shr_fexp_norm m e l Hm ltac:(lia)) as H1. cbn zeta in H1.
  destruct (shr_fexp 53 1024 m e l) as [mrs1 e1]. cbn [fst snd] in H1.
  set (a := shr_m mrs1) in *.
  pose proof (round_nearest_even_ge a (loc_of_shr_record mrs1)) as Hge.
  pose proof (round_nearest_even_le a (loc_of_shr_record mrs1)) as Hle.
  set (m1 := round_nearest_even a (loc_of_shr_record mrs1)) in *.
  assert (Ha : 2 ^ 52 <= a < 2 ^ 53).
  { destruct H1 as [(H & -> & _) | (H & -> & _)]; [ lia | ].
    split; [ apply Z.div_le_lower_bound; lia | apply Z.div_lt_upper_bound; lia ]. }
  assert (He1 : -1074 <= e1 <= 901) by (destruct H1 as [(_ & _ & ->) | (_ & _ & ->)]; lia).
  pose proof (shr_fexp_norm m1 e1 loc_Exact ltac:(lia) ltac:(lia)) as H2. cbn zeta in H2.
  destruct (shr_fexp 53 1024 m1 e1 loc_Exact) as [mrs2 e2]. cbn [fst snd] in H2.
  destruct H2 as [(Hlt & Hs & ->) | (Hge2 & Hs & ->)]; rewrite Hs.
  - destruct m1 as [ | p1 | p1 ] eqn:Em1; try lia.
    replace (e1 <=? 1024 - 53) with true by (symmetry; apply Z.leb_le; lia).
    exists p1, e1. split; [ reflexivity | split; [ lia | ] ].
    destruct H1 as [(H & Hs1 & ->) | (H & Hs1 & ->)].
    + left. split; [ exact H | split; [ reflexivity | lia ] ].
    + right. right. left. split; [ exact H | split; [ reflexivity | lia ] ].
  - assert (Em1 : m1 = 2 ^ 53) by lia. rewrite Em1.
    change (2 ^ 53 / 2) with (Zpos (Z.to_pos (2 ^ 52))).
    cbv beta iota.
    replace (e1 + 1 <=? 1024 - 53) with true by (symmetry; apply Z.leb_le; lia).
    exists (Z.to_pos (2 ^ 52)), (e1 + 1). split; [ reflexivity | split; [ cbn; lia | ] ].
    destruct H1 as [(H & Hs1 & ->) | (H & Hs1 & ->)].
    + right. left. split; [ exact H | split; [ reflexivity | split; [ lia | reflexivity ] ] ].
    + right. right. right.
      split; [ exact H | split; [ lia | split; [ lia | reflexivity ] ] ].
Qed.

(** The quotient of two doubles with 53-digit significands is the rounded
    integer quotient of the significands, the dividend scaled by [2^53]. *)
Lemma div_canonical (m1 m2 : positive) (e1 e2 : Z) :
  2 ^ 52 <= Zpos m1 < 2 ^ 53 -> 2 ^ 52 <= Zpos m2 < 2 ^ 53 ->
  -60 <= e1 <= 0 -> -60 <= e2 <= 0 ->
  F64.div (S754_finite false m1 e1) (S754_finite false m2 e2)
  = binary_round_aux 53 1024 false ((Zpos m1 * 2 ^ 53) / Zpos m2) (e1 - e2 - 53)
      (new_location (Zpos m2) ((Zpos m1 * 2 ^ 53) mod Zpos m2)).
Proof.
  intros H1 H2 He1 He2.
  unfold F64.div, SFdiv, SFdiv_core_binary, fexp, SpecFloat.emin, F64.prec, F64.emax.
  cbn [Zdigits2 xorb].
  rewrite (digits_of_range m1 53 H1), (digits_of_range m2 53 H2).
  replace (Z.min (Z.max (53 + e1 - (53 + e2) - 53) (3 - 1024 - 53)) (e1 - e2))
    with (e1 - e2 - 53) by lia.
  replace (e1 - e2 - (e1 - e2 - 53)) with 53 by lia.
  cbv beta iota. rewrite Z.shiftl_mul_pow2 by lia.
  unfold Z.div, Z.modulo.
  destruct (Z.div_eucl (Zpos m1 * 2 ^ 53) (Zpos m2)) as [q r]. reflexivity.
Qed.

(** Comparison of a positive double with the literal [0.8]. *)
Lemma gtb_literal_0_8 (m : positive) (e : Z) :
  F64.gtb (S754_finite false m e) (F64.literal 8 1)
  = match -53 ?= e with
    | Lt => true
    | Gt => false
    | Eq => 7205759403792794 <? Zpos m
    end.
Proof.
  change (F64.literal 8 1) with (S754_finite false 7205759403792794 (-53)).
  unfold F64.gtb, F64.ltb, SFltb, SFcompare.
  destruct (-53 ?= e); reflexivity.
Qed.

(** The test [k / n > 0.8] on counts: in double precision it holds exactly
    when [k / n] exceeds four fifths, for every column of fewer than [2^50]
    values. *)
Lemma ratio_exceeds_0_8 (k n : Z) :
  0 <= k <= n -> 0 < n < 2 ^ 50 ->
  F64.gtb (F64.div (F64.of_Z k) (F64.of_Z n)) (F64.literal 8 1) = (4 * n <? 5 * k).
Proof.
  intros Hk Hn.
  destruct (Z.eq_dec k 0) as [-> | Hk0].
  { change (F64.of_Z 0) with (S754_zero false).
    rewrite (div_zero_of_Z n) by lia.
    symmetry. transitivity false; [ apply Z.ltb_ge; lia | reflexivity ]. }
  destruct (of_Z_exact k ltac:(lia)) as (mk & dk & -> & Hdk & Hkd & Hmk).
  destruct (of_Z_exact n ltac:(lia)) as (mn & dn & -> & Hdn & Hnd & Hmn).
  assert (Hdd : dk <= dn).
  { destruct (Z.le_gt_cases dk dn) as [H | H]; [ exact H | exfalso ].
    assert (2 ^ dn <= 2 ^ (dk - 1)) by (apply Z.pow_le_mono_r; lia). lia. }
  set (c := dn - dk) in *.
  set (B := 2 ^ (53 - dn)) in *.
  set (C := 2 ^ c).
  assert (HB : 0 < B) by (apply Z.pow_pos_nonneg; lia).
  assert (HC : 0 < C) by (apply Z.pow_pos_nonneg; lia).
  assert (HA : 2 ^ (53 - dk) = C * B).
  { unfold C, B, c. rewrite <- Z.pow_add_r by lia. f_equal. lia. }
  rewrite HA in Hmk.
  assert (HkC : k * C < 2 * n).
  { assert (E : 2 ^ dn = 2 ^ dk * C).
    { unfold C, c. rewrite <- Z.pow_add_r by lia. f_equal. lia. }
    assert (E2 : 2 ^ dn = 2 * 2 ^ (dn - 1)).
    { replace dn with (Z.succ (dn - 1)) at 1 by lia. apply Z.pow_succ_r. lia. }
    assert (k * C < 2 ^ dk * C) by (apply Z.mul_lt_mono_pos_r; lia). lia. }
  assert (Rk : 2 ^ 52 <= Zpos mk < 2 ^ 53).
  { rewrite Hmk. replace (k * (C * B)) with (k * 2 ^ (53 - dk)) by (rewrite HA; ring).
    split.
    - replace 52 with ((dk - 1) + (53 - dk)) by lia. rewrite Z.pow_add_r by lia.
      apply Z.mul_le_mono_nonneg_r; [ apply Z.pow_nonneg; lia | lia ].
    - replace 53 with (dk + (53 - dk)) at 2 by lia. rewrite Z.pow_add_r by lia.
      apply Z.mul_lt_mono_pos_r; [ apply Z.pow_pos_nonneg; lia | lia ]. }
  assert (Rn : 2 ^ 52 <= Zpos mn < 2 ^ 53).
  { rewrite Hmn. unfold B. split.
    - replace 52 with ((dn - 1) + (53 - dn)) by lia. rewrite Z.pow_add_r by lia.
      apply Z.mul_le_mono_nonneg_r; [ apply Z.pow_nonneg; lia | lia ].
    - replace 53 with (dn + (53 - dn)) at 2 by lia. rewrite Z.pow_add_r by lia.
      apply Z.mul_lt_mono_pos_r; [ apply Z.pow_pos_nonneg; lia | lia ]. }
  rewrite (div_canonical mk mn (dk - 53) (dn - 53) Rk Rn) by lia.
  set (X := Zpos mk * 2 ^ 53).
  pose proof (Z.div_mod X (Zpos mn) ltac:(lia)) as HX.
  pose proof (Z.mod_pos_bound X (Zpos mn) ltac:(lia)) as Hr.
  set (q := X / Zpos mn) in *. set (r := X mod Zpos mn) in *.
  (* the integer quotient, with the common power of two cancelled *)
  assert (F1 : n * q <= k * C * 2 ^ 53).
  { apply (Z.mul_le_mono_pos_r _ _ B HB).
    replace (n * q * B) with (Zpos mn * q) by (rewrite Hmn; ring).
    replace (k * C * 2 ^ 53 * B) with X by (unfold X; rewrite Hmk; ring). lia. }
  assert (F2 : k * C * 2 ^ 53 < n * (q + 1)).
  { apply (Z.mul_lt_mono_pos_r B _ _ HB).
    replace (n * (q + 1) * B) with (Zpos mn * q + Zpos mn) by (rewrite Hmn; ring).
    replace (k * C * 2 ^ 53 * B) with X by (unfold X; rewrite Hmk; ring). lia. }
  assert (Rq : 2 ^ 52 <= q < 2 ^ 54).
  { unfold q. split.
    - apply Z.div_le_lower_bound; [ lia | ]. unfold X.
      assert (Zpos mn * 2 ^ 52 <= 2 ^ 53 * 2 ^ 52) by (apply Z.mul_le_mono_nonneg_r; lia).
      assert (2 ^ 52 * 2 ^ 53 <= Zpos mk * 2 ^ 53) by (apply Z.mul_le_mono_nonneg_r; lia).
      lia.
    - apply Z.div_lt_upper_bound; [ lia | ]. unfold X.
      assert (Zpos mk * 2 ^ 53 < 2 ^ 53 * 2 ^ 53) by (apply Z.mul_lt_mono_pos_r; lia).
      assert (2 ^ 52 * 2 ^ 54 <= Zpos mn * 2 ^ 54) by (apply Z.mul_le_mono_nonneg_r; lia).
      lia. }
  destruct (binary_round_aux_norm q (dk - 53 - (dn - 53) - 53)
              (new_location (Zpos mn) r) Rq ltac:(lia))
    as (m1 & e1 & -> & Rm1 & Hcase).
  rewrite gtb_literal_0_8.
  replace (dk - 53 - (dn - 53) - 53) with (- c - 53) in Hcase by (unfold c; lia).
  assert (Hc0 : 0 <= c) by (unfold c; lia).
  (* the three ranges of the exponent difference *)
  destruct (Z.eq_dec c 0) as [Ec | Ec0];
    [ | destruct (Z.eq_dec c 1) as [Ec | Ec1] ].
  - (* same number of digits *)
    assert (EC : C = 1) by (unfold C; rewrite Ec; reflexivity).
    rewrite EC in F1, F2, HkC. rewrite Ec in Hcase.
    destruct Hcase as [(Hq & -> & Hm) | [(Hq & -> & Hq1 & Hm) | [(Hq & -> & Hm) | (Hq & -> & Hq1 & Hm)]]];
      cbn [Z.compare Z.add Z.opp Z.sub Pos.compare Pos.compare_cont Z.pos_sub].
    + destruct (Z.ltb_spec (4 * n) (5 * k)) as [H45 | H45].
      * apply Z.ltb_lt.
        assert (7205759403792794 + 1 <= q); [ | lia ].
        destruct (Z.le_gt_cases (7205759403792794 + 1) q) as [G | G]; [ exact G | exfalso ].
        assert (n * (q + 1) <= n * (7205759403792794 + 1))
          by (apply Z.mul_le_mono_nonneg_l; lia).
        lia.
      * apply Z.ltb_ge.
        assert (q <= 7205759403792794 - 1); [ | lia ].
        destruct (Z.le_gt_cases q (7205759403792794 - 1)) as [G | G]; [ exact G | exfalso ].
        assert (n * 7205759403792794 <= n * q) by (apply Z.mul_le_mono_nonneg_l; lia).
        lia.
    + symmetry. apply Z.ltb_lt.
      assert (n * q = n * 2 ^ 53 - n) by (replace q with (2 ^ 53 - 1) by lia; ring). lia.
    + symmetry. apply Z.ltb_lt.
      assert (n * 2 ^ 53 <= n * q) by (apply Z.mul_le_mono_nonneg_l; lia). lia.
    + symmetry. apply Z.ltb_lt.
      assert (n * 2 ^ 53 <= n * q) by (apply Z.mul_le_mono_nonneg_l; lia). lia.
  - (* the count has one digit less than the length *)
    assert (EC : C = 2) by (unfold C; rewrite Ec; reflexivity).
    rewrite EC in F1, F2, HkC. rewrite Ec in Hcase.
    destruct Hcase as [(Hq & -> & Hm) | [(Hq & -> & Hq1 & Hm) | [(Hq & -> & Hm) | (Hq & -> & Hq1 & Hm)]]];
      cbn [Z.compare Z.add Z.opp Z.sub Pos.compare Pos.compare_cont Z.pos_sub].
    + symmetry. apply Z.ltb_ge.
      assert (n * (q + 1) <= n * 2 ^ 53) by (apply Z.mul_le_mono_nonneg_l; lia). lia.
    + rewrite Hm. symmetry. transitivity false; [ | reflexivity ]. apply Z.ltb_ge.
      assert (n * (q + 1) <= n * 2 ^ 53) by (apply Z.mul_le_mono_nonneg_l; lia). lia.
    + pose proof (Z.div_mod q 2 ltac:(lia)) as Hq2.
      pose proof (Z.mod_pos_bound q 2 ltac:(lia)) as Hr2.
      destruct (Z.ltb_spec (4 * n) (5 * k)) as [H45 | H45].
      * apply Z.ltb_lt.
        assert (2 * 7205759403792794 + 2 <= q); [ | lia ].
        destruct (Z.le_gt_cases (2 * 7205759403792794 + 2) q) as [G | G]; [ exact G | exfalso ].
        assert (n * (q + 1) <= n * (2 * 7205759403792794 + 2))
          by (apply Z.mul_le_mono_nonneg_l; lia).
        lia.
      * apply Z.ltb_ge.
        assert (q <= 2 * 7205759403792794 - 1); [ | lia ].
        destruct (Z.le_gt_cases q (2 * 7205759403792794 - 1)) as [G | G]; [ exact G | exfalso ].
        assert (n * (2 * 7205759403792794) <= n * q) by (apply Z.mul_le_mono_nonneg_l; lia).
        lia.
    + pose proof (Z.div_mod q 2 ltac:(lia)) as Hq2.
      pose proof (Z.mod_pos_bound q 2 ltac:(lia)) as Hr2.
      symmetry. apply Z.ltb_lt.
      assert (n * (2 ^ 54 - 2) <= n * q) by (apply Z.mul_le_mono_nonneg_l; lia). lia.
  - (* at least two digits less: the quotient is below one half *)
    assert (H4 : 4 <= C).
    { unfold C. change 4 with (2 ^ 2). apply Z.pow_le_mono_r; lia. }
    assert (H2k : 2 * k < n).
    { assert (k * 4 <= k * C) by (apply Z.mul_le_mono_nonneg_l; lia). lia. }
    replace (4 * n <? 5 * k) with false by (symmetry; apply Z.ltb_ge; lia).
    destruct Hcase as [(Hq & -> & Hm) | [(Hq & -> & Hq1 & Hm) | [(Hq & -> & Hm) | (Hq & -> & Hq1 & Hm)]]].
    + replace (-53 ?= - c - 53) with Gt by (symmetry; apply Z.compare_gt_iff; lia).
      reflexivity.
    + replace (-53 ?= - c - 53 + 1) with Gt by (symmetry; apply Z.compare_gt_iff; lia).
      reflexivity.
    + replace (-53 ?= - c - 53 + 1) with Gt by (symmetry; apply Z.compare_gt_iff; lia).
      reflexivity.
    + destruct (Z.compare_spec (-53) (- c - 53 + 2)) as [E | E | E]; try reflexivity; lia.
Qed.

End Quotient.

(* ===================================================================== *)
(** * Column names *)
(* ===================================================================== *)

Section ColumnNames.

Lemma chars_str (l : list ascii) : chars (str l) = l.
Proof. apply list_ascii_of_string_of_list_ascii. Qed.

Lemma standard_name_chars (s : string) :
  CSVCleaner.standard_name s = str (CSVCleaner.standard_chars (chars s)).
Proof.
  unfold CSVCleaner.standard_name, Py.join_if, Py.replace, Py.strip, Py.lower.
  rewrite !chars_str. reflexivity.
Qed.

(** A character that survives the filter after lowering and replacing is
    settled. *)
Lemma kept_char_settled (c : ascii) :
  CSVCleaner.name_char (CSVCleaner.respace (lower_char c)) = true ->
  CSVCleaner.settled (CSVCleaner.respace (lower_char c)) = true.
Proof.
  destruct c as [[] [] [] [] [] [] [] []]; vm_compute; intros H; first [ reflexivity | discriminate H ].
Qed.

Lemma In_lstrip_chars (c : ascii) (l : list ascii) :
  In c (lstrip_chars l) -> In c l.
Proof.
  induction l as [ | a l IH]; cbn; [ tauto | ].
  destruct (Py.isspace a); cbn; intuition.
Qed.

Lemma In_strip_chars (c : ascii) (l : list ascii) : In c (Py.strip_chars l) -> In c l.
Proof.
  unfold Py.strip_chars. intros H.
  apply In_lstrip_chars. apply (proj2 (in_rev _ _)).
  apply In_lstrip_chars. apply (proj2 (in_rev _ _)). exact H.
Qed.

Lemma lstrip_chars_id (l : list ascii) :
  List.Forall (fun c => Py.isspace c = false) l -> lstrip_chars l = l.
Proof.
  intros H. destruct H as [ | c l Hc Hl]; cbn; [ reflexivity | ].
  rewrite Hc. reflexivity.
Qed.

Lemma standard_chars_settled (l : list ascii) :
  List.Forall (fun c => CSVCleaner.settled c = true /\ CSVCleaner.name_char c = true) (CSVCleaner.standard_chars l).
Proof.
  apply List.Forall_forall. intros c Hc. unfold CSVCleaner.standard_chars in Hc.
  apply List.filter_In in Hc as [Hin Hp].
  apply List.in_map_iff in Hin as (c1 & <- & Hin).
  apply In_strip_chars in Hin.
  apply List.in_map_iff in Hin as (c0 & <- & _).
  split; [ apply kept_char_settled | ]; exact Hp.
Qed.

Lemma standard_chars_fixpoint (l : list ascii) :
  List.Forall (fun c => CSVCleaner.settled c = true /\ CSVCleaner.name_char c = true) l ->
  CSVCleaner.standard_chars l = l.
Proof.
  intros H. unfold CSVCleaner.standard_chars.
  assert (Hlow : List.map lower_char l = l).
  { induction H as [ | c l [Hc _] _ IH]; cbn; [ reflexivity | ].
    unfold CSVCleaner.settled in Hc. apply andb_prop in Hc as [Hc _]. apply andb_prop in Hc as [Hc _].
    apply Ascii.eqb_eq in Hc. rewrite Hc, IH. reflexivity. }
  assert (Hsp : List.Forall (fun c => Py.isspace c = false) l).
  { eapply List.Forall_impl; [ | exact H ]. cbn. intros c [Hc _].
    unfold CSVCleaner.settled in Hc. apply andb_prop in Hc as [Hc _]. apply andb_prop in Hc as [_ Hc].
    apply negb_true_iff in Hc. exact Hc. }
  assert (Hstrip : Py.strip_chars l = l).
  { unfold Py.strip_chars. rewrite (lstrip_chars_id l Hsp).
    rewrite lstrip_chars_id; [ apply rev_involutive | ].
    apply List.Forall_rev. exact Hsp. }
  rewrite Hlow, Hstrip. clear Hlow Hsp Hstrip.
  induction H as [ | c l [Hc Hn] _ IH]; cbn; [ reflexivity | ].
  unfold CSVCleaner.settled in Hc. apply andb_prop in Hc as [_ Hc]. apply negb_true_iff in Hc.
  assert (Hr : CSVCleaner.respace c = c) by (unfold CSVCleaner.respace; rewrite Hc; reflexivity).
  rewrite Hr, Hn. f_equal. exact IH.
Qed.

Lemma standard_name_idempotent (s : string) :
  CSVCleaner.standard_name (CSVCleaner.standard_name s) = CSVCleaner.standard_name s.
Proof.
  rewrite !standard_name_chars, chars_str.
  f_equal. apply standard_chars_fixpoint, standard_chars_settled.
Qed.

End ColumnNames.

(* ===================================================================== *)
(** * The store: what a cleaning method can reach *)
(* ===================================================================== *)

Section Store.
Context `{L : pd.Lib}.
Import CSVCleaner.

Lemma alloc_fresh (h : store) (v : pd.DataFrame) :
  (alloc h v).2 ∉ dom h.
Proof. unfold alloc. cbn. apply is_fresh. Qed.

Lemma alloc_lookup (h : store) (v : pd.DataFrame) :
  (alloc h v).1 !! (alloc h v).2 = Some v.
Proof. unfold alloc. cbn. apply lookup_insert_eq. Qed.

Lemma alloc_other (h : store) (v : pd.DataFrame) (l : loc) :
  l ∈ dom h -> (alloc h v).1 !! l = h !! l /\ l <> (alloc h v).2 /\ l ∈ dom (alloc h v).1.
Proof.
  intros Hl. pose proof (alloc_fresh h v) as Hf.
  assert (Hne : (alloc h v).2 <> l) by (intros E; rewrite E in Hf; contradiction).
  unfold alloc in *. cbn in *. split; [ | split ].
  - apply lookup_insert_ne. exact Hne.
  - congruence.
  - rewrite dom_insert_L. set_solver.
Qed.

(** [frames] is a preorder, and the three ways a method acts on the state
    are within it. *)
Lemma frames_refl (st : state) : frames st st.
Proof. split; [ reflexivity | ]. intros l Hne Hin. auto. Qed.

Lemma frames_trans (st1 st2 st3 : state) :
  frames st1 st2 -> frames st2 st3 -> frames st1 st3.
Proof.
  intros [Ho1 H1] [Ho2 H2]. split; [ congruence | ].
  intros l Hne Hin. destruct (H1 l Hne Hin) as (Ha & Hb & Hc).
  destruct (H2 l Hb Hc) as (Ha' & Hb' & Hc'). split; [ congruence | auto ].
Qed.

Lemma frames_rebind (st : state) (v : pd.DataFrame) : frames st (rebind st v).
Proof.
  unfold rebind. pose proof (alloc_other (heap st) v) as H.
  destruct (alloc (heap st) v) as [h l]. cbn in *.
  split; [ reflexivity | ]. cbn. intros l' _ Hin. apply H. exact Hin.
Qed.

Lemma frames_mutate (st : state) (v : pd.DataFrame) : frames st (mutate st v).
Proof.
  split; [ reflexivity | ]. cbn. intros l Hne Hin. split; [ | split ].
  - apply lookup_insert_ne. congruence.
  - exact Hne.
  - rewrite dom_insert_L. set_solver.
Qed.

Lemma frames_log (st : state) (msg : string) : frames st (log st msg).
Proof. split; [ reflexivity | ]. cbn. auto. Qed.

Lemma frames_log_if (b : bool) (st : state) (msg : string) : frames st (log_if b st msg).
Proof. destruct b; [ apply frames_log | apply frames_refl ]. Qed.

Lemma current_rebind (st : state) (v : pd.DataFrame) : current (rebind st v) = v.
Proof.
  unfold rebind, current. pose proof (alloc_lookup (heap st) v) as H.
  destruct (alloc (heap st) v) as [h l]. cbn in *. unfold deref. rewrite H. reflexivity.
Qed.

Lemma current_mutate (st : state) (v : pd.DataFrame) : current (mutate st v) = v.
Proof. unfold mutate, current, deref. cbn. rewrite lookup_insert_eq. reflexivity. Qed.

Lemma current_log (st : state) (msg : string) : current (log st msg) = current st.
Proof. reflexivity. Qed.

Lemma current_log_if (b : bool) (st : state) (msg : string) :
  current (log_if b st msg) = current st.
Proof. destruct b; reflexivity. Qed.

Lemma outlier_loop_frames (method : string) (threshold : float)
    (columns : list string) (st : state) :
  frames st (outlier_loop method threshold columns st).1.
Proof.
  revert st. induction columns as [ | col rest IH]; intros st; cbn [outlier_loop].
  - apply frames_refl.
  - destruct (pd.getitem (current st) col) as [s | ]; [ | apply IH ].
    destruct (String.eqb method "iqr").
    + destruct (pd.is_number_dtype (pd.dtype_of s)).
      * eapply frames_trans; [ apply frames_rebind | apply IH ].
      * destruct (pd.dtype_of s); try apply frames_refl.
        eapply frames_trans; [ apply frames_rebind | apply IH ].
    + destruct (String.eqb method "zscore"); [ | apply IH ].
      destruct (pd.is_number_dtype (pd.dtype_of s)); [ | apply frames_refl ].
      eapply frames_trans; [ apply frames_rebind | apply IH ].
Qed.

Lemma perform_frames (c : call) (st : state) : frames st (perform c st).1.
Proof.
  destruct c; cbn [perform].
  - unfold remove_empty_rows. cbn [fst].
    eapply frames_trans; [ apply frames_rebind | apply frames_log_if ].
  - unfold remove_empty_columns. cbn [fst].
    eapply frames_trans; [ apply frames_rebind | apply frames_log_if ].
  - unfold trim_whitespace.
    destruct (str_loop _ _ _) as [d [u | e]]; cbn [fst].
    + eapply frames_trans; [ apply frames_mutate | apply frames_log ].
    + apply frames_mutate.
  - unfold remove_duplicates.
    destruct (drop_duplicates _ _ _) as [d | e]; cbn [fst].
    + eapply frames_trans; [ apply frames_rebind | apply frames_log_if ].
    + apply frames_refl.
  - unfold fill_missing_values.
    destruct (nulls_in _ _) as [n0 | e]; [ | apply frames_refl ].
    destruct (nulls_in (current (mutate _ _)) _) as [n1 | e]; cbn [fst].
    + eapply frames_trans; [ apply frames_mutate | apply frames_log_if ].
    + apply frames_mutate.
  - unfold standardize_column_names. cbn [fst].
    eapply frames_trans; [ apply frames_mutate | apply frames_log ].
  - unfold normalize_text_case.
    match goal with |- context [match ?x with _ => _ end] => destruct x as [d [u | e]] end;
      cbn [fst].
    + eapply frames_trans; [ apply frames_mutate | apply frames_log ].
    + apply frames_mutate.
  - unfold remove_outliers.
    pose proof (outlier_loop_frames method threshold
      match columns with
      | Some cs => cs
      | None => List.map pd.name (pd.select_number (current st))
      end st) as H.
    destruct (outlier_loop _ _ _ _) as [st' [u | e]]; cbn [fst] in *.
    + eapply frames_trans; [ exact H | apply frames_log_if ].
    + exact H.
  - unfold convert_dtypes. cbn [fst].
    revert st. induction columns_types as [ | [col dtype] rest IH]; intros st; cbn [fold_left].
    + apply frames_refl.
    + eapply frames_trans; [ | apply IH ].
      destruct (pd.getitem (current st) col) as [s | ]; [ | apply frames_refl ].
      destruct (convert_column _ _ _ _); [ apply frames_mutate | apply frames_log ].
Qed.

Lemma run_frames (calls : list call) (st : state) : frames st (run calls st).
Proof.
  revert st. induction calls as [ | c calls IH]; intros st; cbn.
  - apply frames_refl.
  - eapply frames_trans; [ apply perform_frames | apply IH ].
Qed.

End Store.

Section InitReset.
Context `{L : pd.Lib}.
Import CSVCleaner.

(** After [CSVCleaner(df)]: the argument, [self.df] and [self.original_df]
    are three objects, each holding the table that was passed. *)
Lemma init_spec (h : store) (arg : loc) (v : pd.DataFrame) :
  h !! arg = Some v ->
  let st := init h arg in
  heap st !! arg = Some v
  /\ heap st !! df (self st) = Some v
  /\ heap st !! original_df (self st) = Some v
  /\ arg <> df (self st)
  /\ original_df (self st) <> df (self st)
  /\ changes (self st) = [].
Proof.
  intros Harg. unfold init, copy.
  assert (Hd : deref h arg = v) by (unfold deref; rewrite Harg; reflexivity).
  rewrite Hd.
  assert (Hin : arg ∈ dom h) by (apply elem_of_dom; eauto).
  pose proof (alloc_other h v arg Hin) as (Ha1 & Hne1 & Hin1).
  pose proof (alloc_lookup h v) as Hl1.
  destruct (alloc h v) as [h1 l1] eqn:E1. cbn [fst snd] in *.
  assert (Hd1 : deref h1 arg = v) by (unfold deref; rewrite Ha1, Harg; reflexivity).
  rewrite Hd1.
  assert (Hin1' : l1 ∈ dom h1) by (apply elem_of_dom; eauto).
  pose proof (alloc_other h1 v arg Hin1) as (Ha2 & Hne2 & _).
  pose proof (alloc_other h1 v l1 Hin1') as (Hb2 & Hnb2 & _).
  pose proof (alloc_lookup h1 v) as Hl2.
  destruct (alloc h1 v) as [h2 l2] eqn:E2. cbn [fst snd] in *.
  cbn. repeat split; try congruence.
Qed.

(** [reset()] makes [self.df] a new copy of the snapshot and empties the
    log; the snapshot itself is a different object and is not written. *)
Lemma reset_spec (st : state) (v : pd.DataFrame) :
  heap st !! original_df (self st) = Some v ->
  let st' := reset st in
  current st' = v
  /\ get_changes st' = []
  /\ original_df (self st') = original_df (self st)
  /\ heap st' !! original_df (self st') = Some v
  /\ df (self st') <> original_df (self st').
Proof.
  intros Ho. unfold reset, copy.
  assert (Hd : deref (heap st) (original_df (self st)) = v)
    by (unfold deref; rewrite Ho; reflexivity).
  rewrite Hd.
  assert (Hin : original_df (self st) ∈ dom (heap st)) by (apply elem_of_dom; eauto).
  pose proof (alloc_other (heap st) v _ Hin) as (Ha & Hne & _).
  pose proof (alloc_lookup (heap st) v) as Hl.
  destruct (alloc (heap st) v) as [h1 l1]. cbn [fst snd] in *.
  unfold current, get_changes, deref. cbn. rewrite Hl.
  repeat split; try congruence.
Qed.

End InitReset.

(* ===================================================================== *)
(** * Rows, masks and duplicates *)
(* ===================================================================== *)

Section Rows.

Lemma cell_eqb_sym (a b : pd.cell) : pd.cell_eqb a b = pd.cell_eqb b a.
Proof.
  destruct a as [ | x | x | x | x ], b as [ | y | y | y | y ]; cbn;
    try reflexivity;
    try apply Z.eqb_sym; try apply String.eqb_sym;
    try (destruct x, y; reflexivity);
    try (destruct x; reflexivity); try (destruct y; reflexivity).
  unfold pd.cell_eqb. cbn [pd.isna].
  destruct (F64.is_nan x) eqn:Hx, (F64.is_nan y) eqn:Hy; try reflexivity.
  - destruct x; try discriminate Hx. destruct y; reflexivity.
  - destruct y; try discriminate Hy. destruct x; reflexivity.
  - apply eqb_sym.
Qed.

Lemma row_eqb_sym (r1 r2 : pd.row) : pd.row_eqb r1 r2 = pd.row_eqb r2 r1.
Proof.
  revert r2. induction r1 as [ | a r1 IH]; intros [ | b r2]; cbn; try reflexivity.
  rewrite cell_eqb_sym, IH. reflexivity.
Qed.

Lemma existsb_false {A : Type} (f : A -> bool) (l : list A) :
  existsb f l = false <-> (forall x, In x l -> f x = false).
Proof.
  induction l as [ | a l IH]; cbn.
  - split; [ tauto | reflexivity ].
  - rewrite orb_false_iff, IH. split.
    + intros [Ha Hl] x [<- | Hx]; auto.
    + intros H. split; [ apply H; auto | intros x Hx; apply H; auto ].
Qed.

Lemma distinct_from_weaken (seen seen' : list pd.row) (l : list pd.row) :
  incl seen' seen -> pd.distinct_from seen l -> pd.distinct_from seen' l.
Proof.
  revert seen seen'. induction l as [ | x l IH]; intros seen seen' Hi; cbn; [ tauto | ].
  intros [Hx Hl]. split.
  - intros s Hs. apply Hx, Hi, Hs.
  - eapply IH; [ | exact Hl ]. intros y [<- | Hy]; [ left; reflexivity | right; apply Hi, Hy ].
Qed.

Lemma distinct_from_seen (seen : list pd.row) (l : list pd.row) :
  pd.distinct_from seen l ->
  forall y s, In y l -> In s seen -> pd.row_eqb y s = false.
Proof.
  revert seen. induction l as [ | x l IH]; intros seen; cbn; [ tauto | ].
  intros [Hx Hl] y s [<- | Hy] Hs; [ apply Hx, Hs | ].
  eapply IH; [ exact Hl | exact Hy | right; exact Hs ].
Qed.

Lemma distinct_from_app (seen l1 l2 : list pd.row) :
  pd.distinct_from seen l1 -> pd.distinct_from (rev l1 ++ seen) l2 ->
  pd.distinct_from seen (l1 ++ l2).
Proof.
  revert seen. induction l1 as [ | x l1 IH]; intros seen; cbn; [ tauto | ].
  intros [Hx H1] H2. split; [ exact Hx | ].
  apply IH; [ exact H1 | ]. rewrite <- List.app_assoc in H2. exact H2.
Qed.

(** A list without repetition stays so when read backwards. *)
Lemma distinct_from_rev (l : list pd.row) :
  pd.distinct_from [] l -> pd.distinct_from [] (rev l).
Proof.
  induction l as [ | x l IH]; cbn; [ tauto | ].
  intros [_ Hl]. apply distinct_from_app.
  - apply IH. eapply distinct_from_weaken; [ | exact Hl ]. intros y [].
  - cbn. split; [ | exact I ]. intros s Hs.
    rewrite List.app_nil_r, List.rev_involutive in Hs.
    rewrite row_eqb_sym. eapply distinct_from_seen; [ exact Hl | exact Hs | left; reflexivity ].
Qed.

Lemma seen_before_distinct (seen : list pd.row) (l : list pd.row) :
  pd.distinct_from seen l -> pd.seen_before seen l = List.map (fun _ => false) l.
Proof.
  revert seen. induction l as [ | x l IH]; intros seen; cbn; [ reflexivity | ].
  intros [Hx Hl]. f_equal; [ | apply IH, Hl ].
  apply existsb_false. exact Hx.
Qed.

(** The rows [drop_duplicates(keep='first')] keeps are pairwise different. *)
Lemma kept_first_distinct (seen : list pd.row) (rs : list pd.row) :
  pd.distinct_from seen (pd.take (List.map negb (pd.seen_before seen rs)) rs).
Proof.
  revert seen. induction rs as [ | r rs IH]; intros seen; cbn; [ exact I | ].
  destruct (existsb (pd.row_eqb r) seen) eqn:E; cbn.
  - eapply distinct_from_weaken; [ | apply IH ]. intros y Hy. right. exact Hy.
  - split; [ apply existsb_false; exact E | apply IH ].
Qed.

Lemma sum_mask_false {A : Type} (l : list A) :
  pd.sum_mask (List.map (fun _ => false) l) = 0.
Proof. induction l as [ | a l IH]; cbn; [ reflexivity | exact IH ]. Qed.

Lemma duplicated_rows_distinct (k : pd.keep) (l : list pd.row) :
  pd.distinct_from [] l -> pd.duplicated_rows k l = List.map (fun _ => false) l.
Proof.
  intros H. unfold pd.duplicated_rows.
  rewrite (seen_before_distinct [] l H).
  rewrite (seen_before_distinct [] (rev l) (distinct_from_rev l H)).
  assert (Hrev : rev (List.map (fun _ : pd.row => false) (rev l))
                 = List.map (fun _ => false) l).
  { rewrite <- List.map_rev, List.rev_involutive. reflexivity. }
  rewrite Hrev. destruct k; try reflexivity.
  clear. induction l as [ | a l IH]; cbn; [ reflexivity | f_equal; exact IH ].
Qed.

(** ** Rows of a filtered table *)

Lemma row_at_tail (cols : list pd.Series) (i : nat) :
  pd.row_at (List.map pd.tail_values cols) i = pd.row_at cols (S i).
Proof.
  unfold pd.row_at. rewrite List.map_map. apply List.map_ext. intros s. cbn.
  destruct (pd.values s); [ destruct i | ]; reflexivity.
Qed.

Lemma rows_of_S (n : nat) (cols : list pd.Series) :
  pd.rows_of (S n) cols = pd.row_at cols 0 :: pd.rows_of n (List.map pd.tail_values cols).
Proof.
  unfold pd.rows_of. cbn [seq List.map]. f_equal.
  rewrite <- List.seq_shift, List.map_map. apply List.map_ext. intros i.
  symmetry. apply row_at_tail.
Qed.

Lemma rows_of_length (n : nat) (cols : list pd.Series) : length (pd.rows_of n cols) = n.
Proof. unfold pd.rows_of. rewrite List.length_map, List.length_seq. reflexivity. Qed.

Lemma seen_before_length (seen rs : list pd.row) :
  length (pd.seen_before seen rs) = length rs.
Proof. revert seen. induction rs as [ | r rs IH]; intros seen; cbn; [ | rewrite IH ]; reflexivity. Qed.

Lemma rows_of_take (mask : list bool) (idx : list Z) (cols : list pd.Series) :
  length mask = length idx ->
  List.Forall (fun s => length (pd.values s) = length idx) cols ->
  pd.rows_of (length (pd.take mask idx)) (List.map (pd.mask_values mask) cols)
  = pd.take mask (pd.rows_of (length idx) cols).
Proof.
  revert idx cols. induction mask as [ | b mask IH]; intros [ | i idx] cols Hlen Hwf;
    try discriminate Hlen.
  - reflexivity.
  - cbn [length] in Hlen. injection Hlen as Hlen.
    assert (Htl : List.Forall (fun s => length (pd.values s) = length idx)
                    (List.map pd.tail_values cols)).
    { apply List.Forall_map. eapply List.Forall_impl; [ | exact Hwf ].
      cbn. intros s Hs. destruct (pd.values s); cbn in *; [ discriminate | lia ]. }
    assert (Hshift : List.map pd.tail_values (List.map (pd.mask_values (true :: mask)) cols)
                     = List.map (pd.mask_values mask) (List.map pd.tail_values cols)).
    { rewrite !List.map_map. apply List.map_ext_in. intros s Hs.
      rewrite List.Forall_forall in Hwf. specialize (Hwf s Hs).
      unfold pd.tail_values, pd.mask_values. cbn.
      destruct (pd.values s); [ discriminate | reflexivity ]. }
    assert (Hskip : List.map (pd.mask_values (false :: mask)) cols
                    = List.map (pd.mask_values mask) (List.map pd.tail_values cols)).
    { rewrite !List.map_map. apply List.map_ext_in. intros s Hs.
      rewrite List.Forall_forall in Hwf. specialize (Hwf s Hs).
      unfold pd.tail_values, pd.mask_values. cbn.
      destruct (pd.values s); [ discriminate | reflexivity ]. }
    assert (Hhead : pd.row_at (List.map (pd.mask_values (true :: mask)) cols) 0
                    = pd.row_at cols 0).
    { unfold pd.row_at. rewrite List.map_map. apply List.map_ext_in. intros s Hs.
      rewrite List.Forall_forall in Hwf. specialize (Hwf s Hs). cbn.
      destruct (pd.values s); [ discriminate | reflexivity ]. }
    cbn [length]. rewrite (rows_of_S (length idx) cols).
    destruct b; cbn [pd.take length].
    + rewrite rows_of_S, Hhead, Hshift. f_equal. apply IH; assumption.
    + rewrite Hskip. apply IH; assumption.
Qed.

Lemma rows_loc_rows (mask : list bool) (d : pd.DataFrame) :
  pd.wf d -> length mask = length (pd.index d) ->
  pd.rows (pd.loc_rows mask d) = pd.take mask (pd.rows d).
Proof.
  intros Hwf Hlen. unfold pd.rows, pd.loc_rows. cbn [pd.index pd.columns].
  apply (rows_of_take mask (pd.index d) (pd.columns d) Hlen Hwf).
Qed.

End Rows.

(* ===================================================================== *)
(** * Row filters *)
(* ===================================================================== *)

Section Filters.
Context `{L : pd.Lib}.
Import CSVCleaner.

Lemma In_take {A : Type} (mask : list bool) (l : list A) (x : A) :
  In x (pd.take mask l) -> In x l.
Proof.
  revert l. induction mask as [ | b mask IH]; intros [ | a l]; cbn; try tauto.
  destruct b; cbn; intuition.
Qed.

Lemma In_take_map {A : Type} (f : A -> bool) (l : list A) (x : A) :
  In x (pd.take (List.map f l) l) -> f x = true.
Proof.
  induction l as [ | a l IH]; cbn; [ tauto | ].
  destruct (f a) eqn:E; cbn; [ intros [<- | H]; auto | exact IH ].
Qed.

Lemma getitem_loc_rows (mask : list bool) (d : pd.DataFrame) (col : string) :
  pd.getitem (pd.loc_rows mask d) col = option_map (pd.mask_values mask) (pd.getitem d col).
Proof.
  unfold pd.getitem, pd.loc_rows. cbn [pd.columns].
  induction (pd.columns d) as [ | s cols IH]; cbn; [ reflexivity | ].
  destruct (String.eqb (pd.name s) col); [ reflexivity | exact IH ].
Qed.

(** A value that passes the IQR test is not missing. *)
Lemma iqr_mask_notna (vs : list pd.cell) (threshold : float) (c : pd.cell) :
  In c (pd.take (iqr_mask vs threshold) vs) -> pd.isna c = false.
Proof.
  unfold iqr_mask. intros H. apply In_take_map in H.
  apply andb_prop in H as [H _]. unfold F64.geb in H.
  apply leb_not_nan in H as [_ H].
  destruct c; cbn in *; try discriminate; try reflexivity. exact H.
Qed.

(** The IQR loop returns when every column it meets is numeric or a
    datetime, each column of the table it leaves is a column of the table it
    started from with some rows taken out, and no numeric column it went
    through has a missing value left. *)
Lemma outlier_loop_iqr (threshold : float) (columns : list string) (st : state) :
  (forall col s, In col columns -> pd.getitem (current st) col = Some s ->
                 pd.is_number_dtype (pd.dtype_of s) = true
                 \/ pd.dtype_of s = pd.Datetime64) ->
  let out := outlier_loop "iqr" threshold columns st in
  out.2 = Ok tt
  /\ (forall col s', pd.getitem (current out.1) col = Some s' ->
        exists s, pd.getitem (current st) col = Some s
                  /\ pd.dtype_of s' = pd.dtype_of s
                  /\ incl (pd.values s') (pd.values s))
  /\ (forall col s', In col columns -> pd.getitem (current out.1) col = Some s' ->
        pd.is_number_dtype (pd.dtype_of s') = true ->
        List.Forall (fun c => pd.isna c = false) (pd.values s')).
Proof.
  revert st. induction columns as [ | col rest IH]; intros st Hnum; cbn zeta.
  - cbn [outlier_loop fst snd]. split; [ reflexivity | split ].
    + intros c s' Hs. exists s'. split; [ exact Hs | split; [ reflexivity | apply incl_refl ] ].
    + intros c s' [].
  - cbn [outlier_loop].
    destruct (pd.getitem (current st) col) as [s | ] eqn:Hcol.
    + cbn [String.eqb Ascii.eqb Bool.eqb].
      (* whichever mask is applied, the step is a row filter *)
      assert (Hstep : forall mask,
                let st1 := rebind st (pd.loc_rows mask (current st)) in
                (forall c s1, pd.getitem (current st1) c = Some s1 ->
                   exists s0, pd.getitem (current st) c = Some s0
                              /\ s1 = pd.mask_values mask s0)
                /\ (forall c s1, In c rest -> pd.getitem (current st1) c = Some s1 ->
                      pd.is_number_dtype (pd.dtype_of s1) = true
                      \/ pd.dtype_of s1 = pd.Datetime64)).
      { intros mask st1.
        assert (Hcur : current st1 = pd.loc_rows mask (current st)) by apply current_rebind.
        assert (Hback : forall c s1, pd.getitem (current st1) c = Some s1 ->
                  exists s0, pd.getitem (current st) c = Some s0
                             /\ s1 = pd.mask_values mask s0).
        { intros c s1 Hs1. rewrite Hcur, getitem_loc_rows in Hs1.
          destruct (pd.getitem (current st) c) as [s0 | ]; [ | discriminate ].
          injection Hs1 as <-. exists s0. split; reflexivity. }
        split; [ exact Hback | ].
        intros c s1 Hc Hs1. destruct (Hback c s1 Hs1) as (s0 & Hs0 & ->).
        apply (Hnum c s0); [ right; exact Hc | exact Hs0 ]. }
      assert (Hgo : forall mask,
                (pd.is_number_dtype (pd.dtype_of s) = true ->
                 forall x, In x (pd.take mask (pd.values s)) -> pd.isna x = false) ->
                let out := outlier_loop "iqr" threshold rest
                             (rebind st (pd.loc_rows mask (current st))) in
                out.2 = Ok tt
                /\ (forall c s', pd.getitem (current out.1) c = Some s' ->
                      exists s0, pd.getitem (current st) c = Some s0
                                 /\ pd.dtype_of s' = pd.dtype_of s0
                                 /\ incl (pd.values s') (pd.values s0))
                /\ (forall c s', In c (col :: rest) ->
                      pd.getitem (current out.1) c = Some s' ->
                      pd.is_number_dtype (pd.dtype_of s') = true ->
                      List.Forall (fun x => pd.isna x = false) (pd.values s'))).
      { intros mask Hmask. destruct (Hstep mask) as [Hback Hnum1].
        destruct (IH _ Hnum1) as (Hok & Hsub & Hdone). cbn zeta.
        split; [ exact Hok | split ].
        - intros c s' Hs'. destruct (Hsub c s' Hs') as (s1 & Hs1 & Hd1 & Hi1).
          destruct (Hback c s1 Hs1) as (s0 & Hs0 & ->).
          exists s0. split; [ exact Hs0 | split; [ exact Hd1 | ] ].
          intros x Hx. eapply In_take. apply Hi1, Hx.
        - intros c s' [<- | Hc] Hs' Hn; [ | apply (Hdone c s' Hc Hs' Hn) ].
          destruct (Hsub col s' Hs') as (s1 & Hs1 & Hd1 & Hi1).
          destruct (Hback col s1 Hs1) as (s0 & Hs0 & ->).
          rewrite Hcol in Hs0. injection Hs0 as <-.
          apply List.Forall_forall. intros x Hx.
          apply Hmask; [ rewrite Hd1 in Hn; exact Hn | apply Hi1, Hx ]. }
      destruct (pd.is_number_dtype (pd.dtype_of s)) eqn:Hdt.
      * apply Hgo. intros _ x Hx. apply (iqr_mask_notna (pd.values s) threshold x Hx).
      * destruct (Hnum col s (or_introl eq_refl) Hcol) as [Hn | Hd]; [ congruence | ].
        rewrite Hd. apply Hgo. intros Hn. discriminate Hn.
    + assert (Hnum1 : forall c s1, In c rest -> pd.getitem (current st) c = Some s1 ->
                pd.is_number_dtype (pd.dtype_of s1) = true
                \/ pd.dtype_of s1 = pd.Datetime64).
      { intros c s1 Hc Hs1. apply (Hnum c s1); [ right; exact Hc | exact Hs1 ]. }
      destruct (IH st Hnum1) as (Hok & Hsub & Hdone). split; [ exact Hok | split ].
      * exact Hsub.
      * intros c s' [<- | Hc] Hs' Hn; [ | apply (Hdone c s' Hc Hs' Hn) ].
        destruct (Hsub col s' Hs') as (s0 & Hs0 & _). congruence.
Qed.

End Filters.

(* ===================================================================== *)
(** * Dictionaries, enumeration, sorting *)
(* ===================================================================== *)

Section Dict.
Context {V : Type}.

Lemma dict_of_snoc (l : list (string * V)) (k : string) (v : V) :
  CSVValidator.dict_of (l ++ [(k, v)]) = <[k := v]> (CSVValidator.dict_of l).
Proof. unfold CSVValidator.dict_of. rewrite List.fold_left_app. reflexivity. Qed.

Lemma dict_of_empty_iff (l : list (string * V)) :
  CSVValidator.dict_of l = ∅ <-> l = [].
Proof.
  split; [ | intros ->; reflexivity ].
  destruct l as [ | a l]; [ reflexivity | ]. intros Hl.
  destruct (@List.exists_last _ (a :: l) ltac:(discriminate)) as [l' [[k v] E]].
  rewrite E, dict_of_snoc in Hl. exfalso. exact (insert_non_empty (M := gmap string) _ _ _ Hl).
Qed.

Lemma dict_of_single (k : string) (v : V) : CSVValidator.dict_of [(k, v)] = {[ k := v ]}.
Proof. unfold CSVValidator.dict_of. cbn. apply insert_empty. Qed.

End Dict.

Section Enumerate.
Context {A : Type}.

Lemma In_combine_seq (l : list A) (start i : nat) (a : A) :
  In (i, a) (combine (seq start (length l)) l)
  <-> (start <= i)%nat /\ nth_error l (i - start) = Some a.
Proof.
  revert start. induction l as [ | x l IH]; intros start; cbn [length seq combine].
  - cbn. split; [ tauto | ]. intros [_ H]. destruct (i - start)%nat; discriminate.
  - cbn [In]. rewrite IH. split.
    + intros [E | [Hle Hn]].
      * injection E as <- <-. split; [ lia | ]. rewrite Nat.sub_diag. reflexivity.
      * split; [ lia | ]. replace (i - start)%nat with (S (i - S start)) by lia. exact Hn.
    + intros [Hle Hn]. destruct (Nat.eq_dec i start) as [-> | Hne].
      * left. rewrite Nat.sub_diag in Hn. cbn in Hn. congruence.
      * right. split; [ lia | ].
        replace (i - start)%nat with (S (i - S start)) in Hn by lia. exact Hn.
Qed.

Lemma In_enumerate (l : list A) (i : nat) (a : A) :
  In (i, a) (CSVAnalyzer.enumerate l) <-> nth_error l i = Some a.
Proof.
  unfold CSVAnalyzer.enumerate. rewrite In_combine_seq, Nat.sub_0_r.
  split; [ tauto | ]. intros H. split; [ lia | exact H ].
Qed.

Lemma NoDup_combine_seq (l : list A) (start : nat) :
  List.NoDup (combine (seq start (length l)) l).
Proof.
  revert start. induction l as [ | x l IH]; intros start; cbn [length seq combine].
  - constructor.
  - constructor; [ | apply IH ].
    intros H. apply In_combine_seq in H. lia.
Qed.

Lemma NoDup_enumerate (l : list A) : List.NoDup (CSVAnalyzer.enumerate l).
Proof. apply NoDup_combine_seq. Qed.

End Enumerate.

Section FlatMap.
Context {A B K : Type}.

(** Keys stay distinct under [flat_map] when they are distinct within each
    piece and a key determines the piece it comes from. *)
Lemma NoDup_flat_map_keys (g : B -> K) (f : A -> list B) (l : list A) :
  List.NoDup l ->
  (forall x, In x l -> List.NoDup (List.map g (f x))) ->
  (forall x1 x2 y1 y2, In x1 l -> In x2 l -> In y1 (f x1) -> In y2 (f x2) ->
                       g y1 = g y2 -> x1 = x2) ->
  List.NoDup (List.map g (flat_map f l)).
Proof.
  induction 1 as [ | x l Hx Hl IH]; intros Hpiece Hkey; cbn [flat_map].
  - constructor.
  - rewrite List.map_app. apply List.NoDup_app.
    + apply Hpiece. left. reflexivity.
    + apply IH.
      * intros y Hy. apply Hpiece. right. exact Hy.
      * intros x1 x2 y1 y2 H1 H2. apply Hkey; right; assumption.
    + intros k Hk1 Hk2.
      apply List.in_map_iff in Hk1 as (y1 & E1 & Hy1).
      apply List.in_map_iff in Hk2 as (y2 & E2 & Hy2).
      apply List.in_flat_map in Hy2 as (x2 & Hx2 & Hy2).
      assert (x = x2).
      { apply (Hkey x x2 y1 y2); [ left; reflexivity | right; exact Hx2 | exact Hy1 | exact Hy2 | congruence ]. }
      subst x2. contradiction.
Qed.

End FlatMap.

Section SortedReverse.
Context {A : Type}.
Variable key : A -> float.

Lemma insert_desc_perm (x : A) (l : list A) :
  Permutation (x :: l) (CSVAnalyzer.insert_desc key x l).
Proof.
  induction l as [ | y l IH]; cbn; [ apply Permutation_refl | ].
  destruct (F64.ltb (key x) (key y)); [ | apply Permutation_refl ].
  eapply perm_trans; [ apply perm_swap | apply perm_skip, IH ].
Qed.

Lemma sorted_reverse_perm (l : list A) :
  Permutation l (CSVAnalyzer.sorted_reverse key l).
Proof.
  induction l as [ | x l IH]; cbn; [ constructor | ].
  eapply perm_trans; [ apply perm_skip, IH | apply insert_desc_perm ].
Qed.

Lemma insert_desc_hd (x y : A) (l : list A) :
  CSVAnalyzer.descending key y x -> HdRel (CSVAnalyzer.descending key) y l -> HdRel (CSVAnalyzer.descending key) y (CSVAnalyzer.insert_desc key x l).
Proof.
  intros Hyx Hl. destruct l as [ | z l]; cbn; [ constructor; exact Hyx | ].
  destruct (F64.ltb (key x) (key z)); constructor; [ | exact Hyx ].
  inversion Hl; assumption.
Qed.

Lemma insert_desc_sorted (x : A) (l : list A) :
  F64.is_nan (key x) = false ->
  List.Forall (fun y => F64.is_nan (key y) = false) l ->
  Sorted (CSVAnalyzer.descending key) l -> Sorted (CSVAnalyzer.descending key) (CSVAnalyzer.insert_desc key x l).
Proof.
  intros Hx Hnan Hs. induction Hs as [ | y l Hs IH Hhd]; cbn.
  - repeat constructor.
  - inversion Hnan as [ | ? ? Hy Hl]; subst.
    destruct (F64.ltb (key x) (key y)) eqn:E.
    + constructor; [ apply IH; exact Hl | ].
      apply insert_desc_hd; [ | exact Hhd ]. unfold CSVAnalyzer.descending. apply ltb_leb. exact E.
    + constructor; [ constructor; assumption | ]. constructor.
      unfold CSVAnalyzer.descending. apply ltb_false_leb; assumption.
Qed.

Lemma sorted_reverse_sorted (l : list A) :
  List.Forall (fun y => F64.is_nan (key y) = false) l ->
  Sorted (CSVAnalyzer.descending key) (CSVAnalyzer.sorted_reverse key l).
Proof.
  induction 1 as [ | x l Hx Hl IH]; cbn; [ constructor | ].
  apply insert_desc_sorted; [ exact Hx | | exact IH ].
  apply List.Forall_forall. intros y Hy.
  rewrite List.Forall_forall in Hl. apply Hl.
  eapply Permutation_in; [ apply Permutation_sym, sorted_reverse_perm | exact Hy ].
Qed.

End SortedReverse.

Section HighCorrelations.
Context `{L : pd.Lib}.
Import CSVAnalyzer.

Lemma gtb_nan (t : float) : F64.gtb F64.nan t = false.
Proof. unfold F64.gtb, F64.ltb, SFltb. destruct t; reflexivity. Qed.

(** The entries of [high_corr] are exactly the pairs above the diagonal
    whose absolute coefficient exceeds the threshold. *)
Lemma In_high_corr (cols : list pd.Series) (t : float) (e : correlation_entry) :
  In e (high_corr cols t)
  <-> exists i j ci cj,
        nth_error cols i = Some ci /\ nth_error cols j = Some cj /\ (i < j)%nat
        /\ F64.gtb (F64.abs (corr_cell ci cj)) t = true
        /\ e = entry_of ci cj.
Proof.
  unfold high_corr. rewrite List.in_flat_map. split.
  - intros ([j cj] & Hj & He). apply In_enumerate in Hj.
    apply List.in_flat_map in He as ([i ci] & Hi & He). apply In_enumerate in Hi.
    unfold upper in He. destruct (i <? j)%nat eqn:Hij.
    + apply Nat.ltb_lt in Hij.
      destruct (F64.gtb (F64.abs (corr_cell ci cj)) t) eqn:Hg; [ | destruct He ].
      destruct He as [<- | []]. exists i, j, ci, cj. repeat split; assumption.
    + rewrite gtb_nan in He. destruct He.
  - intros (i & j & ci & cj & Hi & Hj & Hij & Hg & ->).
    exists (j, cj). split; [ apply In_enumerate; exact Hj | ].
    apply List.in_flat_map. exists (i, ci). split; [ apply In_enumerate; exact Hi | ].
    unfold upper. apply Nat.ltb_lt in Hij. rewrite Hij, Hg. left. reflexivity.
Qed.

Lemma name_determines_column (cols : list pd.Series) (i j : nat) (a b : pd.Series) :
  List.NoDup (List.map pd.name cols) ->
  nth_error cols i = Some a -> nth_error cols j = Some b ->
  pd.name a = pd.name b -> i = j /\ a = b.
Proof.
  intros Hnd Ha Hb E.
  assert (Hij : i = j).
  { apply (proj1 (List.NoDup_nth_error _) Hnd).
    - rewrite List.length_map. apply List.nth_error_Some. congruence.
    - rewrite (List.map_nth_error pd.name i cols Ha),
              (List.map_nth_error pd.name j cols Hb). congruence. }
  subst j. split; [ reflexivity | congruence ].
Qed.

Lemma high_corr_NoDup (cols : list pd.Series) (t : float) :
  List.NoDup (List.map pd.name cols) ->
  List.NoDup (List.map pair_of (high_corr cols t)).
Proof.
  intros Hnd. unfold high_corr.
  apply NoDup_flat_map_keys; [ apply NoDup_enumerate | | ].
  - intros [j cj] Hj.
    apply NoDup_flat_map_keys; [ apply NoDup_enumerate | | ].
    + intros [i ci] Hi. destruct (F64.gtb _ t); cbn; repeat constructor. intros [].
    + intros [i1 c1] [i2 c2] y1 y2 H1 H2 Hy1 Hy2 E.
      apply In_enumerate in H1, H2.
      destruct (F64.gtb (upper i1 j _) t); [ | destruct Hy1 ].
      destruct (F64.gtb (upper i2 j _) t); [ | destruct Hy2 ].
      destruct Hy1 as [<- | []]. destruct Hy2 as [<- | []].
      injection E as E.
      destruct (name_determines_column cols i1 i2 c1 c2 Hnd H1 H2 E) as [-> ->].
      reflexivity.
  - intros [j1 c1] [j2 c2] y1 y2 H1 H2 Hy1 Hy2 E.
    apply In_enumerate in H1, H2.
    apply List.in_flat_map in Hy1 as ([i1 a1] & _ & Hy1).
    apply List.in_flat_map in Hy2 as ([i2 a2] & _ & Hy2).
    destruct (F64.gtb (upper i1 j1 _) t); [ | destruct Hy1 ].
    destruct (F64.gtb (upper i2 j2 _) t); [ | destruct Hy2 ].
    destruct Hy1 as [<- | []]. destruct Hy2 as [<- | []].
    injection E as _ E.
    destruct (name_determines_column cols j1 j2 c1 c2 Hnd H1 H2 E) as [-> ->].
    reflexivity.
Qed.

Lemma select_number_names_NoDup (df : pd.DataFrame) :
  List.NoDup (pd.column_names df) ->
  List.NoDup (List.map pd.name (pd.select_number df)).
Proof.
  unfold pd.column_names, pd.select_number.
  induction (pd.columns df) as [ | s cols IH]; cbn; [ constructor | ].
  intros H. inversion H as [ | ? ? Hs Hc]; subst.
  destruct (pd.is_number_dtype (pd.dtype_of s)); [ | apply IH; exact Hc ].
  cbn. constructor; [ | apply IH; exact Hc ].
  intros Hin. apply Hs. apply List.in_map_iff in Hin as (x & E & Hx).
  apply List.filter_In in Hx as [Hx _]. apply List.in_map_iff. eauto.
Qed.

Lemma high_corr_keys_not_nan (cols : list pd.Series) (t : float) :
  List.Forall (fun e => F64.is_nan (F64.abs (correlation e)) = false) (high_corr cols t).
Proof.
  apply List.Forall_forall. intros e He.
  apply In_high_corr in He as (i & j & ci & cj & _ & _ & _ & Hg & ->).
  cbn. rewrite abs_not_nan. apply round_float_not_nan.
  unfold F64.gtb in Hg. apply ltb_not_nan in Hg as [_ Hg]. exact Hg.
Qed.

End HighCorrelations.

(* ===================================================================== *)
(** * The quality score *)
(* ===================================================================== *)

Section Score.
Context `{L : pd.Lib}.

(** [100 * 0 / n] with a NumPy zero count is [0.0]. *)
Lemma percent_of_zero (n : Z) :
  0 < n -> truediv (mul (PyInt 100) (NpInt64 0)) (PyInt n) = Ok (NpFloat64 F64.zero).
Proof.
  intros Hn. unfold mul, arith, truediv. cbn [is_int is_np andb orb int_val to_float].
  change (wrap64 (100 * 0)) with 0.
  change (F64.of_Z 0) with (S754_zero false).
  rewrite (div_zero_of_Z n Hn). reflexivity.
Qed.

Lemma isna_sum_zero (l : list pd.cell) :
  (forall c, In c l -> pd.isna c = false) -> pd.isna_sum l = 0.
Proof.
  intros H. unfold pd.isna_sum.
  induction l as [ | c l IH]; cbn; [ reflexivity | ].
  rewrite (H c (or_introl eq_refl)). apply IH. intros x Hx. apply H. right. exact Hx.
Qed.

Lemma isna_total_zero (df : pd.DataFrame) :
  (forall s, In s (pd.columns df) -> forall c, In c (pd.values s) -> pd.isna c = false) ->
  pd.isna_total df = 0.
Proof.
  intros H. unfold pd.isna_total.
  induction (pd.columns df) as [ | s cols IH]; cbn; [ reflexivity | ].
  rewrite (isna_sum_zero (pd.values s) (H s (or_introl eq_refl))).
  rewrite IH; [ reflexivity | ]. intros s' Hs'. apply H. right. exact Hs'.
Qed.

(** Without a missing value no column adds a type issue. *)
Lemma type_issues_zero (df : pd.DataFrame) :
  0 < pd.len df ->
  (forall s, In s (pd.columns df) -> forall c, In c (pd.values s) -> pd.isna c = false) ->
  CSVValidator.type_issues df = 0.
Proof.
  intros Hlen H. unfold CSVValidator.type_issues.
  assert (Hz : forall s, In s (pd.columns df) -> CSVValidator.type_issue df s = 0).
  { intros s Hs. unfold CSVValidator.type_issue.
    destruct (pd.is_object_dtype (pd.dtype_of s)); [ | reflexivity ].
    destruct (pd.to_numeric (pd.values s)); [ | reflexivity ].
    rewrite (isna_sum_zero (pd.values s) (H s Hs)), (percent_of_zero _ Hlen).
    reflexivity. }
  revert Hz. generalize (pd.columns df). intros cols.
  assert (G : forall acc, (forall s, In s cols -> CSVValidator.type_issue df s = 0) ->
              fold_left (fun n s => n + CSVValidator.type_issue df s) cols acc = acc).
  { induction cols as [ | s cols IH]; intros acc Hz; cbn; [ reflexivity | ].
    rewrite (Hz s (or_introl eq_refl)), Z.add_0_r. apply IH.
    intros s' Hs'. apply Hz. right. exact Hs'. }
  apply G.
Qed.

End Score.

(* ===================================================================== *)
(** * Type inference *)
(* ===================================================================== *)

Section Inference.
Context `{L : pd.Lib}.

Lemma notna_sum_le_length (l : list pd.cell) : 0 <= pd.notna_sum l <= Z.of_nat (length l).
Proof.
  unfold pd.notna_sum. pose proof (List.filter_length_le pd.notna l). lia.
Qed.

(** The threshold test of [infer_column_type] in terms of counts: it
    passes when the values that convert are strictly more than four fifths
    of the values present. *)
Lemma coerces_iff (converted : option (list pd.cell)) (non_null : list pd.cell) :
  0 < pd.size non_null < 2 ^ 50 ->
  (forall r, converted = Some r -> length r = length non_null) ->
  utils.coerces converted non_null
  = (4 * pd.size non_null <? 5 * utils.coerced_count converted).
Proof.
  intros Hn Hlen. unfold utils.coerces, utils.coerced_count.
  destruct converted as [r | ].
  - unfold truediv, gt. cbn [is_np is_int orb andb to_float].
    apply ratio_exceeds_0_8; [ | exact Hn ].
    pose proof (notna_sum_le_length r) as H. rewrite (Hlen r eq_refl) in H.
    unfold pd.size. lia.
  - symmetry. apply Z.ltb_ge. lia.
Qed.

End Inference.

(* ===================================================================== *)
(** * The properties *)
(* ===================================================================== *)

(** C8. [standardize_column_names] is idempotent: whatever the pipeline
    holds, calling the method a second time leaves the sequence of column
    names as the first call left it (and both calls return). *)
Theorem standardize_column_names_idempotent (st : CSVCleaner.state) :
  let once := CSVCleaner.standardize_column_names st in
  let twice := CSVCleaner.standardize_column_names once.1 in
  once.2 = Ok tt
  /\ twice.2 = Ok tt
  /\ pd.column_names (CSVCleaner.current twice.1)
     = pd.column_names (CSVCleaner.current once.1).
Proof.
  cbn zeta. unfold CSVCleaner.standardize_column_names. cbn [fst snd].
  split; [ reflexivity | split; [ reflexivity | ] ].
  rewrite !current_log, !current_mutate.
  unfold pd.column_names, CSVCleaner.rename. cbn [pd.columns].
  rewrite !List.map_map. cbn [pd.name].
  apply List.map_ext. intros s. apply standard_name_idempotent.
Qed.

(** C9. Whatever sequence of cleaning methods is called on a pipeline
    built from a table [v], the snapshot [self.original_df] still holds [v]
    (and so does the caller's own table); after [reset()] the working table
    equals [v], the change log is empty, and the working table is an object
    of its own, so that later cleaning cannot reach the snapshot. *)
Theorem original_snapshot_survives_cleaning `{L : pd.Lib}
    (h : CSVCleaner.store) (arg : CSVCleaner.loc) (v : pd.DataFrame)
    (calls : list CSVCleaner.call) :
  h !! arg = Some v ->
  let st0 := CSVCleaner.init h arg in
  let st := CSVCleaner.run calls st0 in
  let st' := CSVCleaner.reset st in
  CSVCleaner.original_df (CSVCleaner.self st) = CSVCleaner.original_df (CSVCleaner.self st0)
  /\ CSVCleaner.heap st !! CSVCleaner.original_df (CSVCleaner.self st) = Some v
  /\ CSVCleaner.heap st !! arg = Some v
  /\ CSVCleaner.current st' = v
  /\ CSVCleaner.get_changes st' = []
  /\ CSVCleaner.heap st' !! CSVCleaner.original_df (CSVCleaner.self st') = Some v
  /\ CSVCleaner.df (CSVCleaner.self st') <> CSVCleaner.original_df (CSVCleaner.self st').
Proof.
  intros Harg st0 st st'.
  destruct (init_spec h arg v Harg) as (Ha & Hd & Ho & Hne & Hno & _).
  fold st0 in Ha, Hd, Ho, Hne, Hno.
  destruct (run_frames calls st0) as [Horig Hframe]. fold st in Horig, Hframe.
  assert (Hin_o : CSVCleaner.original_df (CSVCleaner.self st0) ∈ dom (CSVCleaner.heap st0))
    by (apply elem_of_dom; eauto).
  assert (Hin_a : arg ∈ dom (CSVCleaner.heap st0)) by (apply elem_of_dom; eauto).
  destruct (Hframe _ Hno Hin_o) as (Ho' & _ & _).
  destruct (Hframe _ Hne Hin_a) as (Ha' & _ & _).
  assert (Hsnap : CSVCleaner.heap st !! CSVCleaner.original_df (CSVCleaner.self st) = Some v)
    by (rewrite Horig, Ho'; exact Ho).
  destruct (reset_spec st v Hsnap) as (Hc & Hl & _ & Hs & Hn). fold st' in Hc, Hl, Hs, Hn.
  repeat split; try assumption. rewrite Ha'. exact Ha.
Qed.

(** C9, on an example: a pipeline over the table with repeated rows, after
    de-duplication, renaming and outlier removal. *)
Lemma original_snapshot_survives_cleaning_example :
  let h := Demo.store_of Demo.repeated in
  let calls := [CSVCleaner.RemoveDuplicates None pd.KeepFirst;
                CSVCleaner.StandardizeColumnNames;
                CSVCleaner.RemoveOutliers None "iqr" (F64.literal 15 1)] in
  let st0 := CSVCleaner.init h 0%nat in
  let st := CSVCleaner.run (L := Demo.lib) calls st0 in
  let st' := CSVCleaner.reset st in
  CSVCleaner.original_df (CSVCleaner.self st) = CSVCleaner.original_df (CSVCleaner.self st0)
  /\ CSVCleaner.heap st !! CSVCleaner.original_df (CSVCleaner.self st) = Some Demo.repeated
  /\ CSVCleaner.heap st !! 0%nat = Some Demo.repeated
  /\ CSVCleaner.current st' = Demo.repeated
  /\ CSVCleaner.get_changes st' = []
  /\ CSVCleaner.heap st' !! CSVCleaner.original_df (CSVCleaner.self st') = Some Demo.repeated
  /\ CSVCleaner.df (CSVCleaner.self st') <> CSVCleaner.original_df (CSVCleaner.self st').
Proof.
  apply (original_snapshot_survives_cleaning (L := Demo.lib)
           (Demo.store_of Demo.repeated) 0%nat Demo.repeated).
  reflexivity.
Defined.

(** C7. On a non-empty table, [remove_duplicates(keep='first')] with no
    column subset returns, and [detect_duplicates()] on the table it leaves
    returns a report whose [duplicate_count] is 0 (with percentage 0.0 and 0
    duplicate pairs). *)
Theorem no_duplicates_after_remove_duplicates (st : CSVCleaner.state) :
  pd.wf (CSVCleaner.current st) ->
  0 < pd.len (CSVCleaner.current st) ->
  let out := CSVCleaner.remove_duplicates None pd.KeepFirst st in
  out.2 = Ok tt
  /\ CSVValidator.detect_duplicates (CSVCleaner.current out.1)
     = Ok {| CSVValidator.duplicate_count := 0;
             CSVValidator.duplicate_percentage := PyFloat F64.zero;
             CSVValidator.duplicate_rows := 0 |}.
Proof.
  intros Hwf Hlen. cbn zeta.
  unfold CSVCleaner.remove_duplicates, CSVCleaner.drop_duplicates.
  cbn [mbind result_bind bind fst snd]. split; [ reflexivity | ].
  rewrite current_log_if, current_rebind.
  set (d := CSVCleaner.current st) in *.
  fold (pd.rows d).
  set (mask := List.map negb (pd.duplicated_rows pd.KeepFirst (pd.rows d))).
  assert (Hmask : length mask = length (pd.index d)).
  { unfold mask, pd.duplicated_rows. rewrite List.length_map, seen_before_length.
    apply rows_of_length. }
  assert (Hrows : pd.rows (pd.loc_rows mask d) = pd.take mask (pd.rows d))
    by (apply rows_loc_rows; assumption).
  assert (Hdist : pd.distinct_from [] (pd.rows (pd.loc_rows mask d))).
  { rewrite Hrows. apply kept_first_distinct. }
  assert (Hpos : 0 < pd.len (pd.loc_rows mask d)).
  { unfold pd.len, pd.loc_rows. cbn [pd.index].
    unfold mask, pd.duplicated_rows, pd.rows, pd.len in *.
    destruct (pd.index d) as [ | i idx]; cbn [length] in Hlen; [ lia | ].
    cbn [length]. rewrite rows_of_S. cbn. lia. }
  unfold CSVValidator.detect_duplicates, pd.duplicated.
  rewrite (duplicated_rows_distinct pd.KeepFalse _ Hdist), sum_mask_false.
  cbn [Z.ltb Z.compare].
  unfold mul, arith, truediv. cbn [is_int is_np andb orb int_val Z.mul].
  destruct (pd.len (pd.loc_rows mask d)) as [ | p | p ] eqn:E; try lia.
  reflexivity.
Qed.

(** C7, on an example: the table with repeated rows, in a fresh pipeline. *)
Lemma no_duplicates_after_remove_duplicates_example :
  let st := CSVCleaner.init (Demo.store_of Demo.repeated) 0%nat in
  let out := CSVCleaner.remove_duplicates None pd.KeepFirst st in
  out.2 = Ok tt
  /\ CSVValidator.detect_duplicates (CSVCleaner.current out.1)
     = Ok {| CSVValidator.duplicate_count := 0;
             CSVValidator.duplicate_percentage := PyFloat F64.zero;
             CSVValidator.duplicate_rows := 0 |}.
Proof.
  apply (no_duplicates_after_remove_duplicates
           (CSVCleaner.init (Demo.store_of Demo.repeated) 0%nat)).
  - vm_compute. repeat constructor.
  - vm_compute. reflexivity.
Defined.

(** C10. [remove_outliers] with the IQR method, called over columns each
    of which is numeric (or a datetime), returns, and in the table it leaves
    no processed numeric column has a missing value: a row whose value is
    missing fails both comparisons of the range test and is dropped with the
    out-of-range rows. The processed columns are the ones passed, or every
    numeric column by default. *)
Theorem remove_outliers_iqr_drops_missing `{L : pd.Lib}
    (st : CSVCleaner.state) (columns : option (list string)) (threshold : float) :
  let processed :=
    match columns with
    | Some cs => cs
    | None => List.map pd.name (pd.select_number (CSVCleaner.current st))
    end in
  (forall col s, In col processed ->
     pd.getitem (CSVCleaner.current st) col = Some s ->
     pd.is_number_dtype (pd.dtype_of s) = true \/ pd.dtype_of s = pd.Datetime64) ->
  let out := CSVCleaner.remove_outliers columns "iqr" threshold st in
  out.2 = Ok tt
  /\ forall col s, In col processed ->
       pd.getitem (CSVCleaner.current out.1) col = Some s ->
       pd.is_number_dtype (pd.dtype_of s) = true ->
       List.Forall (fun c => pd.isna c = false) (pd.values s).
Proof.
  intros processed Hnum. cbn zeta. unfold CSVCleaner.remove_outliers.
  fold processed.
  destruct (outlier_loop_iqr threshold processed st Hnum) as (Hok & _ & Hdone).
  destruct (CSVCleaner.outlier_loop "iqr" threshold processed st) as [st' r].
  cbn [fst snd] in *. subst r. cbn [fst snd]. split; [ reflexivity | ].
  intros col s Hc Hs. rewrite current_log_if in Hs. apply (Hdone col s Hc Hs).
Qed.

(** C10, on an example: a float column with a gap and an outlier. *)
Lemma remove_outliers_iqr_drops_missing_example :
  let st := CSVCleaner.init (Demo.store_of Demo.with_gap) 0%nat in
  let out := CSVCleaner.remove_outliers (L := Demo.lib) None "iqr" (F64.literal 15 1) st in
  out.2 = Ok tt
  /\ forall col s, In col ["x"] ->
       pd.getitem (CSVCleaner.current out.1) col = Some s ->
       pd.is_number_dtype (pd.dtype_of s) = true ->
       List.Forall (fun c => pd.isna c = false) (pd.values s).
Proof.
  apply (remove_outliers_iqr_drops_missing (L := Demo.lib)
           (CSVCleaner.init (Demo.store_of Demo.with_gap) 0%nat) None (F64.literal 15 1)).
  intros col s [<- | []] Hs. vm_compute in Hs. injection Hs as <-. left. reflexivity.
Defined.

(** C5, as the code has it. [get_correlation_matrix] returns an empty
    mapping exactly when the table has no numeric column; with a single
    numeric column [c] it returns the one-cell matrix [{c: {c: r}}], where
    [r] is the coefficient of [c] with itself rounded to 3 decimals. *)
Theorem correlation_matrix_empty_iff_no_numeric_column `{L : pd.Lib} (df : pd.DataFrame) :
  (CSVAnalyzer.get_correlation_matrix df = ∅ <-> pd.select_number df = [])
  /\ (forall c, pd.select_number df = [c] ->
        CSVAnalyzer.get_correlation_matrix df
        = {[ pd.name c := {[ pd.name c := np_round (CSVAnalyzer.corr_cell c c) 3 ]} ]}).
Proof.
  unfold CSVAnalyzer.get_correlation_matrix. split.
  - destruct (pd.select_number df) as [ | c cols] eqn:E; cbn [length Nat.eqb].
    + split; reflexivity.
    + rewrite dict_of_empty_iff. split; intros H; discriminate H.
  - intros c ->. cbn [length Nat.eqb List.map]. rewrite !dict_of_single. reflexivity.
Qed.

(** C5 fails for a table with exactly one numeric column: the result has
    one entry. *)
Lemma correlation_matrix_of_one_numeric_column :
  pd.select_number Demo.one_numeric = [Demo.series "x" pd.Int64 (Demo.ints [1; 2; 3])]
  /\ CSVAnalyzer.get_correlation_matrix (L := Demo.lib) Demo.one_numeric
     = {[ "x" := {[ "x" := F64.of_Z 1 ]} ]}.
Proof.
  split; [ reflexivity | ].
  unfold CSVAnalyzer.get_correlation_matrix. cbn [pd.select_number].
  change (pd.select_number Demo.one_numeric)
    with [Demo.series "x" pd.Int64 (Demo.ints [1; 2; 3])].
  cbn [length Nat.eqb List.map]. rewrite !dict_of_single.
  assert (E : np_round (CSVAnalyzer.corr_cell (L := Demo.lib)
                          (Demo.series "x" pd.Int64 (Demo.ints [1; 2; 3]))
                          (Demo.series "x" pd.Int64 (Demo.ints [1; 2; 3]))) 3
              = F64.of_Z 1) by (vm_compute; reflexivity).
  rewrite E. reflexivity.
Qed.

(** C6. For a table whose column names are distinct and any threshold, the
    list returned by [get_high_correlations]
    - has no entry whose two names are equal;
    - has no two entries with the same pair of names, in either order;
    - holds, for each entry, two numeric columns [ci] before [cj] whose
      absolute Pearson coefficient exceeds the threshold, the recorded value
      being that absolute coefficient (rounded to 3 decimals);
    - holds the entry with value 1.0 for any two columns whose coefficient
      is -1, when the threshold is below 1;
    - is sorted by decreasing absolute correlation. *)
Theorem high_correlations_distinct_absolute_sorted `{L : pd.Lib}
    (df : pd.DataFrame) (threshold : float) :
  List.NoDup (pd.column_names df) ->
  let numeric_df := pd.select_number df in
  let result := CSVAnalyzer.get_high_correlations df threshold in
  (forall e, In e result -> CSVAnalyzer.column_1 e <> CSVAnalyzer.column_2 e)
  /\ List.NoDup (List.map CSVAnalyzer.pair_of result)
  /\ (forall e1 e2, In e1 result -> In e2 result ->
        CSVAnalyzer.pair_of e1 <> (CSVAnalyzer.column_2 e2, CSVAnalyzer.column_1 e2))
  /\ (forall e, In e result ->
        exists i j ci cj,
          nth_error numeric_df i = Some ci /\ nth_error numeric_df j = Some cj
          /\ (i < j)%nat
          /\ F64.gtb (F64.abs (CSVAnalyzer.corr_cell ci cj)) threshold = true
          /\ e = CSVAnalyzer.entry_of ci cj)
  /\ (forall i j ci cj,
        nth_error numeric_df i = Some ci -> nth_error numeric_df j = Some cj ->
        (i < j)%nat ->
        CSVAnalyzer.corr_cell ci cj = F64.of_Z (-1) ->
        F64.gtb (F64.of_Z 1) threshold = true ->
        In {| CSVAnalyzer.column_1 := pd.name ci;
              CSVAnalyzer.column_2 := pd.name cj;
              CSVAnalyzer.correlation := F64.of_Z 1 |} result)
  /\ Sorted (CSVAnalyzer.descending (fun x => F64.abs (CSVAnalyzer.correlation x))) result.
Proof.
  intros Hnames numeric_df result.
  pose proof (select_number_names_NoDup df Hnames) as Hnd. fold numeric_df in Hnd.
  assert (Hraw : forall e, In e result ->
            exists i j ci cj,
              nth_error numeric_df i = Some ci /\ nth_error numeric_df j = Some cj
              /\ (i < j)%nat
              /\ F64.gtb (F64.abs (CSVAnalyzer.corr_cell ci cj)) threshold = true
              /\ e = CSVAnalyzer.entry_of ci cj).
  { intros e He. unfold result, CSVAnalyzer.get_high_correlations in He. fold numeric_df in He.
    destruct (length numeric_df <? 2)%nat; [ destruct He | ].
    apply In_high_corr.
    eapply Permutation_in; [ apply Permutation_sym, sorted_reverse_perm | exact He ]. }
  split; [ | split; [ | split; [ | split; [ exact Hraw | split ] ] ] ].
  - intros e He E. destruct (Hraw e He) as (i & j & ci & cj & Hi & Hj & Hij & _ & ->).
    cbn in E. destruct (name_determines_column numeric_df i j ci cj Hnd Hi Hj E). lia.
  - unfold result, CSVAnalyzer.get_high_correlations. fold numeric_df.
    destruct (length numeric_df <? 2)%nat; [ constructor | ].
    eapply Permutation_NoDup;
      [ apply Permutation_map, sorted_reverse_perm | apply high_corr_NoDup, Hnd ].
  - intros e1 e2 H1 H2 E.
    destruct (Hraw e1 H1) as (i1 & j1 & a1 & b1 & Ha1 & Hb1 & Hlt1 & _ & ->).
    destruct (Hraw e2 H2) as (i2 & j2 & a2 & b2 & Ha2 & Hb2 & Hlt2 & _ & ->).
    cbn in E. injection E as E1 E2.
    destruct (name_determines_column numeric_df i1 j2 a1 b2 Hnd Ha1 Hb2 E1).
    destruct (name_determines_column numeric_df j1 i2 b1 a2 Hnd Hb1 Ha2 E2). lia.
  - intros i j ci cj Hi Hj Hij Hcorr Ht.
    unfold result, CSVAnalyzer.get_high_correlations. fold numeric_df.
    assert (Hlen : (j < length numeric_df)%nat) by (apply List.nth_error_Some; congruence).
    destruct (length numeric_df <? 2)%nat eqn:Hl; [ apply Nat.ltb_lt in Hl; lia | ].
    eapply Permutation_in; [ apply sorted_reverse_perm | ].
    apply In_high_corr. exists i, j, ci, cj.
    repeat split; try assumption.
    + rewrite Hcorr. exact Ht.
    + unfold CSVAnalyzer.entry_of. rewrite Hcorr. reflexivity.
  - unfold result, CSVAnalyzer.get_high_correlations. fold numeric_df.
    destruct (length numeric_df <? 2)%nat; [ constructor | ].
    apply sorted_reverse_sorted, high_corr_keys_not_nan.
Qed.

(** C6, on an example: two columns with coefficient -1 and the default
    threshold 0.7. *)
Lemma high_correlations_distinct_absolute_sorted_example :
  CSVAnalyzer.get_high_correlations (L := Demo.lib) Demo.anti (F64.literal 7 1)
  = [{| CSVAnalyzer.column_1 := "x"; CSVAnalyzer.column_2 := "y";
        CSVAnalyzer.correlation := F64.of_Z 1 |}]
  /\ Sorted (CSVAnalyzer.descending (fun x => F64.abs (CSVAnalyzer.correlation x)))
       (CSVAnalyzer.get_high_correlations (L := Demo.lib) Demo.anti (F64.literal 7 1)).
Proof.
  split; [ reflexivity | ].
  apply (high_correlations_distinct_absolute_sorted (L := Demo.lib) Demo.anti (F64.literal 7 1)).
  repeat constructor; cbn; intuition discriminate.
Defined.

(** C2. A table with at least one row and one column, no missing cell, no
    two identical rows, no anomaly reported by [detect_anomalies], and no
    object column whose numeric-coercion failure rate exceeds 10%, gets
    [overall_score == 100.0] exactly: each of the four sub-scores is 100, and
    [100*0.3 + 100*0.2 + 100*0.2 + 100*0.3] evaluates to [100.0] in double
    precision, which [round(..., 2)] leaves unchanged. *)
Theorem quality_score_of_clean_table `{L : pd.Lib} (df : pd.DataFrame) :
  0 < pd.len df ->
  0 < pd.ncols df ->
  (forall s, In s (pd.columns df) -> forall c, In c (pd.values s) -> pd.isna c = false) ->
  pd.distinct_from [] (pd.rows df) ->
  CSVValidator.detect_anomalies df = Ok [] ->
  (forall s, In s (pd.columns df) -> pd.is_object_dtype (pd.dtype_of s) = true ->
             CSVValidator.coercion_failure_rate_exceeds_10 df s = false) ->
  CSVValidator.get_data_quality_score df
  = Ok {| CSVValidator.overall_score := PyFloat (F64.of_Z 100);
          CSVValidator.scores :=
            {| CSVValidator.null_score := PyFloat (F64.of_Z 100);
               CSVValidator.duplicate_score := PyFloat (F64.of_Z 100);
               CSVValidator.type_score := PyFloat (F64.of_Z 100);
               CSVValidator.anomaly_score := PyFloat (F64.of_Z 100) |};
          CSVValidator.issues_count := 0 |}.
Proof.
  intros Hlen Hcols Hnull Hrows Hanom _.
  unfold CSVValidator.get_data_quality_score.
  rewrite (isna_total_zero df Hnull).
  rewrite (percent_of_zero (pd.len df * pd.ncols df)) by lia.
  cbn [mbind result_bind bind].
  apply Z.ltb_lt in Hlen as Hlen'. rewrite Hlen'.
  unfold pd.duplicated. rewrite (duplicated_rows_distinct pd.KeepFirst _ Hrows), sum_mask_false.
  apply Z.ltb_lt in Hlen'.
  rewrite (percent_of_zero (pd.len df) Hlen').
  cbn [mbind result_bind bind].
  rewrite (type_issues_zero df Hlen' Hnull), Hanom.
  cbn [mbind result_bind bind]. vm_compute. reflexivity.
Qed.

(** C2, on an example: three distinct rows, an integer column and a
    column of digit strings. *)
Lemma quality_score_of_clean_table_example :
  CSVValidator.get_data_quality_score (L := Demo.lib) Demo.clean
  = Ok {| CSVValidator.overall_score := PyFloat (F64.of_Z 100);
          CSVValidator.scores :=
            {| CSVValidator.null_score := PyFloat (F64.of_Z 100);
               CSVValidator.duplicate_score := PyFloat (F64.of_Z 100);
               CSVValidator.type_score := PyFloat (F64.of_Z 100);
               CSVValidator.anomaly_score := PyFloat (F64.of_Z 100) |};
          CSVValidator.issues_count := 0 |}.
Proof.
  apply (quality_score_of_clean_table (L := Demo.lib) Demo.clean).
  - vm_compute. reflexivity.
  - vm_compute. reflexivity.
  - intros s Hs c Hc. cbn in Hs.
    destruct Hs as [<- | [<- | []]]; cbn in Hc;
      repeat (destruct Hc as [<- | Hc]; [ reflexivity | ]); destruct Hc.
  - cbn. repeat split; intros s Hs; cbn in Hs;
      repeat (destruct Hs as [<- | Hs]; [ reflexivity | ]); destruct Hs.
  - vm_compute. reflexivity.
  - intros s Hs _. cbn in Hs.
    destruct Hs as [<- | [<- | []]]; vm_compute; reflexivity.
Defined.

(** C1 at the table with one object column ['a', 'b', 'c']: every value
    fails to coerce, so the documented count of type issues is 1, yet the
    loop counts 0 and [type_score] is 100 instead of 90. *)
Lemma type_score_ignores_failed_coercions :
  CSVValidator.documented_type_issues (L := Demo.lib) Demo.words = 1
  /\ CSVValidator.type_issues (L := Demo.lib) Demo.words = 0
  /\ CSVValidator.get_data_quality_score (L := Demo.lib) Demo.words
     = Ok {| CSVValidator.overall_score := PyFloat (F64.of_Z 100);
             CSVValidator.scores :=
               {| CSVValidator.null_score := PyFloat (F64.of_Z 100);
                  CSVValidator.duplicate_score := PyFloat (F64.of_Z 100);
                  CSVValidator.type_score := PyFloat (F64.of_Z 100);
                  CSVValidator.anomaly_score := PyFloat (F64.of_Z 100) |};
             CSVValidator.issues_count := 0 |}.
Proof. repeat split; vm_compute; reflexivity. Qed.

(** C4 at a table with a header and no row: the per-column percentage of
    [CSVValidator.get_null_distribution] and the one of [detect_duplicates]
    divide two Python integers and raise; [CSVAnalyzer.get_null_distribution]
    divides NumPy integers and yields NaN; in [get_data_quality_score] only the
    duplicate percentage is guarded, the null percentage is NaN and
    [null_score] comes out as 0. *)
Lemma percentages_of_empty_table :
  CSVValidator.get_null_distribution Demo.no_rows = Raise ZeroDivisionError
  /\ CSVValidator.detect_duplicates Demo.no_rows = Raise ZeroDivisionError
  /\ CSVAnalyzer.get_null_distribution Demo.no_rows
     = Ok {[ "a" := {| CSVAnalyzer.null_count := 0;
                       CSVAnalyzer.null_percentage := NpFloat64 F64.nan;
                       CSVAnalyzer.non_null_count := 0;
                       CSVAnalyzer.non_null_percentage := NpFloat64 F64.nan |} ]}
  /\ CSVValidator.get_data_quality_score (L := Demo.lib) Demo.no_rows
     = Ok {| CSVValidator.overall_score := PyFloat (F64.of_Z 70);
             CSVValidator.scores :=
               {| CSVValidator.null_score := PyFloat F64.zero;
                  CSVValidator.duplicate_score := PyFloat (F64.of_Z 100);
                  CSVValidator.type_score := PyFloat (F64.of_Z 100);
                  CSVValidator.anomaly_score := PyFloat (F64.of_Z 100) |};
             CSVValidator.issues_count := 0 |}.
Proof.
  split; [ reflexivity | split; [ reflexivity | split ] ].
  - vm_compute. reflexivity.
  - vm_compute. reflexivity.
Qed.

(** C3 fails at the boundary. In a column of five values of which exactly
    four (80%) are numbers the result is not ['numeric'], whether or not
    digit strings also read as dates; and with four dates out of five
    values, none of them a number, the result is not ['datetime']. *)
Lemma infer_column_type_at_80_percent :
  (pd.size (pd.dropna (pd.values Demo.mostly_numbers)) = 5
   /\ utils.coerced_count (pd.to_numeric (Lib := Demo.lib)
                             (pd.dropna (pd.values Demo.mostly_numbers))) = 4
   /\ utils.infer_column_type (L := Demo.lib) Demo.mostly_numbers = Ok "categorical"
   /\ utils.infer_column_type (L := Demo.lib_dates) Demo.mostly_numbers = Ok "categorical")
  /\ (pd.size (pd.dropna (pd.values Demo.mostly_dates)) = 5
      /\ utils.coerced_count (pd.to_numeric (Lib := Demo.lib)
                                (pd.dropna (pd.values Demo.mostly_dates))) = 0
      /\ utils.coerced_count (pd.to_datetime (Lib := Demo.lib)
                                (pd.dropna (pd.values Demo.mostly_dates))) = 4
      /\ utils.infer_column_type (L := Demo.lib) Demo.mostly_dates = Ok "categorical").
Proof. repeat split; vm_compute; reflexivity. Qed.

(** C3, as the code has it. Take a column with [n] values present,
    [0 < n < 2^50], of which [k] convert to a number and [k'] to a date
    (conversions keep the length of the column). Then [infer_column_type]
    returns ['numeric'] when [k/n] is strictly above 80%; when [k/n] is at
    most 80% and [k'/n] is strictly above 80% it returns ['datetime'];
    when both are at most 80% (in particular at exactly 80%) it returns
    ['categorical'] or ['text']. *)
Theorem infer_column_type_thresholds_strict `{L : pd.Lib} (series : pd.Series) :
  let non_null := pd.dropna (pd.values series) in
  let n := pd.size non_null in
  let k := utils.coerced_count (pd.to_numeric non_null) in
  let k' := utils.coerced_count (pd.to_datetime non_null) in
  0 < n < 2 ^ 50 ->
  (forall r, pd.to_numeric non_null = Some r -> length r = length non_null) ->
  (forall r, pd.to_datetime non_null = Some r -> length r = length non_null) ->
  (4 * n < 5 * k -> utils.infer_column_type series = Ok "numeric")
  /\ (5 * k <= 4 * n -> 4 * n < 5 * k' ->
      utils.infer_column_type series = Ok "datetime")
  /\ (5 * k <= 4 * n -> 5 * k' <= 4 * n ->
      utils.infer_column_type series = Ok "categorical"
      \/ utils.infer_column_type series = Ok "text").
Proof.
  intros non_null n k k' Hn Hnum Hdat.
  unfold utils.infer_column_type. fold non_null. fold n.
  replace (n =? 0) with false by (symmetry; apply Z.eqb_neq; lia).
  rewrite (coerces_iff (pd.to_numeric non_null) non_null Hn Hnum).
  rewrite (coerces_iff (pd.to_datetime non_null) non_null Hn Hdat).
  fold n k k'.
  split; [ | split ].
  - intros H. apply Z.ltb_lt in H. rewrite H. reflexivity.
  - intros H1 H2. apply Z.ltb_ge in H1. apply Z.ltb_lt in H2. rewrite H1, H2. reflexivity.
  - intros H1 H2. apply Z.ltb_ge in H1, H2. rewrite H1, H2.
    unfold truediv. cbn [is_np orb].
    replace (n =? 0) with false by (symmetry; apply Z.eqb_neq; lia).
    cbn [mbind result_bind bind].
    match goal with |- context [if ?b then _ else _] => destruct b end; auto.
Qed.

(** C3, on an example: five digit strings, all of which are numbers. *)
Lemma infer_column_type_thresholds_strict_example :
  utils.infer_column_type (L := Demo.lib) Demo.all_numbers = Ok "numeric".
Proof.
  refine (proj1 (infer_column_type_thresholds_strict (L := Demo.lib) Demo.all_numbers
                   _ _ _) _).
  - vm_compute. split; reflexivity.
  - intros r Hr. vm_compute in Hr. injection Hr as <-. reflexivity.
  - intros r Hr. vm_compute in Hr. injection Hr as <-. reflexivity.
  - vm_compute. reflexivity.
Defined.

(* ===================================================================== *)
(** * Division of a double by a power of two *)
(* ===================================================================== *)

Section PowerOfTwo.

(** Rounding twice a 53-digit significand: the significand itself, one
    exponent higher. *)
Lemma binary_round_aux_double (s : bool) (m : positive) (e : Z) :
  2 ^ 52 <= Zpos m < 2 ^ 53 -> -1074 <= e <= 970 ->
  binary_round_aux 53 1024 s (Zpos m~0) e loc_Exact = S754_finite s m (e + 1).
Proof.
  intros Hm He.
  assert (Hd54 : Zpos (digits2_pos m~0) = 54).
  { apply digits_of_range. rewrite Pos2Z.inj_xO. lia. }
  assert (Hd53 : Zpos (digits2_pos m) = 53) by (apply digits_of_range; lia).
  unfold binary_round_aux, shr_fexp, fexp, SpecFloat.emin. cbn [Zdigits2]. rewrite Hd54.
  replace (Z.max (54 + e - 53) (3 - 1024 - 53) - e) with 1 by lia.
  cbn [shr SpecFloat.iter_pos shr_1 shr_record_of_loc loc_of_shr_record shr_m shr_r shr_s
       orb round_nearest_even Zdigits2].
  rewrite Hd53.
  replace (Z.max (53 + (e + 1) - 53) (3 - 1024 - 53) - (e + 1)) with 0 by lia.
  cbn [shr shr_record_of_loc shr_m].
  replace (e + 1 <=? 1024 - 53) with true by (symmetry; apply Z.leb_le; lia).
  reflexivity.
Qed.

(** Dividing a normal double by [2^k] (the double with significand [2^52]
    and exponent [k - 52]) lowers its exponent by [k] and is exact. *)
Lemma div_pow2_exact (s : bool) (m : positive) (e k : Z) :
  2 ^ 52 <= Zpos m < 2 ^ 53 -> -1000 <= e <= 900 -> 0 <= k <= 60 ->
  F64.div (S754_finite s m e) (S754_finite false 4503599627370496 (k - 52))
  = S754_finite s m (e - k).
Proof.
  intros Hm He Hk.
  unfold F64.div, SFdiv, SFdiv_core_binary, fexp, SpecFloat.emin, F64.prec, F64.emax.
  cbn [Zdigits2]. rewrite xorb_false_r.
  rewrite (digits_of_range m 53 Hm).
  rewrite (digits_of_range 4503599627370496 53) by (cbn; lia).
  replace (Z.min (Z.max (53 + e - (53 + (k - 52)) - 53) (3 - 1024 - 53)) (e - (k - 52)))
    with (e - (k - 52) - 53) by lia.
  replace (e - (k - 52) - (e - (k - 52) - 53)) with 53 by lia.
  cbv beta iota. rewrite Z.shiftl_mul_pow2 by lia.
  assert (Hdiv : Z.div_eucl (Zpos m * 2 ^ 53) 4503599627370496 = (Zpos m~0, 0)).
  { pose proof (Z.div_eucl_eq (Zpos m * 2 ^ 53) 4503599627370496 ltac:(lia)) as Heq.
    pose proof (Z.mod_pos_bound (Zpos m * 2 ^ 53) 4503599627370496 ltac:(lia)) as Hb.
    unfold Z.modulo in Hb.
    destruct (Z.div_eucl (Zpos m * 2 ^ 53) 4503599627370496) as [q r].
    rewrite Pos2Z.inj_xO. f_equal; change (2 ^ 53) with (2 * 4503599627370496) in Heq; lia. }
  rewrite Hdiv. change (new_location 4503599627370496 0) with loc_Exact.
  rewrite binary_round_aux_double by lia.
  f_equal. lia.
Qed.

Lemma two_pow_10 : F64.of_Z 1024 = S754_finite false 4503599627370496 (10 - 52).
Proof. reflexivity. Qed.

Lemma two_pow_1 : F64.of_Z 2 = S754_finite false 4503599627370496 (1 - 52).
Proof. reflexivity. Qed.

End PowerOfTwo.

(* ===================================================================== *)
(** * Further properties of the code *)
(* ===================================================================== *)

(** ** [utils.sanitize_dict] *)

(** Induction on objects, through lists and dictionaries. *)
Lemma object_ind (P : object -> Prop) :
  P ONone ->
  (forall b, P (OBool b)) ->
  (forall x, P (ONumber x)) ->
  (forall s, P (OStr s)) ->
  (forall b, P (ONpBool b)) ->
  P ONaT ->
  P ONA ->
  (forall text, P (OOther text)) ->
  (forall items, List.Forall P items -> P (OList items)) ->
  (forall items, List.Forall (fun kv => P kv.2) items -> P (ODict items)) ->
  forall o, P o.
Proof.
  intros HNone HBool HNum HStr HNpBool HNaT HNA HOther HList HDict.
  fix IH 1. intros [ | b | x | s | b | | | text | items | items ].
  - exact HNone.
  - apply HBool.
  - apply HNum.
  - apply HStr.
  - apply HNpBool.
  - exact HNaT.
  - exact HNA.
  - apply HOther.
  - apply HList. induction items as [ | o items IHitems ]; constructor.
    + apply IH.
    + exact IHitems.
  - apply HDict. induction items as [ | [k v] items IHitems ]; constructor.
    + apply IH.
    + exact IHitems.
Qed.

Lemma map_id_on {A : Type} (f : A -> A) (l : list A) :
  List.Forall (fun x => f x = x) l <-> List.map f l = l.
Proof.
  induction l as [ | a l IH ]; cbn.
  - split; [ reflexivity | constructor ].
  - split.
    + intros H. inversion H; subst. f_equal; [ assumption | apply IH; assumption ].
    + intros H. injection H as Ha Hl. constructor; [ assumption | apply IH; assumption ].
Qed.


(** X2. [sanitize_dict] leaves an object as it is exactly when the object
    is plain JSON data already; in particular a float that is not NaN,
    infinities included, is returned unchanged. Hence sanitizing twice is
    the same as sanitizing once. *)
Theorem sanitize_dict_fixes_plain_data (obj : object) :
  (utils.sanitize_dict obj = obj <-> utils.plain obj = true)
  /\ utils.sanitize_dict (utils.sanitize_dict obj) = utils.sanitize_dict obj.
Proof.
  induction obj as [ | b | x | s | b | | | text | items IH | items IH ] using object_ind.
  - split; [ split | ]; reflexivity.
  - split; [ split | ]; reflexivity.
  - destruct x as [ z | z | f | f ].
    + split; [ split | ]; reflexivity.
    + split; [ split; discriminate | reflexivity ].
    + cbn. destruct (F64.is_nan f) eqn:E; cbn; rewrite ?E;
        (split; [ split; (discriminate || reflexivity) | reflexivity ]).
    + cbn. destruct (F64.is_nan f) eqn:E; cbn; rewrite ?E;
        (split; [ split; discriminate | reflexivity ]).
  - split; [ split | ]; reflexivity.
  - split; [ split; discriminate | destruct b; reflexivity ].
  - split; [ split; discriminate | reflexivity ].
  - split; [ split; discriminate | reflexivity ].
  - split; [ split; discriminate | reflexivity ].
  - cbn [utils.sanitize_dict utils.plain]. split; [ split | ].
    + intros H. injection H as H. apply map_id_on in H.
      rewrite forallb_forall. rewrite List.Forall_forall in IH, H.
      intros o Ho. apply (IH o Ho). apply H. exact Ho.
    + intros H. f_equal. apply map_id_on.
      rewrite forallb_forall in H. rewrite List.Forall_forall in IH |- *.
      intros o Ho. apply (IH o Ho). apply H. exact Ho.
    + f_equal. rewrite List.map_map. apply List.map_ext_in.
      rewrite List.Forall_forall in IH. intros o Ho. apply (IH o Ho).
  - cbn [utils.sanitize_dict utils.plain]. split; [ split | ].
    + intros H. injection H as H.
      apply (map_id_on (fun '(k, v) => (k, utils.sanitize_dict v))) in H.
      rewrite forallb_forall. rewrite List.Forall_forall in IH, H.
      intros [k v] Ho. apply (IH (k, v) Ho). specialize (H (k, v) Ho).
      cbn in H. injection H as H. exact H.
    + intros H. f_equal.
      apply (map_id_on (fun '(k, v) => (k, utils.sanitize_dict v))).
      rewrite forallb_forall in H. rewrite List.Forall_forall in IH |- *.
      intros [k v] Ho. f_equal. apply (IH (k, v) Ho). apply (H (k, v) Ho).
    + f_equal. rewrite List.map_map. apply List.map_ext_in.
      rewrite List.Forall_forall in IH. intros [k v] Ho. f_equal.
      apply (IH (k, v) Ho).
Qed.

(** ** [utils.infer_column_type] *)

(** X3. [infer_column_type] never raises: for every column it returns one
    of the five labels ['unknown'], ['numeric'], ['datetime'],
    ['categorical'], ['text']. It returns ['unknown'] exactly when the
    column has no value present, and ['text'] only for a column with at
    least 20 distinct values. *)
Theorem infer_column_type_returns_a_label `{L : pd.Lib} (series : pd.Series) :
  let non_null := pd.dropna (pd.values series) in
  (exists t, utils.infer_column_type series = Ok t
             /\ In t ["unknown"; "numeric"; "datetime"; "categorical"; "text"])
  /\ (utils.infer_column_type series = Ok "unknown" <-> non_null = [])
  /\ (utils.infer_column_type series = Ok "text" ->
      20 <= pd.size (pd.unique non_null)).
Proof.
  cbn zeta. unfold utils.infer_column_type.
  set (non_null := pd.dropna (pd.values series)).
  destruct (pd.size non_null =? 0) eqn:Hsize.
  - apply Z.eqb_eq in Hsize.
    assert (Hnil : non_null = []).
    { unfold pd.size in Hsize. destruct non_null; [ reflexivity | cbn in Hsize; lia ]. }
    split; [ | split ].
    + exists "unknown". split; [ reflexivity | left; reflexivity ].
    + split; intros _; [ exact Hnil | reflexivity ].
    + discriminate.
  - apply Z.eqb_neq in Hsize.
    assert (Hne : non_null <> []).
    { intros E. rewrite E in Hsize. apply Hsize. reflexivity. }
    destruct (utils.coerces (pd.to_numeric non_null) non_null).
    { split; [ | split ].
      - exists "numeric". split; [ reflexivity | right; left; reflexivity ].
      - split; [ discriminate | intros E; contradiction ].
      - discriminate. }
    destruct (utils.coerces (pd.to_datetime non_null) non_null).
    { split; [ | split ].
      - exists "datetime". split; [ reflexivity | do 2 right; left; reflexivity ].
      - split; [ discriminate | intros E; contradiction ].
      - discriminate. }
    unfold truediv. cbn [is_np orb].
    destruct (pd.size non_null =? 0) eqn:Hz; [ apply Z.eqb_eq in Hz; contradiction | ].
    cbn [mbind result_bind bind].
    destruct (pd.size (pd.unique non_null) <? 20) eqn:Hu.
    + rewrite orb_true_r. split; [ | split ].
      * exists "categorical". split; [ reflexivity | do 3 right; left; reflexivity ].
      * split; [ discriminate | intros E; contradiction ].
      * discriminate.
    + apply Z.ltb_ge in Hu. rewrite orb_false_r.
      match goal with |- context [if ?b then _ else _] => destruct b end.
      * split; [ | split ].
        -- exists "categorical". split; [ reflexivity | do 3 right; left; reflexivity ].
        -- split; [ discriminate | intros E; contradiction ].
        -- discriminate.
      * split; [ | split ].
        -- exists "text". split; [ reflexivity | do 4 right; left; reflexivity ].
        -- split; [ discriminate | intros E; contradiction ].
        -- intros _. exact Hu.
Qed.

(** ** [csv_loader.py] *)

Lemma count_nonneg (c : ascii) (s : string) : 0 <= Py.count c s.
Proof. unfold Py.count. lia. Qed.

(** X4. [_detect_delimiter] returns one of [','], [';'], tab, ['|'], taken
    in this order: the first one whose number of occurrences in the line is
    the largest. Every candidate before it occurs strictly less often, every
    candidate after it at most as often; a line with no candidate at all
    gives [',']. *)
Theorem detect_delimiter_first_most_frequent (line : string) :
  let d := CSVLoader._detect_delimiter line in
  (exists before after,
     CSVLoader.delimiters = (before ++ d :: after)%list
     /\ (forall c, In c before -> Py.count c line < Py.count d line)
     /\ (forall c, In c after -> Py.count c line <= Py.count d line))
  /\ ((forall c, In c CSVLoader.delimiters -> Py.count c line = 0) -> d = ","%char).
Proof.
  cbn zeta. unfold CSVLoader._detect_delimiter, CSVLoader.delimiters.
  cbn [fold_left]. unfold CSVLoader.consider.
  pose proof (count_nonneg "," line) as H1.
  pose proof (count_nonneg ";" line) as H2.
  pose proof (count_nonneg "009" line) as H3.
  pose proof (count_nonneg "|" line) as H4.
  set (c1 := Py.count "," line) in *.
  set (c2 := Py.count ";" line) in *.
  set (c3 := Py.count "009" line) in *.
  set (c4 := Py.count "|" line) in *.
  cbn [fst snd].
  destruct (0 <? c1) eqn:E1; cbn [fst snd];
    [ apply Z.ltb_lt in E1 | apply Z.ltb_ge in E1 ];
    match goal with |- context [?a <? c2] => destruct (a <? c2) eqn:E2 end;
    cbn [fst snd];
    [ apply Z.ltb_lt in E2 | apply Z.ltb_ge in E2
    | apply Z.ltb_lt in E2 | apply Z.ltb_ge in E2 ];
    match goal with |- context [?a <? c3] => destruct (a <? c3) eqn:E3 end;
    cbn [fst snd];
    [ apply Z.ltb_lt in E3 | apply Z.ltb_ge in E3
    | apply Z.ltb_lt in E3 | apply Z.ltb_ge in E3
    | apply Z.ltb_lt in E3 | apply Z.ltb_ge in E3
    | apply Z.ltb_lt in E3 | apply Z.ltb_ge in E3 ];
    match goal with |- context [?a <? c4] => destruct (a <? c4) eqn:E4 end;
    cbn [fst snd];
    (split;
     [ first
         [ exists [], [";"; "009"; "|"]%char; split; [ reflexivity | ]
         | exists [","]%char, ["009"; "|"]%char; split; [ reflexivity | ]
         | exists [","; ";"]%char, ["|"]%char; split; [ reflexivity | ]
         | exists [","; ";"; "009"]%char, []; split; [ reflexivity | ] ];
       split; intros c Hc; cbn [In] in Hc;
       repeat (destruct Hc as [<- | Hc]); try contradiction;
       fold c1 c2 c3 c4; try apply Z.ltb_lt in E4; try apply Z.ltb_ge in E4; lia
     | intros Hall;
       pose proof (Hall ","%char ltac:(cbn; tauto)) as Z1;
       pose proof (Hall ";"%char ltac:(cbn; tauto)) as Z2;
       pose proof (Hall "009"%char ltac:(cbn; tauto)) as Z3;
       pose proof (Hall "|"%char ltac:(cbn; tauto)) as Z4;
       fold c1 c2 c3 c4 in Z1, Z2, Z3, Z4;
       try apply Z.ltb_lt in E4; try apply Z.ltb_ge in E4;
       first [ reflexivity | lia ] ]).
Qed.

(** ** [cleaner.py]: what every method preserves *)

Section Shape.
Context `{L : pd.Lib}.
Import CSVCleaner.

Lemma take_length_le {A : Type} (mask : list bool) (l : list A) :
  (length (pd.take mask l) <= length l)%nat.
Proof.
  revert l. induction mask as [ | b mask IH ]; intros [ | a l ]; cbn; try lia.
  specialize (IH l). destruct b; cbn; lia.
Qed.

Lemma len_loc_rows (mask : list bool) (d : pd.DataFrame) :
  pd.len (pd.loc_rows mask d) <= pd.len d.
Proof.
  unfold pd.len, pd.loc_rows. cbn [pd.index].
  pose proof (take_length_le mask (pd.index d)). lia.
Qed.

Lemma ncols_loc_rows (mask : list bool) (d : pd.DataFrame) :
  pd.ncols (pd.loc_rows mask d) = pd.ncols d.
Proof. unfold pd.ncols, pd.loc_rows. cbn [pd.columns]. rewrite List.length_map. reflexivity. Qed.

Lemma index_setitem (d : pd.DataFrame) (col : string) (t : pd.dtype) (vs : list pd.cell) :
  pd.index (pd.setitem d col t vs) = pd.index d.
Proof. reflexivity. Qed.

Lemma ncols_setitem (d : pd.DataFrame) (col : string) (t : pd.dtype) (vs : list pd.cell) :
  pd.ncols (pd.setitem d col t vs) = pd.ncols d.
Proof. unfold pd.ncols, pd.setitem. cbn [pd.columns]. rewrite List.length_map. reflexivity. Qed.

Lemma len_setitem (d : pd.DataFrame) (col : string) (t : pd.dtype) (vs : list pd.cell) :
  pd.len (pd.setitem d col t vs) = pd.len d.
Proof. reflexivity. Qed.

Lemma str_loop_shape (f : string -> string) (columns : list string) (d : pd.DataFrame) :
  pd.len (str_loop f columns d).1 = pd.len d
  /\ pd.ncols (str_loop f columns d).1 = pd.ncols d.
Proof.
  revert d. induction columns as [ | col rest IH ]; intros d; cbn [str_loop].
  - split; reflexivity.
  - destruct (pd.getitem d col) as [ s | ]; [ | apply IH ].
    destruct (pd.is_object_dtype (pd.dtype_of s)); [ | split; reflexivity ].
    destruct (IH (pd.setitem d col pd.Object (str_map f (pd.values s)))) as [H1 H2].
    rewrite H1, H2, len_setitem, ncols_setitem. split; reflexivity.
Qed.

Lemma fill_loop_shape (method : string) (fill_value : option pd.cell)
    (columns : list string) (d : pd.DataFrame) :
  pd.len (fill_loop method fill_value columns d) = pd.len d
  /\ pd.ncols (fill_loop method fill_value columns d) = pd.ncols d.
Proof.
  unfold fill_loop. revert d.
  induction columns as [ | col rest IH ]; intros d; cbn [fold_left].
  - split; reflexivity.
  - destruct (pd.getitem d col) as [ s | ]; [ | apply IH ].
    destruct (pd.isna_sum (pd.values s) =? 0); [ apply IH | ].
    match goal with |- context [fold_left _ rest ?d'] => destruct (IH d') as [H1 H2] end.
    rewrite H1, H2, len_setitem, ncols_setitem. split; reflexivity.
Qed.

Lemma outlier_loop_shape (method : string) (threshold : float)
    (columns : list string) (st : state) :
  let st' := (outlier_loop method threshold columns st).1 in
  pd.len (current st') <= pd.len (current st)
  /\ pd.ncols (current st') = pd.ncols (current st)
  /\ changes (self st') = changes (self st).
Proof.
  cbn zeta. revert st.
  induction columns as [ | col rest IH ]; intros st; cbn [outlier_loop].
  - cbn [fst]. split; [ lia | split; reflexivity ].
  - assert (Hstep : forall mask,
      let st1 := rebind st (pd.loc_rows mask (current st)) in
      pd.len (current (outlier_loop method threshold rest st1).1) <= pd.len (current st)
      /\ pd.ncols (current (outlier_loop method threshold rest st1).1) = pd.ncols (current st)
      /\ changes (self (outlier_loop method threshold rest st1).1) = changes (self st)).
    { intros mask. cbn zeta.
      destruct (IH (rebind st (pd.loc_rows mask (current st)))) as (H1 & H2 & H3).
      rewrite current_rebind in H1, H2.
      rewrite ncols_loc_rows in H2.
      pose proof (len_loc_rows mask (current st)).
      split; [ lia | split; [ exact H2 | ] ].
      rewrite H3. unfold rebind, alloc. reflexivity. }
    destruct (pd.getitem (current st) col) as [ s | ]; [ | apply IH ].
    destruct (String.eqb method "iqr").
    + destruct (pd.is_number_dtype (pd.dtype_of s)); [ apply Hstep | ].
      destruct (pd.dtype_of s); try (cbn [fst]; split; [ lia | split; reflexivity ]).
      apply Hstep.
    + destruct (String.eqb method "zscore"); [ | apply IH ].
      destruct (pd.is_number_dtype (pd.dtype_of s)); [ apply Hstep | ].
      cbn [fst]. split; [ lia | split; reflexivity ].
Qed.

Lemma changes_rebind (st : state) (v : pd.DataFrame) :
  changes (self (rebind st v)) = changes (self st).
Proof. reflexivity. Qed.

Lemma changes_log_if (b : bool) (st : state) (msg : string) :
  exists added, changes (self (log_if b st msg)) = (changes (self st) ++ added)%list.
Proof.
  destruct b; cbn.
  - exists [msg]. reflexivity.
  - exists []. rewrite List.app_nil_r. reflexivity.
Qed.

Lemma convert_dtypes_shape (columns_types : list (string * string)) (st : state) :
  let st' := (convert_dtypes columns_types st).1 in
  pd.len (current st') = pd.len (current st)
  /\ pd.ncols (current st') = pd.ncols (current st)
  /\ exists added, changes (self st') = (changes (self st) ++ added)%list.
Proof.
  cbn zeta. unfold convert_dtypes. cbn [fst]. revert st.
  induction columns_types as [ | [col dtype] rest IH ]; intros st; cbn [fold_left].
  - split; [ reflexivity | split; [ reflexivity | ] ].
    exists []. rewrite List.app_nil_r. reflexivity.
  - destruct (pd.getitem (current st) col) as [ s | ]; [ | apply IH ].
    unfold convert_column.
    assert (Hm : forall t vs,
      let st1 := mutate st (pd.setitem (current st) col t vs) in
      pd.len (current st1) = pd.len (current st)
      /\ pd.ncols (current st1) = pd.ncols (current st)
      /\ changes (self st1) = changes (self st)).
    { intros t vs. cbn zeta. rewrite current_mutate, ncols_setitem, len_setitem.
      split; [ reflexivity | split; reflexivity ]. }
    assert (Hl : forall w,
      let st1 := log st w in
      pd.len (current st1) = pd.len (current st)
      /\ pd.ncols (current st1) = pd.ncols (current st)
      /\ changes (self st1) = (changes (self st) ++ [w])%list).
    { intros w. cbn zeta. rewrite current_log.
      split; [ reflexivity | split; reflexivity ]. }
    assert (Hgo : forall st1 added1,
      pd.len (current st1) = pd.len (current st) ->
      pd.ncols (current st1) = pd.ncols (current st) ->
      changes (self st1) = (changes (self st) ++ added1)%list ->
      let out := fold_left (fun st '(col, dtype) =>
        match pd.getitem (current st) col with
        | Some s =>
            match convert_column (current st) col dtype s with
            | inl d => mutate st d
            | inr w => log st w
            end
        | None => st
        end) rest st1 in
      pd.len (current out) = pd.len (current st)
      /\ pd.ncols (current out) = pd.ncols (current st)
      /\ exists added, changes (self out) = (changes (self st) ++ added)%list).
    { intros st1 added1 H1 H2 H3. cbn zeta. destruct (IH st1) as (G1 & G2 & added & G3).
      rewrite G1, G2, H1, H2.
      split; [ reflexivity | split; [ reflexivity | ] ].
      exists (added1 ++ added)%list. rewrite G3, H3, List.app_assoc. reflexivity. }
    destruct (String.eqb dtype "numeric").
    { destruct (pd.to_numeric (pd.values s)) as [ vs | ].
      - destruct (Hm (numeric_dtype vs) vs) as (H1 & H2 & H3).
        apply (Hgo _ []); try assumption. rewrite List.app_nil_r. exact H3.
      - match goal with |- context [log st ?w] => destruct (Hl w) as (H1 & H2 & H3) end.
        eapply Hgo; eassumption. }
    destruct (String.eqb dtype "datetime").
    { destruct (pd.to_datetime (pd.values s)) as [ vs | ].
      - destruct (Hm pd.Datetime64 vs) as (H1 & H2 & H3).
        apply (Hgo _ []); try assumption. rewrite List.app_nil_r. exact H3.
      - match goal with |- context [log st ?w] => destruct (Hl w) as (H1 & H2 & H3) end.
        eapply Hgo; eassumption. }
    match goal with |- context [pd.astype ?t s] => destruct (pd.astype t s) as [ s' | e ] end.
    + destruct (Hm (pd.dtype_of s') (pd.values s')) as (H1 & H2 & H3).
      apply (Hgo _ []); try assumption. rewrite List.app_nil_r. exact H3.
    + match goal with |- context [log st ?w] => destruct (Hl w) as (H1 & H2 & H3) end.
      eapply Hgo; eassumption.
Qed.

(** One call: the table does not grow and the change log is extended. *)
Lemma perform_monotone (c : call) (st : state) :
  let st' := (perform c st).1 in
  pd.len (current st') <= pd.len (current st)
  /\ pd.ncols (current st') <= pd.ncols (current st)
  /\ exists added, changes (self st') = (changes (self st) ++ added)%list.
Proof.
  cbn zeta. destruct c as [ | | cs | subset keep | m cs v | | cs case | cs m t | cts ];
    cbn [perform].
  - (* remove_empty_rows *)
    unfold remove_empty_rows. cbn [fst].
    rewrite current_log_if, current_rebind. unfold dropna_rows_all.
    rewrite ncols_loc_rows. split; [ apply len_loc_rows | split; [ lia | ] ].
    match goal with |- context [log_if ?b ?s ?msg] => destruct (changes_log_if b s msg) as [added Ha] end.
    exists added. rewrite Ha. reflexivity.
  - (* remove_empty_columns *)
    unfold remove_empty_columns. cbn [fst].
    rewrite current_log_if, current_rebind.
    split; [ reflexivity | split ].
    + unfold pd.ncols, dropna_columns_all. cbn [pd.columns].
      match goal with |- context [List.filter ?f ?l] => pose proof (List.filter_length_le f l) end.
      lia.
    + match goal with |- context [log_if ?b ?s ?msg] => destruct (changes_log_if b s msg) as [added Ha] end.
      exists added. rewrite Ha. reflexivity.
  - (* trim_whitespace *)
    unfold trim_whitespace.
    match goal with |- context [str_loop ?f ?cols ?d] =>
      pose proof (str_loop_shape f cols d) as [H1 H2]; destruct (str_loop f cols d) as [d' [ [] | e ]] end;
      cbn [fst] in *.
    + rewrite current_log, current_mutate, H1, H2.
      split; [ lia | split; [ lia | ] ]. eexists. reflexivity.
    + rewrite current_mutate, H1, H2. split; [ lia | split; [ lia | ] ].
      exists []. rewrite List.app_nil_r. reflexivity.
  - (* remove_duplicates *)
    unfold remove_duplicates, drop_duplicates.
    destruct subset as [ names | ].
    + destruct (select (current st) names) as [ cols | e ]; cbn [mbind result_bind bind fst].
      * rewrite current_log_if, current_rebind, ncols_loc_rows.
        split; [ apply len_loc_rows | split; [ lia | ] ].
        match goal with |- context [log_if ?b ?s ?msg] => destruct (changes_log_if b s msg) as [added Ha] end.
        exists added. rewrite Ha. reflexivity.
      * split; [ lia | split; [ lia | ] ]. exists []. rewrite List.app_nil_r. reflexivity.
    + cbn [mbind result_bind bind fst].
      rewrite current_log_if, current_rebind, ncols_loc_rows.
      split; [ apply len_loc_rows | split; [ lia | ] ].
      match goal with |- context [log_if ?b ?s ?msg] => destruct (changes_log_if b s msg) as [added Ha] end.
      exists added. rewrite Ha. reflexivity.
  - (* fill_missing_values *)
    unfold fill_missing_values.
    match goal with |- context [nulls_in (current st) ?cols] =>
      set (columns := cols); destruct (nulls_in (current st) columns) as [ n0 | e ] end.
    2:{ cbn [fst]. split; [ lia | split; [ lia | ] ]. exists []. rewrite List.app_nil_r. reflexivity. }
    rewrite current_mutate.
    destruct (fill_loop_shape m v columns (current st)) as [H1 H2].
    match goal with |- context [nulls_in ?d columns] => destruct (nulls_in d columns) as [ n1 | e ] end;
      cbn [fst].
    + rewrite current_log_if, current_mutate, H1, H2.
      split; [ lia | split; [ lia | ] ].
      match goal with |- context [log_if ?b ?s ?msg] => destruct (changes_log_if b s msg) as [added Ha] end.
      exists added. rewrite Ha. reflexivity.
    + rewrite current_mutate, H1, H2. split; [ lia | split; [ lia | ] ].
      exists []. rewrite List.app_nil_r. reflexivity.
  - (* standardize_column_names *)
    unfold standardize_column_names. cbn [fst]. rewrite current_log, current_mutate.
    split; [ reflexivity | split ].
    + unfold pd.ncols, rename. cbn [pd.columns]. rewrite List.length_map. lia.
    + eexists. reflexivity.
  - (* normalize_text_case *)
    unfold normalize_text_case.
    match goal with |- context [str_loop Py.lower ?cols ?d] => set (columns := cols) end.
    assert (Hloop : forall loop : pd.DataFrame * result unit,
      pd.len loop.1 = pd.len (current st) /\ pd.ncols loop.1 = pd.ncols (current st) ->
      let st' := (match loop with
                  | (d, Ok _) =>
                      (log (mutate st d)
                         ("Normalized text case to " ++ case ++ " in "
                          ++ str_of_int (Z.of_nat (length columns)) ++ " columns"), Ok tt)
                  | (d, Raise e) => (mutate st d, Raise e)
                  end).1 in
      pd.len (current st') <= pd.len (current st)
      /\ pd.ncols (current st') <= pd.ncols (current st)
      /\ exists added, changes (self st') = (changes (self st) ++ added)%list).
    { intros [d [ [] | e ]] [H1 H2]; cbn [fst] in *.
      - rewrite current_log, current_mutate, H1, H2.
        split; [ lia | split; [ lia | ] ]. eexists. reflexivity.
      - rewrite current_mutate, H1, H2. split; [ lia | split; [ lia | ] ].
        exists []. rewrite List.app_nil_r. reflexivity. }
    apply Hloop.
    destruct (String.eqb case "lower"); [ apply str_loop_shape | ].
    destruct (String.eqb case "upper"); [ apply str_loop_shape | ].
    destruct (String.eqb case "title"); [ apply str_loop_shape | ].
    split; reflexivity.
  - (* remove_outliers *)
    unfold remove_outliers.
    match goal with |- context [outlier_loop m t ?cols st] =>
      pose proof (outlier_loop_shape m t cols st) as (H1 & H2 & H3);
      destruct (outlier_loop m t cols st) as [st1 [ [] | e ]] end; cbn [fst] in *.
    + rewrite current_log_if, H2. split; [ exact H1 | split; [ lia | ] ].
      match goal with |- context [log_if ?b ?s ?msg] => destruct (changes_log_if b s msg) as [added Ha] end.
      exists added. rewrite Ha, H3. reflexivity.
    + split; [ exact H1 | split; [ lia | ] ].
      exists []. rewrite H3, List.app_nil_r. reflexivity.
  - (* convert_dtypes *)
    destruct (convert_dtypes_shape cts st) as (H1 & H2 & H3).
    split; [ lia | split; [ lia | exact H3 ] ].
Qed.

End Shape.

(** X5. No cleaning method adds a row or a column: after any sequence of
    calls of the nine cleaning methods, including calls that raise, the
    working table has at most as many rows and at most as many columns as
    before. *)
Theorem cleaning_never_grows_the_table `{L : pd.Lib}
    (calls : list CSVCleaner.call) (st : CSVCleaner.state) :
  pd.len (CSVCleaner.current (CSVCleaner.run calls st)) <= pd.len (CSVCleaner.current st)
  /\ pd.ncols (CSVCleaner.current (CSVCleaner.run calls st))
     <= pd.ncols (CSVCleaner.current st).
Proof.
  unfold CSVCleaner.run. revert st.
  induction calls as [ | c calls IH ]; intros st; cbn [fold_left].
  - split; lia.
  - destruct (IH (CSVCleaner.perform c st).1) as [H1 H2].
    destruct (perform_monotone c st) as (G1 & G2 & _).
    split; lia.
Qed.

(** X6. The change log only grows: after any sequence of calls of the nine
    cleaning methods ([reset()] is not one of them), [get_changes()] is the
    list it was before, followed by the entries the calls appended. *)
Theorem change_log_only_grows `{L : pd.Lib}
    (calls : list CSVCleaner.call) (st : CSVCleaner.state) :
  exists added,
    CSVCleaner.get_changes (CSVCleaner.run calls st)
    = (CSVCleaner.get_changes st ++ added)%list.
Proof.
  unfold CSVCleaner.run, CSVCleaner.get_changes. revert st.
  induction calls as [ | c calls IH ]; intros st; cbn [fold_left].
  - exists []. rewrite List.app_nil_r. reflexivity.
  - destruct (IH (CSVCleaner.perform c st).1) as [added2 H2].
    destruct (perform_monotone c st) as (_ & _ & added1 & H1).
    exists (added1 ++ added2)%list. rewrite H2, H1, List.app_assoc. reflexivity.
Qed.

(** ** Row filters *)

Section Masks.

Lemma take_map_filter {A : Type} (f : A -> bool) (l : list A) :
  pd.take (List.map f l) l = List.filter f l.
Proof.
  induction l as [ | a l IH ]; cbn; [ reflexivity | ].
  rewrite IH. reflexivity.
Qed.

Lemma take_all_true {A : Type} (mask : list bool) (l : list A) :
  List.Forall (fun b => b = true) mask -> (length l <= length mask)%nat ->
  pd.take mask l = l.
Proof.
  revert l. induction mask as [ | b mask IH ]; intros [ | a l ] Hall Hlen; cbn in *;
    try reflexivity; try lia.
  inversion Hall; subst. f_equal. apply IH; [ assumption | lia ].
Qed.

Lemma take_length_eq {A B : Type} (mask : list bool) (l : list A) (l' : list B) :
  length l = length l' -> length (pd.take mask l) = length (pd.take mask l').
Proof.
  revert l l'. induction mask as [ | b mask IH ]; intros [ | a l ] [ | a' l' ] H; cbn in *;
    try reflexivity; try discriminate.
  injection H as H. destruct b; cbn; [ f_equal | ]; apply IH; exact H.
Qed.

Lemma wf_loc_rows (mask : list bool) (d : pd.DataFrame) :
  pd.wf d -> pd.wf (pd.loc_rows mask d).
Proof.
  unfold pd.wf, pd.loc_rows. cbn [pd.index pd.columns]. intros H.
  apply List.Forall_map. eapply List.Forall_impl; [ | exact H ].
  intros s Hs. cbn. apply take_length_eq. exact Hs.
Qed.

Lemma loc_rows_all_true (mask : list bool) (d : pd.DataFrame) :
  pd.wf d -> List.Forall (fun b => b = true) mask ->
  (length (pd.index d) <= length mask)%nat ->
  pd.loc_rows mask d = d.
Proof.
  intros Hwf Hall Hlen. destruct d as [idx cols]. unfold pd.loc_rows, pd.wf in *.
  cbn [pd.index pd.columns] in *. f_equal.
  - apply take_all_true; assumption.
  - induction cols as [ | s cols IH ]; cbn; [ reflexivity | ].
    inversion Hwf; subst. f_equal; [ | apply IH; assumption ].
    destruct s as [n t vs]. unfold pd.mask_values. cbn in *. f_equal.
    apply take_all_true; [ assumption | lia ].
Qed.

Lemma len_nonneg (d : pd.DataFrame) : 0 <= pd.len d.
Proof. unfold pd.len. lia. Qed.

Lemma Forall_map_true {A : Type} (f : A -> bool) (l : list A) :
  List.Forall (fun x => f x = true) l ->
  List.Forall (fun b => b = true) (List.map f l).
Proof. intros H. apply List.Forall_map. exact H. Qed.

Lemma Forall_filter {A : Type} (f : A -> bool) (l : list A) :
  List.Forall (fun x => f x = true) (List.filter f l).
Proof.
  apply List.Forall_forall. intros x Hx. apply List.filter_In in Hx. apply Hx.
Qed.

End Masks.

(** X7. On a well-formed table [remove_empty_rows] keeps, in order, exactly
    the rows that hold at least one value, so that no remaining row is
    entirely missing; calling it a second time changes neither the table nor
    the change log. *)
Theorem remove_empty_rows_keeps_rows_with_a_value (st : CSVCleaner.state) :
  pd.wf (CSVCleaner.current st) ->
  let once := CSVCleaner.remove_empty_rows st in
  let twice := CSVCleaner.remove_empty_rows once.1 in
  once.2 = Ok tt
  /\ pd.rows (CSVCleaner.current once.1)
     = List.filter (existsb pd.notna) (pd.rows (CSVCleaner.current st))
  /\ List.Forall (fun r => existsb pd.notna r = true) (pd.rows (CSVCleaner.current once.1))
  /\ CSVCleaner.current twice.1 = CSVCleaner.current once.1
  /\ CSVCleaner.get_changes twice.1 = CSVCleaner.get_changes once.1.
Proof.
  intros Hwf. cbn zeta. unfold CSVCleaner.remove_empty_rows. cbn [fst snd].
  rewrite !current_log_if, !current_rebind.
  set (d := CSVCleaner.current st) in *.
  set (mask := List.map (existsb pd.notna) (pd.rows d)).
  assert (Hd1 : CSVCleaner.dropna_rows_all d = pd.loc_rows mask d) by reflexivity.
  assert (Hmask : length mask = length (pd.index d)).
  { unfold mask. rewrite List.length_map. apply rows_of_length. }
  assert (Hrows : pd.rows (CSVCleaner.dropna_rows_all d)
                  = List.filter (existsb pd.notna) (pd.rows d)).
  { rewrite Hd1, rows_loc_rows by assumption. apply take_map_filter. }
  assert (Hsame : CSVCleaner.dropna_rows_all (CSVCleaner.dropna_rows_all d)
                  = CSVCleaner.dropna_rows_all d).
  { unfold CSVCleaner.dropna_rows_all at 1. apply loc_rows_all_true.
    - rewrite Hd1. apply wf_loc_rows. exact Hwf.
    - apply Forall_map_true. rewrite Hrows. apply Forall_filter.
    - rewrite List.length_map. unfold pd.rows. rewrite rows_of_length. lia. }
  split; [ reflexivity | ]. split; [ exact Hrows | ].
  split; [ rewrite Hrows; apply Forall_filter | ].
  split.
  - apply Hsame.
  - unfold CSVCleaner.get_changes.
    rewrite Hsame, Z.sub_diag. cbn [Z.ltb Z.compare CSVCleaner.log_if].
    reflexivity.
Qed.

(** X7, on an example: a table with a row that is missing throughout. *)
Lemma remove_empty_rows_keeps_rows_with_a_value_example :
  let st := CSVCleaner.init (Demo.store_of Demo.with_empty_row) 0%nat in
  let once := CSVCleaner.remove_empty_rows st in
  let twice := CSVCleaner.remove_empty_rows once.1 in
  once.2 = Ok tt
  /\ pd.rows (CSVCleaner.current once.1)
     = List.filter (existsb pd.notna) (pd.rows (CSVCleaner.current st))
  /\ List.Forall (fun r => existsb pd.notna r = true) (pd.rows (CSVCleaner.current once.1))
  /\ CSVCleaner.current twice.1 = CSVCleaner.current once.1
  /\ CSVCleaner.get_changes twice.1 = CSVCleaner.get_changes once.1.
Proof.
  apply (remove_empty_rows_keeps_rows_with_a_value
           (CSVCleaner.init (Demo.store_of Demo.with_empty_row) 0%nat)).
  vm_compute. repeat constructor.
Defined.

(** ** [remove_duplicates] *)

Section Deduplication.



Lemma take_nil {A : Type} (m : list bool) : pd.take m (@nil A) = [].
Proof. destruct m; reflexivity. Qed.



Lemma duplicated_rows_length (k : pd.keep) (rs : list pd.row) :
  length (pd.duplicated_rows k rs) = length rs.
Proof.
  unfold pd.duplicated_rows. destruct k.
  - apply seen_before_length.
  - rewrite List.length_rev, seen_before_length, List.length_rev. reflexivity.
  - rewrite List.length_map, List.length_combine, List.length_rev, !seen_before_length,
      List.length_rev. lia.
Qed.


End Deduplication.



(** ** Empty columns: [validate_structure] and [remove_empty_columns] *)

Lemma existsb_notna_forallb_isna (l : list pd.cell) :
  existsb pd.notna l = negb (forallb pd.isna l).
Proof.
  induction l as [ | c l IH ]; cbn; [ reflexivity | ].
  rewrite IH. unfold pd.notna. destruct (pd.isna c); reflexivity.
Qed.

Lemma filter_filter_neg {A : Type} (f g : A -> bool) (l : list A) :
  (forall x, f x = negb (g x)) -> List.filter g (List.filter f l) = [].
Proof.
  intros H. induction l as [ | a l IH ]; cbn; [ reflexivity | ].
  destruct (f a) eqn:E; [ | exact IH ].
  cbn. rewrite H in E. apply negb_true_iff in E. rewrite E. exact IH.
Qed.

(** X9. Column names being distinct (as [read_csv] makes them),
    [validate_structure] answers [is_valid = False] only when no file is
    loaded: for a loaded table [is_valid] is [True] whatever issues are
    listed. A well-formed table without rows is reported as empty and, when
    it has columns, with every one of its columns listed as an empty
    column. *)
Theorem validate_structure_is_valid_once_loaded (df : option pd.DataFrame) :
  (forall d, df = Some d -> List.NoDup (pd.column_names d)) ->
  (CSVLoader.is_valid (CSVLoader.validate_structure df) = false <-> df = None)
  /\ (forall d, df = Some d -> pd.wf d -> pd.len d = 0 ->
        exists rest,
          CSVLoader.issues (CSVLoader.validate_structure df)
          = (CSVLoader.CSV_is_empty
             :: match pd.columns d with
                | [] => []
                | _ => [CSVLoader.Empty_columns_found (pd.column_names d)]
                end ++ rest)%list).
Proof.
  intros _. split.
  - destruct df; cbn; split; (discriminate || reflexivity).
  - intros d -> Hwf Hlen. unfold CSVLoader.validate_structure.
    cbn [CSVLoader.issues]. rewrite Hlen. cbn [Z.eqb].
    assert (Hall : CSVLoader.empty_cols d = pd.column_names d).
    { unfold CSVLoader.empty_cols, pd.column_names. f_equal.
      unfold pd.wf in Hwf. unfold pd.len in Hlen.
      induction Hwf as [ | s cols Hs _ IH ]; cbn; [ reflexivity | ].
      destruct (pd.values s) as [ | c vs ]; [ | cbn in Hs; lia ].
      cbn. f_equal. exact IH. }
    rewrite Hall. unfold pd.column_names.
    destruct (pd.columns d) as [ | s cols ]; cbn [List.map].
    + destruct (CSVLoader.unnamed_cols d) eqn:E.
      * exists []. reflexivity.
      * eexists. cbn. reflexivity.
    + destruct (CSVLoader.unnamed_cols d) eqn:E.
      * exists []. reflexivity.
      * eexists. cbn. reflexivity.
Qed.

(** X9, on an example: a header without rows. *)
Lemma validate_structure_is_valid_once_loaded_example :
  CSVLoader.is_valid (CSVLoader.validate_structure (Some Demo.no_rows)) = true
  /\ exists rest,
       CSVLoader.issues (CSVLoader.validate_structure (Some Demo.no_rows))
       = CSVLoader.CSV_is_empty :: CSVLoader.Empty_columns_found ["a"] :: rest.
Proof.
  destruct (validate_structure_is_valid_once_loaded (Some Demo.no_rows))
    as [Hvalid Hissues].
  - intros d [= <-]. vm_compute. repeat constructor; cbn; intuition discriminate.
  - split.
    + apply not_false_iff_true. intros E. apply Hvalid in E. discriminate E.
    + apply (Hissues Demo.no_rows eq_refl).
      * vm_compute. repeat constructor.
      * reflexivity.
Defined.

(** X10. On a table with distinct column names [remove_empty_columns]
    returns, keeps exactly the columns that hold at least one value, and
    leaves a table in which [validate_structure] finds no empty column. On a
    table without rows every column counts as empty, so none is left. *)
Theorem remove_empty_columns_clears_empty_column_issue (st : CSVCleaner.state) :
  List.NoDup (pd.column_names (CSVCleaner.current st)) ->
  let out := CSVCleaner.remove_empty_columns st in
  let d := CSVCleaner.current st in
  let d' := CSVCleaner.current out.1 in
  out.2 = Ok tt
  /\ pd.columns d' = List.filter (fun s => negb (forallb pd.isna (pd.values s))) (pd.columns d)
  /\ CSVLoader.empty_cols d' = []
  /\ List.Forall (fun i => match i with
                          | CSVLoader.Empty_columns_found _ => False
                          | _ => True
                          end)
       (CSVLoader.issues (CSVLoader.validate_structure (Some d')))
  /\ (pd.wf d -> pd.len d = 0 -> pd.columns d' = []).
Proof.
  intros _. cbn zeta. unfold CSVCleaner.remove_empty_columns. cbn [fst snd].
  rewrite current_log_if, current_rebind.
  set (d := CSVCleaner.current st).
  assert (Hcols : pd.columns (CSVCleaner.dropna_columns_all d)
                  = List.filter (fun s => negb (forallb pd.isna (pd.values s))) (pd.columns d)).
  { unfold CSVCleaner.dropna_columns_all. cbn [pd.columns].
    apply List.filter_ext. intros s. apply existsb_notna_forallb_isna. }
  assert (Hempty : CSVLoader.empty_cols (CSVCleaner.dropna_columns_all d) = []).
  { unfold CSVLoader.empty_cols. rewrite Hcols.
    rewrite (filter_filter_neg _ (fun s => forallb pd.isna (pd.values s)));
      [ reflexivity | intros s; reflexivity ]. }
  split; [ reflexivity | ]. split; [ exact Hcols | ]. split; [ exact Hempty | ].
  split.
  - unfold CSVLoader.validate_structure. rewrite Hempty. cbn [CSVLoader.issues].
    destruct (pd.len (CSVCleaner.dropna_columns_all d) =? 0);
      destruct (CSVLoader.unnamed_cols (CSVCleaner.dropna_columns_all d));
      repeat constructor.
  - intros Hwf Hlen. rewrite Hcols. clear Hcols Hempty.
    unfold pd.wf in Hwf. unfold pd.len in Hlen.
    induction Hwf as [ | s cols Hs _ IH ]; cbn; [ reflexivity | ].
    destruct (pd.values s) as [ | c vs ]; [ | cbn in Hs; lia ].
    cbn. exact IH.
Qed.

(** X10, on an example: the table with an empty row has a column without
    any value. *)
Lemma remove_empty_columns_clears_empty_column_issue_example :
  let st := CSVCleaner.init (Demo.store_of Demo.with_empty_row) 0%nat in
  let out := CSVCleaner.remove_empty_columns st in
  let d := CSVCleaner.current st in
  let d' := CSVCleaner.current out.1 in
  out.2 = Ok tt
  /\ pd.columns d' = List.filter (fun s => negb (forallb pd.isna (pd.values s))) (pd.columns d)
  /\ CSVLoader.empty_cols d' = []
  /\ List.Forall (fun i => match i with
                          | CSVLoader.Empty_columns_found _ => False
                          | _ => True
                          end)
       (CSVLoader.issues (CSVLoader.validate_structure (Some d')))
  /\ (pd.wf d -> pd.len d = 0 -> pd.columns d' = []).
Proof.
  apply (remove_empty_columns_clears_empty_column_issue
           (CSVCleaner.init (Demo.store_of Demo.with_empty_row) 0%nat)).
  vm_compute. repeat constructor; cbn; intuition discriminate.
Defined.

(** ** Unknown column names *)

Section UnknownColumns.
Context `{L : pd.Lib}.
Import CSVCleaner.




End UnknownColumns.



(** ** Columns found by name *)

Section ByName.

Lemma getitem_Some (d : pd.DataFrame) (col : string) (s : pd.Series) :
  pd.getitem d col = Some s -> In s (pd.columns d) /\ pd.name s = col.
Proof.
  unfold pd.getitem. intros H. apply List.find_some in H as [H1 H2].
  split; [ exact H1 | apply String.eqb_eq; exact H2 ].
Qed.

Lemma unique_by_name (cols : list pd.Series) (s s0 : pd.Series) :
  List.NoDup (List.map pd.name cols) -> In s cols -> In s0 cols ->
  pd.name s = pd.name s0 -> s = s0.
Proof.
  induction cols as [ | x cols IH ]; cbn; [ tauto | ].
  intros Hnd [-> | Hs] [-> | Hs0] E; inversion Hnd; subst.
  - reflexivity.
  - exfalso. match goal with H : ~ In _ _ |- _ => apply H end.
    rewrite E. apply List.in_map. exact Hs0.
  - exfalso. match goal with H : ~ In _ _ |- _ => apply H end.
    rewrite <- E. apply List.in_map. exact Hs.
  - apply IH; assumption.
Qed.

Lemma getitem_NoDup (d : pd.DataFrame) (s : pd.Series) :
  List.NoDup (pd.column_names d) -> In s (pd.columns d) ->
  pd.getitem d (pd.name s) = Some s.
Proof.
  intros Hnd Hs.
  destruct (pd.getitem d (pd.name s)) as [ s0 | ] eqn:E.
  - apply getitem_Some in E as [H1 H2]. f_equal.
    apply (unique_by_name (pd.columns d)); assumption.
  - exfalso. unfold pd.getitem in E.
    pose proof (List.find_none _ _ E s Hs) as H. cbn in H.
    rewrite String.eqb_refl in H. discriminate.
Qed.

Lemma column_names_setitem (d : pd.DataFrame) (col : string) (t : pd.dtype)
    (vs : list pd.cell) :
  pd.column_names (pd.setitem d col t vs) = pd.column_names d.
Proof.
  unfold pd.column_names, pd.setitem. cbn [pd.columns]. rewrite List.map_map.
  apply List.map_ext. intros s.
  destruct (String.eqb (pd.name s) col) eqn:E; [ | reflexivity ].
  apply String.eqb_eq in E. cbn. symmetry. exact E.
Qed.

(** Assigning to the column found under a name changes that column only. *)
Lemma setitem_found (d : pd.DataFrame) (col : string) (s s' : pd.Series) :
  List.NoDup (pd.column_names d) ->
  pd.getitem d col = Some s -> pd.name s' = pd.name s ->
  pd.columns (pd.setitem d col (pd.dtype_of s') (pd.values s'))
  = List.map (fun x => if String.eqb (pd.name x) col then s' else x) (pd.columns d).
Proof.
  intros Hnd Hget Hname. apply getitem_Some in Hget as [Hin Hcol].
  unfold pd.setitem. cbn [pd.columns]. apply List.map_ext. intros x.
  destruct (String.eqb (pd.name x) col); [ | reflexivity ].
  destruct s' as [n t vs]. cbn in *. subst. reflexivity.
Qed.

Lemma select_all (d : pd.DataFrame) :
  List.NoDup (pd.column_names d) ->
  CSVCleaner.select d (pd.column_names d) = Ok (pd.columns d).
Proof.
  intros Hnd. unfold CSVCleaner.select, pd.column_names.
  assert (H : forall cols, (forall s, In s cols -> In s (pd.columns d)) ->
    for_each (fun n => match pd.getitem d n with
                       | Some s => Ok s
                       | None => Raise KeyError
                       end) (List.map pd.name cols) = Ok cols).
  { induction cols as [ | s cols IH ]; intros Hsub; cbn [List.map for_each];
      [ reflexivity | ].
    rewrite (getitem_NoDup d s Hnd) by (apply Hsub; left; reflexivity).
    cbn [mbind result_bind bind]. rewrite IH; [ reflexivity | ].
    intros x Hx. apply Hsub. right. exact Hx. }
  apply H. intros s Hs. exact Hs.
Qed.

End ByName.

(** ** [fill_missing_values] *)

Section Filling.
Context `{L : pd.Lib}.
Import CSVCleaner.

(** [kept c c']: a value that is present is still there. *)
Local Abbreviation kept := (fun c c' : pd.cell => pd.isna c = false -> c' = c).
Local Abbreviation kept_column :=
  (fun s s' : pd.Series =>
     pd.name s' = pd.name s /\ List.Forall2 kept (pd.values s) (pd.values s')).

Lemma kept_refl (l : list pd.cell) : List.Forall2 kept l l.
Proof. induction l; constructor; [ reflexivity | assumption ]. Qed.

Lemma kept_trans (l1 l2 l3 : list pd.cell) :
  List.Forall2 kept l1 l2 -> List.Forall2 kept l2 l3 -> List.Forall2 kept l1 l3.
Proof.
  intros H. revert l3. induction H as [ | a b l1 l2 Hab _ IH ]; intros l3 H23.
  - inversion H23. constructor.
  - inversion H23 as [ | b' c l2' l3' Hbc H23' ]; subst. constructor.
    + intros Ha. pose proof (Hab Ha) as E. subst b. apply Hbc. exact Ha.
    + apply IH. exact H23'.
Qed.

Lemma kept_rev (l1 l2 : list pd.cell) :
  List.Forall2 kept l1 l2 -> List.Forall2 kept (rev l1) (rev l2).
Proof.
  induction 1 as [ | a b l1 l2 Hab _ IH ]; cbn; [ constructor | ].
  apply List.Forall2_app; [ exact IH | ]. constructor; [ exact Hab | constructor ].
Qed.

Lemma kept_columns_refl (cols : list pd.Series) : List.Forall2 kept_column cols cols.
Proof.
  induction cols; constructor; [ | assumption ].
  split; [ reflexivity | apply kept_refl ].
Qed.

Lemma kept_columns_trans (c1 c2 c3 : list pd.Series) :
  List.Forall2 kept_column c1 c2 -> List.Forall2 kept_column c2 c3 ->
  List.Forall2 kept_column c1 c3.
Proof.
  intros H. revert c3. induction H as [ | a b l1 l2 [Hn Hab] _ IH ]; intros c3 H23.
  - inversion H23. constructor.
  - inversion H23 as [ | b' c l2' l3' [Hn' Hbc] H23' ]; subst. constructor.
    + split; [ congruence | eapply kept_trans; eassumption ].
    + apply IH. exact H23'.
Qed.

Lemma fillna_kept (v : pd.cell) (s : pd.Series) : kept_column s (fillna v s).
Proof.
  split; [ reflexivity | ]. unfold fillna. cbn [pd.values].
  induction (pd.values s) as [ | c l IH ]; cbn; constructor; [ | exact IH ].
  intros Hc. rewrite Hc. reflexivity.
Qed.

Lemma ffill_from_kept (last : option pd.cell) (l : list pd.cell) :
  List.Forall2 kept l (ffill_from last l).
Proof.
  revert last. induction l as [ | c l IH ]; intros last; cbn [ffill_from];
    [ constructor | ].
  destruct (pd.isna c) eqn:E; constructor; try apply IH.
  - intros H. rewrite E in H. discriminate.
  - reflexivity.
Qed.

Lemma fill_column_kept (method : string) (fill_value : option pd.cell) (s : pd.Series) :
  kept_column s (fill_column method fill_value s).
Proof.
  assert (Hrefl : kept_column s s) by (split; [ reflexivity | apply kept_refl ]).
  unfold fill_column.
  destruct (String.eqb method "mean").
  { destruct (pd.is_numeric_dtype (pd.dtype_of s)); [ apply fillna_kept | exact Hrefl ]. }
  destruct (String.eqb method "median").
  { destruct (pd.is_numeric_dtype (pd.dtype_of s)); [ apply fillna_kept | exact Hrefl ]. }
  destruct (String.eqb method "mode").
  { destruct (pd.mode (pd.values s)); [ exact Hrefl | apply fillna_kept ]. }
  destruct (String.eqb method "forward_fill").
  { split; [ reflexivity | apply ffill_from_kept ]. }
  destruct (String.eqb method "backward_fill").
  { split; [ reflexivity | ]. unfold bfill, with_values. cbn [pd.values].
    rewrite <- (List.rev_involutive (pd.values s)) at 1.
    apply kept_rev, ffill_from_kept. }
  destruct (String.eqb method "value"); [ | exact Hrefl ].
  destruct fill_value; [ apply fillna_kept | exact Hrefl ].
Qed.

(** One pass of the loop of [fill_missing_values]. *)
Lemma fill_step_kept (method : string) (fill_value : option pd.cell)
    (d : pd.DataFrame) (col : string) (s : pd.Series) :
  List.NoDup (pd.column_names d) -> pd.getitem d col = Some s ->
  let s' := fill_column method fill_value s in
  List.Forall2 kept_column (pd.columns d)
    (pd.columns (pd.setitem d col (pd.dtype_of s') (pd.values s'))).
Proof.
  intros Hnd Hget. cbn zeta.
  pose proof (fill_column_kept method fill_value s) as [Hname Hkept].
  rewrite (setitem_found d col s _ Hnd Hget Hname).
  apply getitem_Some in Hget as [Hin Hcol].
  assert (H : forall cols, (forall x, In x cols -> In x (pd.columns d)) ->
    List.Forall2 kept_column cols
      (List.map (fun x => if String.eqb (pd.name x) col
                          then fill_column method fill_value s else x) cols)).
  { induction cols as [ | x cols IH ]; intros Hsub; cbn; constructor.
    - destruct (String.eqb (pd.name x) col) eqn:E.
      + apply String.eqb_eq in E.
        assert (x = s).
        { apply (unique_by_name (pd.columns d)); try assumption.
          - apply Hsub. left. reflexivity.
          - congruence. }
        subst x. split; assumption.
      + split; [ reflexivity | apply kept_refl ].
    - apply IH. intros y Hy. apply Hsub. right. exact Hy. }
  apply H. intros x Hx. exact Hx.
Qed.

Lemma fill_loop_kept (method : string) (fill_value : option pd.cell)
    (columns : list string) (d : pd.DataFrame) :
  List.NoDup (pd.column_names d) ->
  List.Forall2 kept_column (pd.columns d)
    (pd.columns (fill_loop method fill_value columns d))
  /\ pd.index (fill_loop method fill_value columns d) = pd.index d.
Proof.
  unfold fill_loop. revert d.
  induction columns as [ | col rest IH ]; intros d Hnd; cbn [fold_left].
  - split; [ apply kept_columns_refl | reflexivity ].
  - destruct (pd.getitem d col) as [ s | ] eqn:Hget; [ | apply IH; exact Hnd ].
    destruct (pd.isna_sum (pd.values s) =? 0); [ apply IH; exact Hnd | ].
    match goal with |- context [fold_left _ rest ?d'] => destruct (IH d') as [H1 H2] end.
    { rewrite column_names_setitem. exact Hnd. }
    split.
    + eapply kept_columns_trans; [ | exact H1 ].
      apply fill_step_kept; assumption.
    + rewrite H2. reflexivity.
Qed.

End Filling.

(** X12. [fill_missing_values] never changes a value that is present: on a
    table with distinct column names, whatever the method, the column list
    and the fill value, and whether or not the call raises, the table
    afterwards has the same row labels and the same column names in the same
    order, and every cell that held a value before holds the same value. *)
Theorem fill_missing_values_keeps_present_values `{L : pd.Lib}
    (st : CSVCleaner.state) (method : string) (columns : option (list string))
    (fill_value : option pd.cell) :
  List.NoDup (pd.column_names (CSVCleaner.current st)) ->
  let out := CSVCleaner.fill_missing_values method columns fill_value st in
  pd.index (CSVCleaner.current out.1) = pd.index (CSVCleaner.current st)
  /\ List.Forall2
       (fun s s' =>
          pd.name s' = pd.name s
          /\ List.Forall2 (fun c c' => pd.isna c = false -> c' = c)
               (pd.values s) (pd.values s'))
       (pd.columns (CSVCleaner.current st))
       (pd.columns (CSVCleaner.current out.1)).
Proof.
  intros Hnd. cbn zeta. unfold CSVCleaner.fill_missing_values.
  match goal with |- context [CSVCleaner.nulls_in _ ?cols] => set (names := cols) end.
  destruct (CSVCleaner.nulls_in (CSVCleaner.current st) names) as [ n0 | e ].
  2:{ cbn [fst]. split; [ reflexivity | apply kept_columns_refl ]. }
  rewrite current_mutate.
  destruct (fill_loop_kept method fill_value names (CSVCleaner.current st) Hnd) as [H1 H2].
  match goal with |- context [CSVCleaner.nulls_in ?d names] =>
    destruct (CSVCleaner.nulls_in d names) as [ n1 | e ] end; cbn [fst].
  - rewrite current_log_if, current_mutate. split; assumption.
  - rewrite current_mutate. split; assumption.
Qed.

(** X12, on an example: forward fill on the table with a gap. *)
Lemma fill_missing_values_keeps_present_values_example :
  let st := CSVCleaner.init (Demo.store_of Demo.with_gap) 0%nat in
  let out := CSVCleaner.fill_missing_values (L := Demo.lib) "forward_fill" None None st in
  pd.index (CSVCleaner.current out.1) = pd.index (CSVCleaner.current st)
  /\ List.Forall2
       (fun s s' =>
          pd.name s' = pd.name s
          /\ List.Forall2 (fun c c' => pd.isna c = false -> c' = c)
               (pd.values s) (pd.values s'))
       (pd.columns (CSVCleaner.current st))
       (pd.columns (CSVCleaner.current out.1)).
Proof.
  apply (fill_missing_values_keeps_present_values (L := Demo.lib)
           (CSVCleaner.init (Demo.store_of Demo.with_gap) 0%nat)
           "forward_fill" None None).
  vm_compute. repeat constructor; cbn; intuition discriminate.
Defined.

Section FillingAll.
Context `{L : pd.Lib}.
Import CSVCleaner.

Lemma of_Z_not_nan (z : Z) : F64.is_nan (F64.of_Z z) = false.
Proof.
  unfold F64.of_Z, binary_normalize. destruct z as [ | p | p ]; [ reflexivity | | ];
    unfold binary_round;
    match goal with |- context [shl_align ?a ?b ?c] => destruct (shl_align a b c) as [mz ez] end;
    apply binary_round_aux_not_nan; lia.
Qed.

Lemma coerce_present (t : pd.dtype) (v : pd.cell) :
  pd.isna v = false -> pd.isna (coerce t v) = false.
Proof.
  destruct t, v; cbn; intros H; try exact H; try reflexivity.
  apply of_Z_not_nan.
Qed.

Lemma fillna_no_missing (v : pd.cell) (s : pd.Series) :
  pd.isna v = false ->
  forall c, In c (pd.values (fillna v s)) -> pd.isna c = false.
Proof.
  intros Hv c Hc. unfold fillna in Hc. cbn [pd.values] in Hc.
  apply in_map_iff in Hc as [c0 [<- _]].
  destruct (pd.isna c0) eqn:E; [ apply coerce_present; exact Hv | exact E ].
Qed.

Lemma isna_sum_zero_inv (l : list pd.cell) :
  pd.isna_sum l = 0 -> forall c, In c l -> pd.isna c = false.
Proof.
  unfold pd.isna_sum. intros H c Hc.
  destruct (pd.isna c) eqn:E; [ | reflexivity ].
  assert (Hin : In c (List.filter pd.isna l)) by (apply List.filter_In; split; assumption).
  destruct (List.filter pd.isna l); [ destruct Hin | cbn in H; lia ].
Qed.

(** The loop of [fill_missing_values] over distinct names, in one step:
    every named column that has a missing value is replaced by its filled
    version. *)
Lemma fill_loop_closed (method : string) (fill_value : option pd.cell)
    (names : list string) (d : pd.DataFrame) :
  List.NoDup (pd.column_names d) -> List.NoDup names ->
  pd.columns (fill_loop method fill_value names d)
  = List.map (fun s =>
      if existsb (String.eqb (pd.name s)) names
         && negb (pd.isna_sum (pd.values s) =? 0)
      then fill_column method fill_value s else s) (pd.columns d).
Proof.
  unfold fill_loop. revert d.
  induction names as [ | col rest IH ]; intros d Hnd Hnames; cbn [fold_left].
  - cbn. symmetry. apply List.map_id.
  - inversion Hnames as [ | ? ? Hnotin Hrest ]; subst.
    destruct (pd.getitem d col) as [ s0 | ] eqn:Hget.
    + pose proof (getitem_Some _ _ _ Hget) as [Hin0 Hcol0].
      destruct (pd.isna_sum (pd.values s0) =? 0) eqn:Hz.
      * rewrite (IH d Hnd Hrest). apply List.map_ext_in. intros s Hs.
        cbn [existsb]. destruct (String.eqb (pd.name s) col) eqn:E; [ | reflexivity ].
        apply String.eqb_eq in E.
        assert (s = s0)
          by (apply (unique_by_name (pd.columns d)); [ exact Hnd | exact Hs | exact Hin0 | congruence ]).
        subst s. rewrite Hz. cbn. rewrite andb_false_r. reflexivity.
      * pose proof (fill_column_kept method fill_value s0) as [Hname _].
        match goal with |- context [fold_left _ rest ?d'] => set (d1 := d') end.
        assert (Hnd1 : List.NoDup (pd.column_names d1)).
        { unfold d1. rewrite column_names_setitem. exact Hnd. }
        rewrite (IH d1 Hnd1 Hrest). unfold d1.
        rewrite (setitem_found d col s0 _ Hnd Hget Hname), List.map_map.
        apply List.map_ext_in. intros s Hs. cbn [existsb].
        destruct (String.eqb (pd.name s) col) eqn:E.
        -- apply String.eqb_eq in E.
           assert (s = s0)
          by (apply (unique_by_name (pd.columns d)); [ exact Hnd | exact Hs | exact Hin0 | congruence ]).
           subst s. rewrite Hz. cbn [orb negb andb].
           assert (Hno : existsb (String.eqb (pd.name (fill_column method fill_value s0))) rest
                         = false).
           { apply existsb_false. intros x Hx. apply String.eqb_neq.
             rewrite Hname, E. intros ->. contradiction. }
           rewrite Hno. reflexivity.
        -- reflexivity.
    + rewrite (IH d Hnd Hrest). apply List.map_ext_in. intros s Hs.
      cbn [existsb]. destruct (String.eqb (pd.name s) col) eqn:E; [ | reflexivity ].
      exfalso. unfold pd.getitem in Hget.
      pose proof (List.find_none _ _ Hget s Hs) as H. cbn in H. congruence.
Qed.

Lemma existsb_own_name (cols : list pd.Series) (s : pd.Series) :
  In s cols -> existsb (String.eqb (pd.name s)) (List.map pd.name cols) = true.
Proof.
  intros Hs. apply existsb_exists. exists (pd.name s).
  split; [ apply List.in_map; exact Hs | apply String.eqb_refl ].
Qed.

Lemma nulls_in_all (d : pd.DataFrame) :
  List.NoDup (pd.column_names d) ->
  nulls_in d (pd.column_names d) = Ok (pd.isna_total d).
Proof.
  intros Hnd. unfold nulls_in. rewrite (select_all d Hnd). reflexivity.
Qed.

End FillingAll.

(** X13. On a table with distinct column names,
    [fill_missing_values(method='value', fill_value=v)] with a value [v] that
    is not itself missing returns and leaves no missing cell in the table;
    the change log gets the entry ['Filled k missing values using value'],
    [k] being the number of cells that were missing, and no entry when none
    was. *)
Theorem fill_with_value_leaves_nothing_missing `{L : pd.Lib}
    (st : CSVCleaner.state) (v : pd.cell) :
  List.NoDup (pd.column_names (CSVCleaner.current st)) ->
  pd.isna v = false ->
  let out := CSVCleaner.fill_missing_values "value" None (Some v) st in
  let k := pd.isna_total (CSVCleaner.current st) in
  out.2 = Ok tt
  /\ pd.isna_total (CSVCleaner.current out.1) = 0
  /\ CSVCleaner.get_changes out.1
     = (CSVCleaner.get_changes st
        ++ (if 0 <? k
            then [("Filled " ++ str_of_int k ++ " missing values using value")%string]
            else []))%list.
Proof.
  intros Hnd Hv. cbn zeta. unfold CSVCleaner.fill_missing_values.
  set (d := CSVCleaner.current st) in *.
  rewrite (nulls_in_all d Hnd), current_mutate.
  set (d' := CSVCleaner.fill_loop "value" (Some v) (pd.column_names d) d).
  destruct (fill_loop_kept "value" (Some v) (pd.column_names d) d Hnd) as [Hkept _].
  fold d' in Hkept.
  assert (Hnames : pd.column_names d' = pd.column_names d).
  { unfold pd.column_names. clear -Hkept.
    induction Hkept as [ | a b l1 l2 [Hn _] _ IH ]; cbn; [ reflexivity | ].
    rewrite Hn, IH. reflexivity. }
  assert (Hzero : pd.isna_total d' = 0).
  { apply isna_total_zero. intros s' Hs' c Hc.
    unfold d' in Hs'. rewrite (fill_loop_closed _ _ _ d Hnd Hnd) in Hs'.
    apply in_map_iff in Hs' as [s [<- Hs]].
    unfold pd.column_names in Hc. rewrite (existsb_own_name _ s Hs) in Hc.
    cbn [andb] in Hc.
    destruct (pd.isna_sum (pd.values s) =? 0) eqn:Hz; cbn [negb] in Hc.
    - apply Z.eqb_eq in Hz. eapply isna_sum_zero_inv; eassumption.
    - eapply (fillna_no_missing v s Hv). exact Hc. }
  assert (Hfinal : CSVCleaner.nulls_in d' (pd.column_names d) = Ok 0).
  { rewrite <- Hnames. rewrite nulls_in_all by (rewrite Hnames; exact Hnd).
    rewrite Hzero. reflexivity. }
  rewrite Hfinal, Z.sub_0_r. cbn [fst snd].
  split; [ reflexivity | ].
  split; [ rewrite current_log_if, current_mutate; exact Hzero | ].
  unfold CSVCleaner.get_changes.
  destruct (0 <? pd.isna_total d); cbn; [ reflexivity | ].
  rewrite List.app_nil_r. reflexivity.
Qed.

(** X13, on an example: the table with an empty row, missing cells filled
    with the string ['?']. *)
Lemma fill_with_value_leaves_nothing_missing_example :
  let st := CSVCleaner.init (Demo.store_of Demo.with_empty_row) 0%nat in
  let out := CSVCleaner.fill_missing_values (L := Demo.lib) "value" None
               (Some (pd.CStr "?")) st in
  out.2 = Ok tt
  /\ pd.isna_total (CSVCleaner.current out.1) = 0
  /\ CSVCleaner.get_changes out.1 = ["Filled 6 missing values using value"].
Proof.
  apply (fill_with_value_leaves_nothing_missing (L := Demo.lib)
           (CSVCleaner.init (Demo.store_of Demo.with_empty_row) 0%nat) (pd.CStr "?")).
  - vm_compute. repeat constructor; cbn; intuition discriminate.
  - reflexivity.
Defined.

(** ** [trim_whitespace] *)

Section Stripping.






End Stripping.

Section TextColumns.
Import CSVCleaner.





End TextColumns.



(** ** [standardize_column_names] *)

(** X15. [standardize_column_names] only renames: it returns, keeps the row
    labels and the dtype and values of every column, gives each column the
    name [standard_name] of its old name, and logs one entry. Every new name
    is made of characters that are alphanumeric or an underscore, none of
    which is changed by [lower()] or is white space. *)
Theorem standardize_column_names_only_renames (st : CSVCleaner.state) :
  let out := CSVCleaner.standardize_column_names st in
  let d := CSVCleaner.current st in
  let d' := CSVCleaner.current out.1 in
  out.2 = Ok tt
  /\ pd.index d' = pd.index d
  /\ List.map pd.values (pd.columns d') = List.map pd.values (pd.columns d)
  /\ List.map pd.dtype_of (pd.columns d') = List.map pd.dtype_of (pd.columns d)
  /\ pd.column_names d' = List.map CSVCleaner.standard_name (pd.column_names d)
  /\ List.Forall (fun n =>
       List.Forall (fun c => (Py.isalnum c || Ascii.eqb c "_") = true
                             /\ lower_char c = c /\ Py.isspace c = false)
                   (chars n))
       (pd.column_names d')
  /\ CSVCleaner.get_changes out.1
     = (CSVCleaner.get_changes st ++ ["Standardized column names"])%list.
Proof.
  cbn zeta. unfold CSVCleaner.standardize_column_names. cbn [fst snd].
  rewrite current_log, current_mutate.
  unfold CSVCleaner.rename, pd.column_names. cbn [pd.index pd.columns].
  rewrite !List.map_map. cbn [pd.values pd.dtype_of pd.name].
  repeat split; try reflexivity.
  apply List.Forall_forall. intros n Hn.
  apply in_map_iff in Hn as [s [<- _]].
  rewrite standard_name_chars, chars_str.
  eapply List.Forall_impl; [ | apply standard_chars_settled ].
  intros c [Hs Hc]. unfold CSVCleaner.settled in Hs. unfold CSVCleaner.name_char in Hc.
  apply andb_true_iff in Hs as [Hs _]. apply andb_true_iff in Hs as [Hl Hsp].
  split; [ exact Hc | ]. split.
  - apply Ascii.eqb_eq. exact Hl.
  - apply negb_true_iff. exact Hsp.
Qed.

(** ** Unrecognised method names *)

Section UnknownMethod.
Context `{L : pd.Lib}.
Import CSVCleaner.

Lemma outlier_loop_unknown (method : string) (threshold : float)
    (columns : list string) (st : state) :
  String.eqb method "iqr" = false -> String.eqb method "zscore" = false ->
  outlier_loop method threshold columns st = (st, Ok tt).
Proof.
  intros H1 H2. induction columns as [ | col rest IH ]; cbn [outlier_loop];
    [ reflexivity | ].
  destruct (pd.getitem (current st) col); [ | exact IH ].
  rewrite H1, H2. exact IH.
Qed.

Lemma fill_column_unknown (method : string) (fill_value : option pd.cell) (s : pd.Series) :
  String.eqb method "mean" = false -> String.eqb method "median" = false ->
  String.eqb method "mode" = false -> String.eqb method "forward_fill" = false ->
  String.eqb method "backward_fill" = false ->
  (String.eqb method "value" = true -> fill_value = None) ->
  fill_column method fill_value s = s.
Proof.
  intros H1 H2 H3 H4 H5 H6. unfold fill_column. rewrite H1, H2, H3, H4, H5.
  destruct (String.eqb method "value"); [ | reflexivity ].
  rewrite (H6 eq_refl). reflexivity.
Qed.

End UnknownMethod.

(** X16. [remove_outliers] with a method other than ['iqr'] and ['zscore']
    does nothing at all, whatever the columns and the threshold: it returns
    without raising, and the table and the change log are as they were. *)
Theorem remove_outliers_ignores_unknown_method `{L : pd.Lib}
    (st : CSVCleaner.state) (columns : option (list string)) (method : string)
    (threshold : float) :
  method <> "iqr" -> method <> "zscore" ->
  CSVCleaner.remove_outliers columns method threshold st = (st, Ok tt).
Proof.
  intros H1 H2. apply String.eqb_neq in H1, H2.
  unfold CSVCleaner.remove_outliers.
  rewrite (outlier_loop_unknown method threshold _ st H1 H2).
  rewrite Z.sub_diag. reflexivity.
Qed.

(** X16, on an example: the method name ['IQR'] in capitals. *)
Lemma remove_outliers_ignores_unknown_method_example :
  let st := CSVCleaner.init (Demo.store_of Demo.with_gap) 0%nat in
  CSVCleaner.remove_outliers (L := Demo.lib) None "IQR" (F64.literal 15 1) st = (st, Ok tt).
Proof.
  apply (remove_outliers_ignores_unknown_method (L := Demo.lib)
           (CSVCleaner.init (Demo.store_of Demo.with_gap) 0%nat) None "IQR"
           (F64.literal 15 1)); discriminate.
Defined.

(** X17. On a table with distinct column names, [fill_missing_values] over
    all columns with a method that is none of ['mean'], ['median'], ['mode'],
    ['forward_fill'], ['backward_fill'], ['value'] - or with ['value'] and no
    [fill_value] - returns without raising and fills nothing: the table and
    the change log are as they were. *)
Theorem fill_missing_values_ignores_unknown_method `{L : pd.Lib}
    (st : CSVCleaner.state) (method : string) (fill_value : option pd.cell) :
  List.NoDup (pd.column_names (CSVCleaner.current st)) ->
  method <> "mean" -> method <> "median" -> method <> "mode" ->
  method <> "forward_fill" -> method <> "backward_fill" ->
  (method = "value" -> fill_value = None) ->
  let out := CSVCleaner.fill_missing_values method None fill_value st in
  out.2 = Ok tt
  /\ CSVCleaner.current out.1 = CSVCleaner.current st
  /\ CSVCleaner.get_changes out.1 = CSVCleaner.get_changes st.
Proof.
  intros Hnd H1 H2 H3 H4 H5 H6. cbn zeta.
  apply String.eqb_neq in H1, H2, H3, H4, H5.
  assert (H6' : String.eqb method "value" = true -> fill_value = None).
  { intros E. apply H6, String.eqb_eq, E. }
  unfold CSVCleaner.fill_missing_values.
  set (d := CSVCleaner.current st) in *.
  rewrite (nulls_in_all d Hnd), current_mutate.
  assert (Hsame : CSVCleaner.fill_loop method fill_value (pd.column_names d) d = d).
  { destruct (fill_loop_kept method fill_value (pd.column_names d) d Hnd) as [_ Hidx].
    pose proof (fill_loop_closed method fill_value (pd.column_names d) d Hnd Hnd) as Hcols.
    destruct (CSVCleaner.fill_loop method fill_value (pd.column_names d) d) as [idx cols].
    cbn [pd.index pd.columns] in *. destruct d as [idx0 cols0]. cbn in *. subst idx.
    f_equal. rewrite Hcols. rewrite <- (List.map_id cols0) at 2.
    apply List.map_ext. intros s.
    rewrite (fill_column_unknown method fill_value s H1 H2 H3 H4 H5 H6').
    destruct (_ && _); reflexivity. }
  rewrite Hsame, (nulls_in_all d Hnd), Z.sub_diag. cbn [fst snd Z.ltb Z.compare].
  unfold CSVCleaner.log_if. rewrite current_mutate.
  split; [ reflexivity | ]. split; reflexivity.
Qed.

(** X17, on an example: the method name ['average']. *)
Lemma fill_missing_values_ignores_unknown_method_example :
  let st := CSVCleaner.init (Demo.store_of Demo.with_gap) 0%nat in
  let out := CSVCleaner.fill_missing_values (L := Demo.lib) "average" None None st in
  out.2 = Ok tt
  /\ CSVCleaner.current out.1 = CSVCleaner.current st
  /\ CSVCleaner.get_changes out.1 = CSVCleaner.get_changes st.
Proof.
  apply (fill_missing_values_ignores_unknown_method (L := Demo.lib)
           (CSVCleaner.init (Demo.store_of Demo.with_gap) 0%nat) "average" None);
    try discriminate.
  vm_compute. repeat constructor; cbn; intuition discriminate.
Defined.

(** ** [validator.py]: rows with missing values *)

Section Malformed.

Lemma isna_sum_nonneg (l : list pd.cell) : 0 <= pd.isna_sum l.
Proof. unfold pd.isna_sum. lia. Qed.

Lemma isna_total_nonneg (df : pd.DataFrame) : 0 <= pd.isna_total df.
Proof.
  unfold pd.isna_total. induction (pd.columns df) as [ | s cols IH ]; cbn; [ lia | ].
  pose proof (isna_sum_nonneg (pd.values s)). lia.
Qed.

Lemma isna_total_zero_inv (df : pd.DataFrame) :
  pd.isna_total df = 0 ->
  forall s, In s (pd.columns df) -> forall c, In c (pd.values s) -> pd.isna c = false.
Proof.
  unfold pd.isna_total. induction (pd.columns df) as [ | s0 cols IH ]; cbn;
    [ intros _ s [] | ].
  intros H s [<- | Hs].
  - apply isna_sum_zero_inv.
    pose proof (isna_sum_nonneg (pd.values s0)).
    assert (0 <= fold_right Z.add 0 (List.map (fun s => pd.isna_sum (pd.values s)) cols)).
    { clear. induction cols as [ | s cols IH ]; cbn; [ lia | ].
      pose proof (isna_sum_nonneg (pd.values s)). lia. }
    lia.
  - apply IH; [ | exact Hs ].
    pose proof (isna_sum_nonneg (pd.values s0)).
    assert (0 <= fold_right Z.add 0 (List.map (fun s => pd.isna_sum (pd.values s)) cols)).
    { clear. induction cols as [ | s cols IH ]; cbn; [ lia | ].
      pose proof (isna_sum_nonneg (pd.values s)). lia. }
    lia.
Qed.

(** In a well-formed table no cell is missing exactly when no row holds a
    missing cell. *)
Lemma no_null_rows_iff (df : pd.DataFrame) :
  pd.wf df ->
  (List.filter (existsb pd.isna) (pd.rows df) = [] <-> pd.isna_total df = 0).
Proof.
  intros Hwf. unfold pd.wf in Hwf. rewrite List.Forall_forall in Hwf. split.
  - intros Hnone. apply isna_total_zero. intros s Hs c Hc.
    apply List.In_nth with (d := pd.CNone) in Hc as [i [Hi Hnth]].
    rewrite (Hwf s Hs) in Hi.
    destruct (pd.isna c) eqn:E; [ exfalso | reflexivity ].
    assert (Hrow : In (pd.row_at (pd.columns df) i)
                      (List.filter (existsb pd.isna) (pd.rows df))).
    { apply List.filter_In. split.
      - unfold pd.rows, pd.rows_of. apply List.in_map. apply List.in_seq. lia.
      - apply existsb_exists. exists c. split; [ | exact E ].
        unfold pd.row_at. apply in_map_iff. exists s. split; assumption. }
    rewrite Hnone in Hrow. destruct Hrow.
  - intros Hzero.
    destruct (List.filter (existsb pd.isna) (pd.rows df)) as [ | r rs ] eqn:E;
      [ reflexivity | exfalso ].
    assert (Hr : In r (List.filter (existsb pd.isna) (pd.rows df)))
      by (rewrite E; left; reflexivity).
    apply List.filter_In in Hr as [Hr Hex].
    unfold pd.rows, pd.rows_of in Hr. apply in_map_iff in Hr as [i [<- Hi]].
    apply List.in_seq in Hi.
    apply existsb_exists in Hex as [c [Hc Hna]].
    unfold pd.row_at in Hc. apply in_map_iff in Hc as [s [<- Hs]].
    rewrite (isna_total_zero_inv df Hzero s Hs) in Hna; [ discriminate | ].
    apply List.nth_In. rewrite (Hwf s Hs). lia.
Qed.

Lemma rows_with_nulls_length (df : pd.DataFrame) :
  length (CSVValidator.rows_with_nulls df)
  = length (List.filter (existsb pd.isna) (pd.rows df)).
Proof.
  unfold CSVValidator.rows_with_nulls, pd.loc_rows. cbn [pd.index].
  rewrite <- take_map_filter. apply take_length_eq.
  unfold pd.rows. rewrite rows_of_length. reflexivity.
Qed.

End Malformed.

(** X18. On a well-formed table [detect_malformed_rows] reports under
    ['count'] the number of rows that hold at least one missing value, a
    number between 0 and [len(df)]. The count is 0, and ['issues'] is empty,
    exactly when the table has no missing cell; otherwise
    [issues['missing_values']] repeats the count and lists the labels of the
    first such rows, ten at most. The list ['rows'] is always empty. *)
Theorem detect_malformed_rows_counts_rows_with_nulls (df : pd.DataFrame) :
  pd.wf df ->
  let r := CSVValidator.detect_malformed_rows df in
  CSVValidator.malformed_count r
  = Z.of_nat (length (List.filter (existsb pd.isna) (pd.rows df)))
  /\ 0 <= CSVValidator.malformed_count r <= pd.len df
  /\ (CSVValidator.malformed_count r = 0 <-> pd.isna_total df = 0)
  /\ (CSVValidator.malformed_issues r = ∅ <-> pd.isna_total df = 0)
  /\ (0 < pd.isna_total df ->
      CSVValidator.malformed_issues r
      = {[ "missing_values" :=
             {| CSVValidator.missing_count := CSVValidator.malformed_count r;
                CSVValidator.sample_rows := firstn 10 (CSVValidator.rows_with_nulls df) |} ]}
      /\ (length (firstn 10 (CSVValidator.rows_with_nulls df)) <= 10)%nat
      /\ incl (firstn 10 (CSVValidator.rows_with_nulls df)) (pd.index df))
  /\ CSVValidator.malformed_rows r = [].
Proof.
  intros Hwf. cbn zeta.
  pose proof (rows_with_nulls_length df) as Hlen.
  pose proof (no_null_rows_iff df Hwf) as Hiff.
  pose proof (isna_total_nonneg df) as Hnn.
  assert (Hle : (length (CSVValidator.rows_with_nulls df) <= length (pd.index df))%nat).
  { unfold CSVValidator.rows_with_nulls, pd.loc_rows. cbn [pd.index]. apply take_length_le. }
  unfold CSVValidator.detect_malformed_rows.
  destruct (CSVValidator.rows_with_nulls df) as [ | i rest ] eqn:E.
  - cbn [CSVValidator.malformed_count CSVValidator.malformed_issues
         CSVValidator.malformed_rows].
    cbn [length] in Hlen.
    assert (Hnil : List.filter (existsb pd.isna) (pd.rows df) = []).
    { destruct (List.filter (existsb pd.isna) (pd.rows df)); [ reflexivity | discriminate ]. }
    pose proof (proj1 Hiff Hnil) as Hz.
    rewrite Hnil. cbn [length].
    pose proof (len_nonneg df).
    repeat split; try reflexivity; try lia; try (intros _; assumption);
      intros H; lia.
  - cbn [CSVValidator.malformed_count CSVValidator.malformed_issues
         CSVValidator.malformed_rows].
    assert (Hpos : pd.isna_total df <> 0).
    { intros Hz. apply Hiff in Hz. rewrite Hz in Hlen. discriminate. }
    rewrite <- Hlen. unfold pd.len.
    split; [ reflexivity | ].
    split; [ cbn [length] in *; lia | ].
    split; [ split; intros H; [ cbn [length] in H; lia | contradiction ] | ].
    split.
    { split; intros H; [ | contradiction ].
      exfalso. eapply (insert_non_empty (M := gmap string)). exact H. }
    split; [ | reflexivity ].
    intros _. split; [ reflexivity | ]. split.
    + rewrite List.length_firstn. lia.
    + intros x Hx.
      assert (Hx' : In x (i :: rest)).
      { rewrite <- (List.firstn_skipn 10 (i :: rest)). apply List.in_or_app. left. exact Hx. }
      clear Hx. rename Hx' into Hx. rewrite <- E in Hx.
      unfold CSVValidator.rows_with_nulls, pd.loc_rows in Hx. cbn [pd.index] in Hx.
      eapply In_take. exact Hx.
Qed.

(** X18, on an example: the table with an empty row has three rows, all
    with a missing value. *)
Lemma detect_malformed_rows_counts_rows_with_nulls_example :
  let r := CSVValidator.detect_malformed_rows Demo.with_empty_row in
  CSVValidator.malformed_count r = 3
  /\ CSVValidator.malformed_issues r
     = {[ "missing_values" :=
            {| CSVValidator.missing_count := 3;
               CSVValidator.sample_rows := [0; 1; 2] |} ]}.
Proof.
  pose proof (detect_malformed_rows_counts_rows_with_nulls Demo.with_empty_row) as H.
  destruct H as (H1 & _ & _ & _ & H5 & _).
  - vm_compute. repeat constructor.
  - split; [ rewrite H1; reflexivity | ].
    destruct H5 as [H5 _]; [ reflexivity | ].
    rewrite H5, H1. reflexivity.
Defined.

(** ** [validate_against_schema] *)

Section SchemaFacts.

Lemma has_column_In (df : pd.DataFrame) (col : string) :
  pd.has_column df col = true <-> In col (pd.column_names df).
Proof.
  unfold pd.has_column, pd.column_names. rewrite existsb_exists. split.
  - intros [s [Hs E]]. apply String.eqb_eq in E. subst col. apply List.in_map. exact Hs.
  - intros H. apply in_map_iff in H as [s [<- Hs]]. exists s.
    split; [ exact Hs | apply String.eqb_refl ].
Qed.

Lemma missing_cols_spec (df : pd.DataFrame) (keys : list string) (col : string) :
  col ∈ (list_to_set keys ∖ list_to_set (pd.column_names df) : gset string)
  <-> In col keys /\ pd.has_column df col = false.
Proof.
  rewrite elem_of_difference, !elem_of_list_to_set, !list_elem_of_In.
  rewrite <- has_column_In. destruct (pd.has_column df col); intuition congruence.
Qed.

End SchemaFacts.

(** X19. In the result of [validate_against_schema], ['valid'] is [True]
    exactly when every column named by the schema is a column of the table:
    a type mismatch adds a warning and never makes the result invalid.
    ['errors'] is empty when the result is valid and otherwise holds the one
    message that lists the schema columns the table lacks. This holds
    whatever [is_string_dtype] answers. *)
Theorem schema_validity_is_column_presence (is_string_dtype : pd.Series -> bool)
    (df : pd.DataFrame) (schema : list (string * string)) :
  let r := CSVValidator.validate_against_schema is_string_dtype df schema in
  (CSVValidator.valid r = true
   <-> forall col, In col (List.map fst schema) -> pd.has_column df col = true)
  /\ (CSVValidator.valid r = true <-> CSVValidator.errors r = [])
  /\ (CSVValidator.valid r = false
      <-> exists missing : gset string,
            CSVValidator.errors r = [missing]
            /\ forall col, col ∈ missing
                 <-> In col (List.map fst schema) /\ pd.has_column df col = false).
Proof.
  cbn zeta. unfold CSVValidator.validate_against_schema.
  cbn [CSVValidator.valid CSVValidator.errors].
  set (missing := (list_to_set (List.map fst schema)
                   ∖ list_to_set (pd.column_names df) : gset string)).
  assert (Hspec : forall col, col ∈ missing
            <-> In col (List.map fst schema) /\ pd.has_column df col = false)
    by (intros col; apply missing_cols_spec).
  destruct (bool_decide (missing = ∅)) eqn:E; cbn [negb].
  - apply bool_decide_eq_true in E.
    split; [ | split ].
    + split; [ | reflexivity ]. intros _ col Hcol.
      destruct (pd.has_column df col) eqn:Hc; [ reflexivity | exfalso ].
      assert (Hin : col ∈ missing) by (apply Hspec; split; assumption).
      rewrite E in Hin. set_solver.
    + split; reflexivity.
    + split; [ discriminate | ]. intros [m [H _]]. discriminate.
  - apply bool_decide_eq_false in E.
    split; [ | split ].
    + split; [ discriminate | ]. intros Hall. exfalso. apply E.
      apply set_eq. intros col. split; [ | set_solver ].
      intros Hin. apply Hspec in Hin as [Hk Hc]. rewrite (Hall col Hk) in Hc. discriminate.
    + split; discriminate.
    + split; [ | reflexivity ]. intros _. exists missing. split; [ reflexivity | exact Hspec ].
Qed.

(** X20. Take a table with distinct column names and any [is_string_dtype]
    that answers [False] on a column that is not of object dtype. Then the
    warnings of [validate_against_schema] are
    exactly these: for a schema item whose column is in the table and whose
    expected type, in lower case, is ['numeric'], a warning when the column
    is not numeric (int64, float64 and bool are); for one whose expected type
    is ['string'], a warning when the column is not of object dtype. An item
    with any other expected type never gives a warning. *)
Theorem schema_warnings_for_numeric_and_string_only
    (is_string_dtype : pd.Series -> bool)
    (df : pd.DataFrame) (schema : list (string * string)) (w : string) :
  List.NoDup (pd.column_names df) ->
  (forall s, pd.is_object_dtype (pd.dtype_of s) = false -> is_string_dtype s = false) ->
  In w (CSVValidator.warnings
          (CSVValidator.validate_against_schema is_string_dtype df schema))
  <-> exists col expected s,
        In (col, expected) schema /\ pd.getitem df col = Some s
        /\ ((Py.lower expected = "numeric"
             /\ pd.is_numeric_dtype (pd.dtype_of s) = false
             /\ w = "Column '" ++ col ++ "' expected numeric but got "
                    ++ CSVValidator.dtype_name (pd.dtype_of s))
            \/ (Py.lower expected = "string"
                /\ pd.is_object_dtype (pd.dtype_of s) = false
                /\ w = "Column '" ++ col ++ "' expected string but got "
                       ++ CSVValidator.dtype_name (pd.dtype_of s))).
Proof.
  intros _ Hstr. unfold CSVValidator.validate_against_schema.
  cbn [CSVValidator.warnings]. rewrite in_flat_map. split.
  - intros [[col expected] [Hin Hw]].
    destruct (pd.getitem df col) as [ s | ] eqn:Hget; [ | destruct Hw ].
    exists col, expected, s. split; [ exact Hin | ]. split; [ exact Hget | ].
    unfold CSVValidator.schema_warning in Hw.
    destruct (String.eqb (Py.lower expected) "numeric") eqn:E1.
    + apply String.eqb_eq in E1.
      destruct (pd.is_numeric_dtype (pd.dtype_of s)) eqn:E2; cbn [negb] in Hw;
        [ destruct Hw | ].
      destruct Hw as [<- | []]. left. repeat split; first [ assumption | reflexivity ].
    + destruct (String.eqb (Py.lower expected) "string") eqn:E3; [ | destruct Hw ].
      apply String.eqb_eq in E3.
      destruct (pd.is_object_dtype (pd.dtype_of s)) eqn:E4.
      * rewrite andb_false_r in Hw. destruct Hw.
      * rewrite (Hstr s E4) in Hw. cbn [negb andb] in Hw.
        destruct Hw as [<- | []]. right. repeat split; first [ assumption | reflexivity ].
  - intros (col & expected & s & Hin & Hget & Hcase).
    exists (col, expected). split; [ exact Hin | ].
    rewrite Hget. unfold CSVValidator.schema_warning.
    destruct Hcase as [(E1 & E2 & ->) | (E1 & E2 & ->)].
    + rewrite E1, E2. cbn. left. reflexivity.
    + rewrite E1, E2, (Hstr s E2). cbn. left. reflexivity.
Qed.

(** X20, on an example: the integer column ['id'] against the expected type
    ['String']. *)
Lemma schema_warnings_for_numeric_and_string_only_example :
  In "Column 'id' expected string but got int64"
     (CSVValidator.warnings
        (CSVValidator.validate_against_schema
           (fun s => pd.is_object_dtype (pd.dtype_of s)) Demo.clean
           [("id", "String"); ("code", "numeric"); ("zip", "string")])).
Proof.
  apply (schema_warnings_for_numeric_and_string_only
           (fun s => pd.is_object_dtype (pd.dtype_of s)) Demo.clean
           [("id", "String"); ("code", "numeric"); ("zip", "string")]).
  - vm_compute. repeat constructor; cbn; intuition discriminate.
  - intros s H. exact H.
  - exists "id", "String", (Demo.series "id" pd.Int64 (Demo.ints [1; 2; 3])).
    split; [ left; reflexivity | ]. split; [ reflexivity | ].
    right. repeat split; reflexivity.
Defined.

(** ** [CSVValidator.get_null_distribution] *)

Section Dictionaries.
Context {V : Type}.

Lemma dict_of_lookup (l : list (string * V)) (k : string) (v : V) :
  List.NoDup (List.map fst l) -> In (k, v) l -> CSVValidator.dict_of l !! k = Some v.
Proof.
  induction l as [ | [k0 v0] l IH ] using List.rev_ind; [ intros _ [] | ].
  rewrite List.map_app, dict_of_snoc. cbn [List.map fst]. intros Hnd Hin.
  apply List.NoDup_remove in Hnd as [Hnd Hnotin]. rewrite List.app_nil_r in Hnd, Hnotin.
  apply List.in_app_or in Hin as [Hin | [E | []]].
  - assert (k <> k0).
    { intros ->. apply Hnotin. apply (List.in_map fst) in Hin. exact Hin. }
    rewrite lookup_insert_ne by congruence. apply IH; assumption.
  - injection E as -> ->. apply lookup_insert_eq.
Qed.

Lemma dict_of_is_Some (l : list (string * V)) (k : string) :
  is_Some (CSVValidator.dict_of l !! k) <-> In k (List.map fst l).
Proof.
  induction l as [ | [k0 v0] l IH ] using List.rev_ind.
  - cbn. rewrite lookup_empty. split; [ intros [x H]; discriminate | tauto ].
  - rewrite List.map_app, dict_of_snoc, List.in_app_iff. cbn [List.map fst In].
    destruct (String.eqb_spec k0 k) as [-> | Hne].
    + rewrite lookup_insert_eq. split; [ intros _; right; left; reflexivity | eauto ].
    + rewrite lookup_insert_ne by exact Hne. rewrite IH. tauto.
Qed.

End Dictionaries.

Lemma for_each_Ok {A B : Type} (f : A -> result B) (g : A -> B) (l : list A) :
  (forall x, In x l -> f x = Ok (g x)) -> for_each f l = Ok (List.map g l).
Proof.
  induction l as [ | a l IH ]; intros H; cbn [for_each List.map]; [ reflexivity | ].
  rewrite (H a) by (left; reflexivity). cbn [mbind result_bind bind].
  rewrite IH by (intros x Hx; apply H; right; exact Hx). reflexivity.
Qed.

(** X21. On a table with distinct column names and at least one row
    [CSVValidator.get_null_distribution] returns a dictionary whose keys are
    the column names and ['total']. The entry under ['total'] is always the
    table-wide one, so a column that is itself named ['total'] has no entry
    of its own; every other column has its entry, with its null count and
    the count of its values that are present. *)
Theorem null_distribution_total_entry (df : pd.DataFrame) :
  List.NoDup (pd.column_names df) ->
  0 < pd.len df ->
  exists d total_pct,
    CSVValidator.get_null_distribution df = Ok d
    /\ d !! "total" = Some (CSVValidator.TotalNulls (pd.isna_total df) total_pct)
    /\ (forall k, is_Some (d !! k) <-> k = "total" \/ In k (pd.column_names df))
    /\ (forall s, In s (pd.columns df) -> pd.name s <> "total" ->
          exists pct,
            d !! pd.name s
            = Some (CSVValidator.ColumnNulls
                      (pd.isna_sum (pd.values s)) pct
                      (pd.len df - pd.isna_sum (pd.values s)))).
Proof.
  intros Hnd Hlen. unfold CSVValidator.get_null_distribution.
  set (g := fun s : pd.Series =>
         (pd.name s,
          CSVValidator.ColumnNulls (pd.isna_sum (pd.values s))
            (round (PyFloat (F64.div (F64.exact (100 * pd.isna_sum (pd.values s)))
                                     (F64.exact (pd.len df)))) 2)
            (pd.len df - pd.isna_sum (pd.values s)))).
  rewrite (for_each_Ok _ g).
  2:{ intros s _. unfold mul, arith, truediv. cbn [is_int is_np andb orb int_val].
      destruct (pd.len df =? 0) eqn:E; [ apply Z.eqb_eq in E; lia | ]. reflexivity. }
  cbn [mbind result_bind bind].
  unfold mul, arith, truediv. cbn [is_int is_np andb orb int_val to_float mbind result_bind bind].
  eexists. eexists. split; [ reflexivity | ].
  assert (Hkeys : List.map fst (List.map g (pd.columns df)) = pd.column_names df).
  { rewrite List.map_map. reflexivity. }
  split; [ apply lookup_insert_eq | ]. split.
  - intros k. destruct (String.eqb_spec "total" k) as [<- | Hne].
    + rewrite lookup_insert_eq. split; [ intros _; left; reflexivity | eauto ].
    + rewrite lookup_insert_ne by exact Hne. rewrite dict_of_is_Some, Hkeys.
      split; [ tauto | ]. intros [-> | H]; [ contradiction | exact H ].
  - intros s Hs Hne. eexists.
    rewrite lookup_insert_ne by congruence.
    apply dict_of_lookup; [ rewrite Hkeys; exact Hnd | ].
    apply (List.in_map g) in Hs. exact Hs.
Qed.

(** X21, on an example: the entry under ['total'] of a table with a column
    named ['total'] is the table-wide one (one missing cell out of four). *)
Lemma null_distribution_total_entry_example :
  exists d total_pct,
    CSVValidator.get_null_distribution Demo.with_total = Ok d
    /\ d !! "total" = Some (CSVValidator.TotalNulls 1 total_pct)
    /\ (forall k, is_Some (d !! k) <-> k = "total" \/ In k ["item"; "total"])
    /\ (forall s, In s (pd.columns Demo.with_total) -> pd.name s <> "total" ->
          exists pct,
            d !! pd.name s
            = Some (CSVValidator.ColumnNulls
                      (pd.isna_sum (pd.values s)) pct
                      (2 - pd.isna_sum (pd.values s)))).
Proof.
  apply (null_distribution_total_entry Demo.with_total).
  - vm_compute. repeat constructor; cbn; intuition discriminate.
  - reflexivity.
Defined.

(** ** Calls that cannot raise *)

Section NoRaise.
Context `{L : pd.Lib}.

Lemma for_each_total {A B : Type} (f : A -> result B) (P : A -> B -> Prop) (l : list A) :
  (forall x, In x l -> exists y, f x = Ok y /\ P x y) ->
  exists ys, for_each f l = Ok ys /\ List.Forall2 P l ys.
Proof.
  induction l as [ | a l IH ]; intros H; cbn [for_each].
  - exists []. split; [ reflexivity | constructor ].
  - destruct (H a (or_introl eq_refl)) as [y [Hy Py]].
    destruct IH as [ys [Hys Pys]]; [ intros x Hx; apply H; right; exact Hx | ].
    exists (y :: ys). rewrite Hy. cbn [mbind result_bind bind]. rewrite Hys.
    split; [ reflexivity | constructor; assumption ].
Qed.

(** The entries found for one column: at most one, about that column. *)
Local Abbreviation about s found :=
  (found = [] \/ exists a, found = [a] /\ CSVValidator.column a = pd.name s).

Lemma concat_about (cols : list pd.Series) (found : list (list CSVValidator.anomaly)) :
  List.Forall2 (fun s f => about s f) cols found ->
  (length (concat found) <= length cols)%nat
  /\ forall a, In a (concat found) -> In (CSVValidator.column a) (List.map pd.name cols).
Proof.
  induction 1 as [ | s f cols found Hsf _ [IH1 IH2] ]; cbn [concat length List.map].
  - split; [ lia | intros a [] ].
  - rewrite List.length_app. destruct Hsf as [-> | [a0 [-> Ha0]]]; cbn [length List.app].
    + split; [ lia | ]. intros a Ha. right. apply IH2. exact Ha.
    + split; [ lia | ]. intros a [<- | Ha]; [ left; symmetry; exact Ha0 | right; apply IH2; exact Ha ].
Qed.

Lemma eqb_zero_of_is_zero (m : float) : F64.is_zero m = true -> F64.eqb m (F64.of_Z 0) = true.
Proof. destruct m as [ s | s | | s p e ]; try discriminate. intros _. reflexivity. Qed.

Lemma high_null_columns_total (df : pd.DataFrame) :
  exists found, CSVValidator.high_null_columns df = Ok (concat found)
                /\ List.Forall2 (fun s f => about s f) (pd.columns df) found.
Proof.
  unfold CSVValidator.high_null_columns.
  destruct (for_each_total
    (fun s =>
       null_pct ← truediv (mul (PyInt 100) (NpInt64 (pd.isna_sum (pd.values s))))
                          (PyInt (pd.len df));
       Ok (if gt null_pct (PyInt 50)
           then [{| CSVValidator.type := CSVValidator.high_null_percentage;
                    CSVValidator.column := pd.name s |}] else []))
    (fun s f => about s f) (pd.columns df)) as [found [Hf Hp]].
  { intros s _. unfold mul, arith, truediv.
    cbn [is_int is_np andb orb int_val mbind result_bind bind].
    eexists. split; [ reflexivity | ].
    match goal with |- context [if ?b then _ else _] => destruct b end;
      [ right; eexists; split; reflexivity | left; reflexivity ]. }
  exists found. rewrite Hf. split; [ reflexivity | exact Hp ].
Qed.

Lemma high_variance_columns_total (df : pd.DataFrame) :
  exists found, CSVValidator.high_variance_columns df = Ok (concat found)
                /\ List.Forall2 (fun s f => about s f) (pd.select_number df) found.
Proof.
  unfold CSVValidator.high_variance_columns.
  match goal with |- context [for_each ?body _] =>
    destruct (for_each_total body (fun s found => about s found) (pd.select_number df))
      as [found [Hf Hp]] end.
  { intros s _.
    destruct (0 <? pd.size (pd.dropna (pd.values s)));
      [ | eexists; split; [ reflexivity | left; reflexivity ] ].
    destruct (ne (PyFloat (pd.mean (pd.values s))) (PyInt 0)) eqn:Hne;
      [ | eexists; split; [ reflexivity | left; reflexivity ] ].
    unfold truediv, abs. cbn [is_np orb to_float].
    destruct (F64.is_zero (F64.abs (pd.mean (pd.values s)))) eqn:Hz.
    - exfalso. unfold ne, eq in Hne. cbn [is_int andb to_float] in Hne.
      rewrite eqb_zero_of_is_zero in Hne; [ discriminate | ].
      destruct (pd.mean (pd.values s)); try discriminate; reflexivity.
    - cbn [mbind result_bind bind]. eexists. split; [ reflexivity | ].
      match goal with |- context [if ?b then _ else _] => destruct b end;
        [ right; eexists; split; reflexivity | left; reflexivity ]. }
  exists found. rewrite Hf. split; [ reflexivity | exact Hp ].
Qed.

Lemma constant_columns_about (df : pd.DataFrame) :
  (length (CSVValidator.constant_columns df) <= length (pd.columns df))%nat
  /\ forall a, In a (CSVValidator.constant_columns df) ->
       In (CSVValidator.column a) (pd.column_names df).
Proof.
  unfold CSVValidator.constant_columns, pd.column_names.
  induction (pd.columns df) as [ | s cols [IH1 IH2] ]; cbn [flat_map length List.map].
  - split; [ lia | intros a [] ].
  - rewrite List.length_app.
    destruct (pd.nunique (pd.values s) =? 1); cbn [length List.app].
    + split; [ lia | ]. intros a [<- | Ha]; [ left; reflexivity | right; apply IH2; exact Ha ].
    + split; [ lia | ]. intros a Ha. right. apply IH2. exact Ha.
Qed.

Lemma detect_anomalies_total (df : pd.DataFrame) :
  exists anomalies,
    CSVValidator.detect_anomalies df = Ok anomalies
    /\ (forall a, In a anomalies -> In (CSVValidator.column a) (pd.column_names df))
    /\ (length anomalies <= 3 * length (pd.columns df))%nat.
Proof.
  unfold CSVValidator.detect_anomalies.
  destruct (high_null_columns_total df) as [f2 [H2 P2]].
  destruct (high_variance_columns_total df) as [f3 [H3 P3]].
  rewrite H2, H3. cbn [mbind result_bind bind].
  destruct (constant_columns_about df) as [L1 I1].
  destruct (concat_about _ _ P2) as [L2 I2].
  destruct (concat_about _ _ P3) as [L3 I3].
  eexists. split; [ reflexivity | ]. split.
  - intros a Ha. apply List.in_app_or in Ha as [Ha | Ha]; [ apply I1; exact Ha | ].
    apply List.in_app_or in Ha as [Ha | Ha]; [ apply I2; exact Ha | ].
    apply I3 in Ha. apply in_map_iff in Ha as [s [<- Hs]].
    apply List.filter_In in Hs as [Hs _]. apply List.in_map. exact Hs.
  - rewrite !List.length_app.
    assert (length (pd.select_number df) <= length (pd.columns df))%nat
      by apply List.filter_length_le.
    lia.
Qed.

End NoRaise.

(** X22. On a table with distinct column names [detect_anomalies] and
    [get_data_quality_score] return without raising, also when the table
    has no rows or no columns. Each anomaly reported names a column of the
    table, and there are at most three per column. *)
Theorem quality_score_never_raises `{L : pd.Lib} (df : pd.DataFrame) :
  List.NoDup (pd.column_names df) ->
  (exists anomalies,
     CSVValidator.detect_anomalies df = Ok anomalies
     /\ (forall a, In a anomalies -> In (CSVValidator.column a) (pd.column_names df))
     /\ (length anomalies <= 3 * length (pd.columns df))%nat)
  /\ exists q, CSVValidator.get_data_quality_score df = Ok q.
Proof.
  intros _. split; [ apply detect_anomalies_total | ].
  unfold CSVValidator.get_data_quality_score.
  destruct (detect_anomalies_total df) as [anomalies [Ha _]]. rewrite Ha.
  unfold mul at 1, arith at 1, truediv at 1.
  cbn [is_int is_np andb orb int_val mbind result_bind bind].
  destruct (0 <? pd.len df).
  - unfold mul at 1, arith at 1, truediv at 1.
    cbn [is_int is_np andb orb int_val mbind result_bind bind].
    eexists. reflexivity.
  - cbn [mbind result_bind bind]. eexists. reflexivity.
Qed.

(** X22, on an example: a header without rows. *)
Lemma quality_score_never_raises_example :
  (exists anomalies,
     CSVValidator.detect_anomalies (L := Demo.lib) Demo.no_rows = Ok anomalies
     /\ (forall a, In a anomalies -> In (CSVValidator.column a) ["a"])
     /\ (length anomalies <= 3 * 1)%nat)
  /\ exists q, CSVValidator.get_data_quality_score (L := Demo.lib) Demo.no_rows = Ok q.
Proof.
  apply (quality_score_never_raises (L := Demo.lib) Demo.no_rows).
  vm_compute. repeat constructor; cbn; intuition discriminate.
Defined.

(** ** Counting duplicated rows *)

Section DuplicateCounts.

Lemma sum_mask_cons (b : bool) (l : list bool) :
  pd.sum_mask (b :: l) = (if b then 1 else 0) + pd.sum_mask l.
Proof.
  unfold pd.sum_mask. destruct b; cbn [List.filter length].
  - rewrite Nat2Z.inj_succ. symmetry. apply Z.add_1_l.
  - reflexivity.
Qed.

Lemma sum_mask_bounds (l : list bool) : 0 <= pd.sum_mask l <= Z.of_nat (length l).
Proof.
  induction l as [ | b l IH ]; [ unfold pd.sum_mask; cbn [List.filter length]; lia | ].
  rewrite sum_mask_cons. cbn [length]. destruct b; lia.
Qed.


Lemma sum_mask_length_take {A : Type} (mask : list bool) (l : list A) :
  length mask = length l ->
  Z.of_nat (length (pd.take (List.map negb mask) l)) = Z.of_nat (length l) - pd.sum_mask mask.
Proof.
  revert l. induction mask as [ | b mask IH ]; intros [ | a l ] H; cbn [length] in H;
    try discriminate; [ reflexivity | ].
  injection H as H. rewrite sum_mask_cons. cbn [List.map pd.take].
  specialize (IH l H). destruct b; cbn [negb length]; lia.
Qed.










(** Half of a count, as [int(count / 2)] computes it. *)
Lemma half_of_count (c : Z) :
  0 < c < 2 ^ 53 ->
  int (NpFloat64 (F64.div (F64.of_Z c) (F64.of_Z 2))) = Ok (c / 2).
Proof.
  intros Hc. destruct (of_Z_exact c Hc) as (m & d & -> & Hd & Hcd & Hm).
  assert (Hm52 : 2 ^ 52 <= Zpos m < 2 ^ 53).
  { rewrite Hm. split.
    - replace 52 with ((d - 1) + (53 - d)) by lia. rewrite Z.pow_add_r by lia.
      apply Z.mul_le_mono_nonneg_r; [ apply Z.pow_nonneg; lia | lia ].
    - replace 53 with (d + (53 - d)) at 2 by lia. rewrite Z.pow_add_r by lia.
      apply Z.mul_lt_mono_pos_r; [ apply Z.pow_pos_nonneg; lia | lia ]. }
  rewrite two_pow_1, div_pow2_exact by lia.
  unfold int, F64.trunc.
  replace (0 <=? d - 53 - 1) with false by (symmetry; apply Z.leb_gt; lia).
  f_equal. rewrite Hm.
  replace (- (d - 53 - 1)) with (1 + (53 - d)) by lia.
  rewrite Z.pow_add_r by lia. change (2 ^ 1) with 2.
  apply Z.div_mul_cancel_r; [ lia | ].
  apply Z.pow_nonzero; lia.
Qed.

(** [detect_duplicates] on a table with rows. *)
Lemma detect_duplicates_returns (df : pd.DataFrame) :
  0 < pd.len df < 2 ^ 53 ->
  let c := pd.sum_mask (pd.duplicated pd.KeepFalse df) in
  0 <= c <= pd.len df
  /\ exists pct,
       CSVValidator.detect_duplicates df
       = Ok {| CSVValidator.duplicate_count := c;
               CSVValidator.duplicate_percentage := pct;
               CSVValidator.duplicate_rows := c / 2 |}.
Proof.
  intros Hlen. cbn zeta.
  set (c := pd.sum_mask (pd.duplicated pd.KeepFalse df)).
  assert (Hc : 0 <= c <= pd.len df).
  { unfold c, pd.duplicated.
    pose proof (sum_mask_bounds (pd.duplicated_rows pd.KeepFalse (pd.rows df))) as H.
    rewrite duplicated_rows_length in H. unfold pd.rows in H. rewrite rows_of_length in H.
    exact H. }
  split; [ exact Hc | ].
  unfold CSVValidator.detect_duplicates. fold c.
  assert (E : (pd.len df =? 0) = false) by (apply Z.eqb_neq; lia).
  unfold mul, arith, truediv.
  cbn [is_int is_np andb orb int_val to_float]. rewrite E.
  cbn [mbind result_bind bind].
  destruct (0 <? c) eqn:Epos.
  - apply Z.ltb_lt in Epos.
    rewrite half_of_count by lia. cbn [mbind result_bind bind].
    eexists. reflexivity.
  - apply Z.ltb_ge in Epos. assert (c = 0) as -> by lia.
    cbn [mbind result_bind bind]. eexists. reflexivity.
Qed.

End DuplicateCounts.



(** ** [generate_validation_report] *)

Section Report.
Context `{L : pd.Lib}.

Lemma infer_column_type_returns (series : pd.Series) :
  exists t, utils.infer_column_type series = Ok t.
Proof.
  unfold utils.infer_column_type.
  destruct (pd.size (pd.dropna (pd.values series)) =? 0) eqn:E; [ eexists; reflexivity | ].
  destruct (utils.coerces _ _); [ eexists; reflexivity | ].
  destruct (utils.coerces _ _); [ eexists; reflexivity | ].
  unfold truediv. cbn [is_np orb]. rewrite E. cbn [mbind result_bind bind].
  match goal with |- context [if ?b then _ else _] => destruct b end; eexists; reflexivity.
Qed.

Lemma check_column_types_returns (df : pd.DataFrame) :
  exists report, CSVValidator.check_column_types df = Ok report.
Proof.
  unfold CSVValidator.check_column_types.
  match goal with |- context [for_each ?body _] =>
    destruct (for_each_total body (fun _ _ => True) (pd.columns df)) as [ys [Hys _]] end.
  { intros s _. destruct (infer_column_type_returns s) as [t Ht]. rewrite Ht.
    unfold mul, arith, truediv. cbn [is_int is_np andb orb int_val mbind result_bind bind].
    eexists. split; [ reflexivity | exact I ]. }
  rewrite Hys. eexists. reflexivity.
Qed.

Lemma get_null_distribution_returns (df : pd.DataFrame) :
  0 < pd.len df -> exists d, CSVValidator.get_null_distribution df = Ok d.
Proof.
  intros Hlen. unfold CSVValidator.get_null_distribution.
  match goal with |- context [for_each ?body _] =>
    destruct (for_each_total body (fun _ _ => True) (pd.columns df)) as [ys [Hys _]] end.
  { intros s _. unfold mul, arith, truediv. cbn [is_int is_np andb orb int_val].
    destruct (pd.len df =? 0) eqn:E; [ apply Z.eqb_eq in E; lia | ].
    eexists. split; [ reflexivity | exact I ]. }
  rewrite Hys. unfold mul, arith, truediv.
  cbn [is_int is_np andb orb int_val mbind result_bind bind]. eexists. reflexivity.
Qed.

End Report.

(** X24. [generate_validation_report] needs a row: column names being
    distinct, on a table without rows it raises [ZeroDivisionError], with or without columns (the null
    distribution divides by the number of rows, and so does the duplicate
    report); on a table with at least one and fewer than [2^53] rows it
    returns, with the shape of the table under ['data_shape']. *)
Theorem validation_report_needs_a_row `{L : pd.Lib} (df : pd.DataFrame) :
  List.NoDup (pd.column_names df) ->
  (pd.len df = 0 ->
   CSVValidator.generate_validation_report df = Raise ZeroDivisionError)
  /\ (0 < pd.len df < 2 ^ 53 ->
      exists r,
        CSVValidator.generate_validation_report df = Ok r
        /\ CSVValidator.report_data_shape r
           = {| CSVValidator.shape_rows := pd.len df;
                CSVValidator.shape_columns := pd.ncols df |}
        /\ CSVValidator.report_malformed_rows r = CSVValidator.detect_malformed_rows df).
Proof.
  intros _. split.
  - intros Hlen. destruct df as [idx cols]. unfold pd.len in Hlen. cbn [pd.index] in Hlen.
    destruct idx as [ | i idx ]; [ | cbn in Hlen; lia ].
    destruct cols as [ | s cols ]; [ vm_compute; reflexivity | ].
    unfold CSVValidator.generate_validation_report, CSVValidator.get_null_distribution.
    cbn [pd.columns for_each]. reflexivity.
  - intros Hlen. unfold CSVValidator.generate_validation_report.
    destruct (get_null_distribution_returns df ltac:(lia)) as [d ->].
    destruct (check_column_types_returns df) as [t ->].
    destruct (detect_duplicates_returns df Hlen) as [_ [pct ->]].
    destruct (detect_anomalies_total df) as [a [-> _]].
    cbn [mbind result_bind bind]. eexists. split; [ reflexivity | ].
    split; reflexivity.
Qed.

(** X24, on examples: a header without rows, and the clean table. *)
Lemma validation_report_needs_a_row_example :
  CSVValidator.generate_validation_report (L := Demo.lib) Demo.no_rows
  = Raise ZeroDivisionError
  /\ exists r,
       CSVValidator.generate_validation_report (L := Demo.lib) Demo.clean = Ok r
       /\ CSVValidator.report_data_shape r
          = {| CSVValidator.shape_rows := 3; CSVValidator.shape_columns := 2 |}
       /\ CSVValidator.report_malformed_rows r
          = CSVValidator.detect_malformed_rows Demo.clean.
Proof.
  split.
  - apply (validation_report_needs_a_row (L := Demo.lib) Demo.no_rows).
    + vm_compute. repeat constructor; cbn; intuition discriminate.
    + reflexivity.
  - apply (validation_report_needs_a_row (L := Demo.lib) Demo.clean).
    + vm_compute. repeat constructor; cbn; intuition discriminate.
    + vm_compute. split; reflexivity.
Defined.

(** ** [CSVAnalyzer.get_overall_summary] *)

Lemma filter_disjoint_length {A : Type} (p q : A -> bool) (l : list A) :
  (forall x, p x = true -> q x = false) ->
  (length (List.filter p l) + length (List.filter q l) <= length l)%nat.
Proof.
  intros H. induction l as [ | a l IH ]; cbn; [ lia | ].
  destruct (p a) eqn:E; [ rewrite (H a E) | destruct (q a) ]; cbn; lia.
Qed.

(** X25. [get_overall_summary] returns for every table, and its figures
    agree with the cleaner: ['duplicate_rows'] is the number of rows that
    [remove_duplicates()] with its default arguments removes, which is also
    the number in the entry it logs (it logs nothing when that number is 0).
    ['total_cells'] is rows times columns, and the numeric and categorical
    columns together are at most all columns. *)
Theorem overall_summary_agrees_with_cleaner (memory_usage : pd.DataFrame -> Z)
    (st : CSVCleaner.state) :
  exists s,
    CSVAnalyzer.get_overall_summary memory_usage (CSVCleaner.current st) = Ok s
    /\ (let out := CSVCleaner.remove_duplicates None pd.KeepFirst st in
        out.2 = Ok tt
        /\ pd.len (CSVCleaner.current out.1)
           = CSVAnalyzer.total_rows s - CSVAnalyzer.duplicate_rows s
        /\ CSVCleaner.get_changes out.1
           = (CSVCleaner.get_changes st
              ++ (if 0 <? CSVAnalyzer.duplicate_rows s
                  then [("Removed " ++ str_of_int (CSVAnalyzer.duplicate_rows s)
                         ++ " duplicate rows")%string]
                  else []))%list)
    /\ CSVAnalyzer.total_cells s = CSVAnalyzer.total_rows s * CSVAnalyzer.total_columns s
    /\ 0 <= CSVAnalyzer.duplicate_rows s <= CSVAnalyzer.total_rows s
    /\ CSVAnalyzer.numeric_columns s + CSVAnalyzer.categorical_columns s
       <= CSVAnalyzer.total_columns s.
Proof.
  unfold CSVAnalyzer.get_overall_summary.
  set (d := CSVCleaner.current st).
  unfold mul, arith, truediv. cbn [is_int is_np andb orb int_val mbind result_bind bind].
  eexists. split; [ reflexivity | ].
  cbn [CSVAnalyzer.total_rows CSVAnalyzer.duplicate_rows CSVAnalyzer.total_cells
       CSVAnalyzer.total_columns CSVAnalyzer.numeric_columns
       CSVAnalyzer.categorical_columns].
  assert (Hmask : length (pd.duplicated pd.KeepFirst d) = length (pd.index d)).
  { unfold pd.duplicated. rewrite duplicated_rows_length. apply rows_of_length. }
  assert (Hlen : pd.len (pd.loc_rows (List.map negb (pd.duplicated pd.KeepFirst d)) d)
                 = pd.len d - pd.sum_mask (pd.duplicated pd.KeepFirst d)).
  { unfold pd.len, pd.loc_rows. cbn [pd.index]. apply sum_mask_length_take. exact Hmask. }
  split; [ | split; [ reflexivity | split ] ].
  - cbn zeta. unfold CSVCleaner.remove_duplicates, CSVCleaner.drop_duplicates.
    cbn [mbind result_bind bind fst snd].
    rewrite current_log_if, current_rebind. fold d. fold (pd.rows d).
    fold (pd.duplicated pd.KeepFirst d). rewrite Hlen.
    split; [ reflexivity | ]. split; [ reflexivity | ].
    replace (pd.len d - (pd.len d - pd.sum_mask (pd.duplicated pd.KeepFirst d)))
      with (pd.sum_mask (pd.duplicated pd.KeepFirst d)) by lia.
    unfold CSVCleaner.get_changes.
    destruct (0 <? pd.sum_mask (pd.duplicated pd.KeepFirst d)); cbn;
      [ reflexivity | rewrite List.app_nil_r; reflexivity ].
  - pose proof (sum_mask_bounds (pd.duplicated pd.KeepFirst d)) as H.
    rewrite Hmask in H. exact H.
  - unfold pd.ncols, pd.select_number, pd.select_object.
    pose proof (filter_disjoint_length
                  (fun s => pd.is_number_dtype (pd.dtype_of s))
                  (fun s => pd.is_object_dtype (pd.dtype_of s)) (pd.columns d)) as H.
    lapply H; [ lia | ]. intros s. destruct (pd.dtype_of s); cbn; congruence.
Qed.

(** ** [main.py]: the route [/api/clean] *)

Section CleanRoute.
Context `{L : pd.Lib}.
Import CSVCleaner.

Lemma attempt_frames (calls : list call) (st : state) :
  frames st (Main.attempt calls st).1.
Proof.
  revert st. induction calls as [ | c calls IH ]; intros st; cbn [Main.attempt].
  - apply frames_refl.
  - pose proof (perform_frames c st) as Hc.
    destruct (perform c st) as [st' [ [] | e ]]; cbn [fst] in *.
    + eapply frames_trans; [ exact Hc | apply IH ].
    + exact Hc.
Qed.

Lemma attempt_monotone (calls : list call) (st : state) :
  pd.len (current (Main.attempt calls st).1) <= pd.len (current st)
  /\ pd.ncols (current (Main.attempt calls st).1) <= pd.ncols (current st).
Proof.
  revert st. induction calls as [ | c calls IH ]; intros st; cbn [Main.attempt].
  - cbn [fst]. split; lia.
  - pose proof (perform_monotone c st) as (H1 & H2 & _).
    destruct (perform c st) as [st' [ [] | e ]]; cbn [fst] in *.
    + destruct (IH st') as [G1 G2]. split; lia.
    + split; assumption.
Qed.

(** A cleaner built on a copy leaves every object of the store alone. *)
Lemma init_on_copy (h : store) (arg : loc) :
  let st := init (copy h arg).1 (copy h arg).2 in
  current st = deref h arg
  /\ changes (self st) = []
  /\ forall l, l ∈ dom h ->
       heap st !! l = h !! l /\ l <> df (self st) /\ l ∈ dom (heap st).
Proof.
  cbn zeta. unfold init, copy.
  set (a1 := alloc h (deref h arg)).
  assert (Ha1 : deref a1.1 a1.2 = deref h arg).
  { unfold deref at 1. unfold a1. rewrite alloc_lookup. reflexivity. }
  destruct a1 as [h1 l1] eqn:E1. cbn [fst snd] in *.
  set (a2 := alloc h1 (deref h1 l1)).
  assert (Ha2 : a2.1 !! a2.2 = Some (deref h arg)).
  { unfold a2. rewrite alloc_lookup, Ha1. reflexivity. }
  assert (Hd2 : a2.2 ∈ dom a2.1).
  { apply elem_of_dom. rewrite Ha2. eexists. reflexivity. }
  assert (Ho1 : forall l, l ∈ dom h -> h1 !! l = h !! l /\ l ∈ dom h1).
  { intros l Hl. pose proof (alloc_other h (deref h arg) l Hl) as H.
    unfold a1 in E1. rewrite E1 in H. cbn [fst snd] in H. tauto. }
  assert (Ho2 : forall l, l ∈ dom h1 -> a2.1 !! l = h1 !! l /\ l <> a2.2 /\ l ∈ dom a2.1).
  { intros l Hl. apply (alloc_other h1 (deref h1 l1) l Hl). }
  destruct a2 as [h2 l2] eqn:E2. cbn [fst snd] in *.
  set (a3 := alloc h2 (deref h2 l1)).
  pose proof (alloc_other h2 (deref h2 l1) l2 Hd2) as H3. fold a3 in H3.
  assert (Ho3 : forall l, l ∈ dom h2 -> a3.1 !! l = h2 !! l /\ l ∈ dom a3.1).
  { intros l Hl. pose proof (alloc_other h2 (deref h2 l1) l Hl) as H. fold a3 in H. tauto. }
  destruct a3 as [h3 l3] eqn:E3. cbn [fst snd heap self df changes] in *.
  split; [ | split; [ reflexivity | ] ].
  - unfold current, deref. cbn [heap self df].
    destruct H3 as [H3 _]. rewrite H3, Ha2. reflexivity.
  - intros l Hl. destruct (Ho1 l Hl) as [E Hl1].
    destruct (Ho2 l Hl1) as (E' & Hne & Hl2). destruct (Ho3 l Hl2) as [E'' Hl3].
    split; [ congruence | split; assumption ].
Qed.

End CleanRoute.

(** X26. A request to [/api/clean] works on copies. Take a request whose
    body is a JSON object with a session id and a dictionary of options, and
    take it that building the JSON answer from the cleaned table does not
    raise. Whatever the options, no table that was in the store before the
    request is changed by it - in particular neither the table the session
    pointed to nor its ['original_df']. The answer is 'Session not found'
    (status 400) exactly when the session is unknown; when a cleaning step
    raises the answer is the error with status 500 and the sessions are as
    they were; on success only the entry of this session changes, its
    ['df'] is a new object, its ['original_df'] is the same object as before,
    its ['changes'] is the list answered, and the reported number of rows
    and columns is at most that of the table cleaned. *)
Theorem clean_request_works_on_copies `{L : pd.Lib}
    (h : CSVCleaner.store) (sessions : gmap string Main.session)
    (session_id : string) (o : Main.options) :
  let out := Main.clean_data h sessions session_id o in
  let h' := out.1.1 in
  let sessions' := out.1.2 in
  (forall l, l ∈ dom h -> h' !! l = h !! l)
  /\ (out.2 = Main.Session_not_found <-> sessions !! session_id = None)
  /\ (forall e, out.2 = Main.Server_error e -> sessions' = sessions)
  /\ (forall k, k <> session_id -> sessions' !! k = sessions !! k)
  /\ (forall changes rows columns sample,
        out.2 = Main.Cleaned changes rows columns sample ->
        exists s s',
          sessions !! session_id = Some s /\ sessions' !! session_id = Some s'
          /\ Main.session_original_df s' = Main.session_original_df s
          /\ (Main.session_df s' ∉ dom h)
          /\ Main.session_changes s' = Some changes
          /\ rows = pd.len (CSVCleaner.deref h' (Main.session_df s'))
          /\ rows <= pd.len (CSVCleaner.deref h (Main.session_df s))
          /\ columns <= pd.ncols (CSVCleaner.deref h (Main.session_df s))).
Proof.
  cbn zeta. unfold Main.clean_data.
  destruct (sessions !! session_id) as [ s | ] eqn:Hs.
  2:{ cbn [fst snd]. repeat split; try reflexivity; try discriminate. }
  pose proof (init_on_copy h (Main.session_df s)) as (Hcur & _ & Hold).
  cbn zeta in Hcur, Hold.
  destruct (CSVCleaner.copy h (Main.session_df s)) as [h1 df0] eqn:Ecopy.
  cbn [fst snd] in Hcur, Hold.
  set (cleaner := CSVCleaner.init h1 df0) in *.
  pose proof (attempt_frames (Main.requested o) cleaner) as [_ Hframes].
  pose proof (attempt_monotone (Main.requested o) cleaner) as [Hrows Hcols].
  rewrite Hcur in Hrows, Hcols.
  assert (Hkeep : forall l, l ∈ dom h ->
            CSVCleaner.heap (Main.attempt (Main.requested o) cleaner).1 !! l = h !! l
            /\ l <> CSVCleaner.df
                      (CSVCleaner.self (Main.attempt (Main.requested o) cleaner).1)).
  { intros l Hl. destruct (Hold l Hl) as (E & Hne & Hdom).
    destruct (Hframes l Hne Hdom) as (E' & Hne' & _).
    split; [ congruence | exact Hne' ]. }
  destruct (Main.attempt (Main.requested o) cleaner) as [st [ [] | e ]];
    cbn [fst snd] in *.
  - split; [ intros l Hl; apply Hkeep; exact Hl | ].
    split; [ split; discriminate | ].
    split; [ discriminate | ].
    split; [ intros k Hk; apply lookup_insert_ne; congruence | ].
    intros changes rows columns sample E. injection E as <- <- <- <-.
    eexists. eexists. split; [ reflexivity | ].
    split; [ apply lookup_insert_eq | ].
    cbn [Main.session_original_df Main.session_df Main.session_changes].
    unfold CSVCleaner.get_cleaned_df, CSVCleaner.get_changes.
    split; [ reflexivity | ].
    split; [ intros Hin; destruct (Hkeep _ Hin) as [_ Hne]; apply Hne; reflexivity | ].
    split; [ reflexivity | ]. split; [ reflexivity | ].
    split; assumption.
  - split; [ intros l Hl; apply Hkeep; exact Hl | ].
    split; [ split; discriminate | ].
    split; [ reflexivity | ].
    split; [ reflexivity | discriminate ].
Qed.

(** ** [normalize_text_case] *)





(** ** [check_column_types] *)

(** X28. On a table with distinct column names [check_column_types]
    returns, also when the table has no rows (the percentage is then NaN,
    not an error). The report has one entry per column name; the entry of a
    column holds its dtype, the label [infer_column_type] gives it, the
    number of its distinct values and its null count, and the label is
    ['unknown'] when the column has no value present. *)
Theorem check_column_types_never_raises `{L : pd.Lib} (df : pd.DataFrame) :
  List.NoDup (pd.column_names df) ->
  exists report,
    CSVValidator.check_column_types df = Ok report
    /\ (forall k, is_Some (report !! k) <-> In k (pd.column_names df))
    /\ (forall s, In s (pd.columns df) ->
          exists t pct,
            utils.infer_column_type s = Ok t
            /\ report !! pd.name s
               = Some {| CSVValidator.current_dtype := CSVValidator.dtype_name (pd.dtype_of s);
                         CSVValidator.inferred_type := t;
                         CSVValidator.unique_values := pd.size (pd.unique (pd.values s));
                         CSVValidator.null_count := pd.isna_sum (pd.values s);
                         CSVValidator.null_percentage := pct |}
            /\ (pd.dropna (pd.values s) = [] -> t = "unknown")).
Proof.
  intros Hnd. unfold CSVValidator.check_column_types.
  match goal with |- context [for_each ?body _] =>
    destruct (for_each_total body
      (fun s y =>
         y.1 = pd.name s
         /\ exists t pct,
              utils.infer_column_type s = Ok t
              /\ y.2 = {| CSVValidator.current_dtype := CSVValidator.dtype_name (pd.dtype_of s);
                          CSVValidator.inferred_type := t;
                          CSVValidator.unique_values := pd.size (pd.unique (pd.values s));
                          CSVValidator.null_count := pd.isna_sum (pd.values s);
                          CSVValidator.null_percentage := pct |}
              /\ (pd.dropna (pd.values s) = [] -> t = "unknown"))
      (pd.columns df)) as [ys [Hys Hall]] end.
  { intros s _. destruct (infer_column_type_returns s) as [t Ht]. rewrite Ht.
    unfold mul, arith, truediv. cbn [is_int is_np andb orb int_val mbind result_bind bind].
    eexists. split; [ reflexivity | ]. cbn [fst snd]. split; [ reflexivity | ].
    exists t. eexists. split; [ reflexivity | ]. split; [ reflexivity | ].
    intros Hnil. unfold utils.infer_column_type in Ht. rewrite Hnil in Ht.
    change (pd.size [] =? 0) with true in Ht. cbv iota in Ht. congruence. }
  rewrite Hys. cbn [mbind result_bind bind]. eexists. split; [ reflexivity | ].
  assert (Hkeys : List.map fst ys = pd.column_names df).
  { unfold pd.column_names. clear Hys.
    induction Hall as [ | s y cols ys [Hy _] _ IH ]; cbn; [ reflexivity | ].
    rewrite Hy, IH. reflexivity. }
  split.
  - intros k. rewrite dict_of_is_Some, Hkeys. reflexivity.
  - intros s Hs.
    assert (Hfind : exists y, In y ys /\ y.1 = pd.name s
              /\ exists t pct,
                   utils.infer_column_type s = Ok t
                   /\ y.2 = {| CSVValidator.current_dtype := CSVValidator.dtype_name (pd.dtype_of s);
                               CSVValidator.inferred_type := t;
                               CSVValidator.unique_values := pd.size (pd.unique (pd.values s));
                               CSVValidator.null_count := pd.isna_sum (pd.values s);
                               CSVValidator.null_percentage := pct |}
                   /\ (pd.dropna (pd.values s) = [] -> t = "unknown")).
    { clear Hys Hkeys Hnd. induction Hall as [ | s0 y cols ys Hy _ IH ]; [ destruct Hs | ].
      destruct Hs as [-> | Hs].
      - exists y. split; [ left; reflexivity | exact Hy ].
      - destruct (IH Hs) as [y' [Hin Hy']]. exists y'. split; [ right; exact Hin | exact Hy' ]. }
    destruct Hfind as [[k v] (Hin & Hk & t & pct & Ht & Hv & Hu)]. cbn [fst snd] in *.
    exists t, pct. split; [ exact Ht | ]. split; [ | exact Hu ].
    rewrite <- Hv. apply dict_of_lookup; [ rewrite Hkeys; exact Hnd | ].
    rewrite <- Hk. exact Hin.
Qed.

(** X28, on an example: a header without rows; its column is reported as
    ['unknown']. *)
Lemma check_column_types_never_raises_example :
  exists report,
    CSVValidator.check_column_types (L := Demo.lib) Demo.no_rows = Ok report
    /\ (forall k, is_Some (report !! k) <-> In k ["a"])
    /\ (forall s, In s (pd.columns Demo.no_rows) ->
          exists t pct,
            utils.infer_column_type (L := Demo.lib) s = Ok t
            /\ report !! pd.name s
               = Some {| CSVValidator.current_dtype := CSVValidator.dtype_name (pd.dtype_of s);
                         CSVValidator.inferred_type := t;
                         CSVValidator.unique_values := pd.size (pd.unique (pd.values s));
                         CSVValidator.null_count := pd.isna_sum (pd.values s);
                         CSVValidator.null_percentage := pct |}
            /\ (pd.dropna (pd.values s) = [] -> t = "unknown")).
Proof.
  apply (check_column_types_never_raises (L := Demo.lib) Demo.no_rows).
  vm_compute. repeat constructor; cbn; intuition discriminate.
Defined.

(** ** The number of issues in the quality score *)

Section Issues.
Context `{L : pd.Lib}.







End Issues.



(** ** [utils.format_bytes] *)

Section Bytes.

Lemma ltb_finite (m p : positive) (e e' : Z) :
  (p <= m)%positive ->
  SFltb (S754_finite false m e) (S754_finite false p e') = (e <? e').
Proof.
  intros Hm. unfold SFltb, SFcompare.
  destruct (Z.compare_spec e e') as [-> | Hlt | Hgt].
  - rewrite Z.ltb_irrefl.
    change (Pos.compare_cont Eq m p) with (Pos.compare m p).
    destruct (Pos.compare_spec m p) as [ H | H | H ]; try reflexivity.
    exfalso. lia.
  - symmetry. apply Z.ltb_lt. exact Hlt.
  - symmetry. apply Z.ltb_ge. lia.
Qed.

Lemma ltb_1024 (m : positive) (e : Z) :
  2 ^ 52 <= Zpos m < 2 ^ 53 ->
  F64.ltb (S754_finite false m e) (F64.of_Z 1024) = (e <? -42).
Proof.
  intros Hm. rewrite two_pow_10. change (10 - 52) with (-42).
  apply ltb_finite. lia.
Qed.

(** One pass of the loop on a normal double. *)
Lemma format_step (m : positive) (e : Z) :
  2 ^ 52 <= Zpos m < 2 ^ 53 -> -1000 <= e <= 900 ->
  lt (PyFloat (S754_finite false m e)) (PyFloat (F64.of_Z 1024)) = (e <? -42)
  /\ utils.as_float (PyFloat (S754_finite false m e)) = Ok (S754_finite false m e)
  /\ truediv (PyFloat (S754_finite false m e)) (PyFloat (F64.of_Z 1024))
     = Ok (PyFloat (S754_finite false m (e - 10))).
Proof.
  intros Hm He. split; [ | split ].
  - unfold lt, gt. cbn [is_int andb to_float]. apply ltb_1024. exact Hm.
  - reflexivity.
  - unfold truediv. cbn [is_np orb to_float].
    change (F64.is_zero (F64.of_Z 1024)) with false. cbv iota.
    rewrite two_pow_10, div_pow2_exact by lia. reflexivity.
Qed.

(** The first pass, on the integer number of bytes. *)
Lemma format_first_step (n : Z) (m : positive) (e : Z) :
  F64.of_Z n = S754_finite false m e ->
  2 ^ 52 <= Zpos m < 2 ^ 53 -> -1000 <= e <= 900 ->
  lt (PyInt n) (PyFloat (F64.of_Z 1024)) = (e <? -42)
  /\ utils.as_float (PyInt n) = Ok (S754_finite false m e)
  /\ truediv (PyInt n) (PyFloat (F64.of_Z 1024))
     = Ok (PyFloat (S754_finite false m (e - 10))).
Proof.
  intros E Hm He. split; [ | split ].
  - unfold lt, gt. cbn [is_int andb to_float]. rewrite E. apply ltb_1024. exact Hm.
  - unfold utils.as_float. cbn [to_float]. rewrite E. reflexivity.
  - unfold truediv. cbn [is_np orb to_float].
    change (F64.is_zero (F64.of_Z 1024)) with false. cbv iota.
    rewrite E, two_pow_10, div_pow2_exact by lia. reflexivity.
Qed.

Lemma below_power (n d j : Z) :
  1 <= d -> 0 <= j -> 2 ^ (d - 1) <= n < 2 ^ d -> (n <? 2 ^ j) = (d <=? j).
Proof.
  intros Hd Hj Hn. destruct (Z.leb_spec d j) as [H | H].
  - apply Z.ltb_lt. assert (2 ^ d <= 2 ^ j) by (apply Z.pow_le_mono_r; lia). lia.
  - apply Z.ltb_ge. assert (2 ^ j <= 2 ^ (d - 1)) by (apply Z.pow_le_mono_r; lia). lia.
Qed.

Lemma format_small_sizes :
  forallb (fun n =>
    match utils.format_bytes (PyInt n) with
    | Ok text => String.eqb text (str_of_int n ++ ".00 B")
    | Raise _ => false
    end) (List.map Z.of_nat (seq 0 1024)) = true.
Proof. vm_compute. reflexivity. Qed.

End Bytes.

(** X30. For a whole number [n] of bytes, [0 < n < 2^53], [format_bytes]
    returns the text of [n / 1024^k] with two decimals, followed by a space
    and the unit, where [k] and the unit go by powers of 1024: ['B'] below
    1024, ['KB'] below [1024^2], ['MB'] below [1024^3], ['GB'] below [1024^4]
    and ['TB'] from there on (so a size of 1024 TB or more is still given in
    TB). The quotient is exact: it is the double of [n] with its exponent
    lowered by [10 k]. Below 1024 the text is [n] itself followed by
    ['.00 B']. *)
Theorem format_bytes_goes_by_powers_of_1024 (n : Z) :
  0 < n < 2 ^ 53 ->
  let k := if n <? 2 ^ 10 then 0
           else if n <? 2 ^ 20 then 1
           else if n <? 2 ^ 30 then 2
           else if n <? 2 ^ 40 then 3 else 4 in
  exists (m : positive) (e : Z),
    F64.of_Z n = S754_finite false m e
    /\ utils.format_bytes (PyInt n)
       = Ok (utils.format_2f (S754_finite false m (e - 10 * k)) ++ " "
             ++ nth (Z.to_nat k) ["B"; "KB"; "MB"; "GB"] "TB")
    /\ (n < 1024 -> utils.format_bytes (PyInt n) = Ok (str_of_int n ++ ".00 B")).
Proof.
  intros Hn. cbn zeta.
  destruct (of_Z_exact n Hn) as (m & d & E & Hd & Hnd & Hm).
  assert (Hm52 : 2 ^ 52 <= Zpos m < 2 ^ 53).
  { rewrite Hm. split.
    - replace 52 with ((d - 1) + (53 - d)) by lia. rewrite Z.pow_add_r by lia.
      apply Z.mul_le_mono_nonneg_r; [ apply Z.pow_nonneg; lia | lia ].
    - replace 53 with (d + (53 - d)) at 2 by lia. rewrite Z.pow_add_r by lia.
      apply Z.mul_lt_mono_pos_r; [ apply Z.pow_pos_nonneg; lia | lia ]. }
  exists m, (d - 53). split; [ exact E | ]. split.
  - rewrite (below_power n d 10), (below_power n d 20), (below_power n d 30),
      (below_power n d 40) by lia.
    destruct (format_first_step n m (d - 53) E Hm52 ltac:(lia)) as (A1 & A2 & A3).
    destruct (format_step m (d - 53 - 10) Hm52 ltac:(lia)) as (B1 & B2 & B3).
    destruct (format_step m (d - 53 - 10 - 10) Hm52 ltac:(lia)) as (C1 & C2 & C3).
    destruct (format_step m (d - 53 - 10 - 10 - 10) Hm52 ltac:(lia)) as (D1 & D2 & D3).
    destruct (format_step m (d - 53 - 10 - 10 - 10 - 10) Hm52 ltac:(lia)) as (_ & F2 & _).
    unfold utils.format_bytes. cbn [utils.format_loop].
    rewrite A1, A2, A3. cbn [mbind result_bind bind].
    destruct (Z.leb_spec d 10) as [H10 | H10].
    { replace (d - 53 <? -42) with true by (symmetry; apply Z.ltb_lt; lia).
      replace (d - 53 - 10 * 0) with (d - 53) by lia. reflexivity. }
    replace (d - 53 <? -42) with false by (symmetry; apply Z.ltb_ge; lia).
    rewrite B1, B2, B3. cbn [mbind result_bind bind].
    destruct (Z.leb_spec d 20) as [H20 | H20].
    { replace (d - 53 - 10 <? -42) with true by (symmetry; apply Z.ltb_lt; lia).
      replace (d - 53 - 10 * 1) with (d - 53 - 10) by lia. reflexivity. }
    replace (d - 53 - 10 <? -42) with false by (symmetry; apply Z.ltb_ge; lia).
    rewrite C1, C2, C3. cbn [mbind result_bind bind].
    destruct (Z.leb_spec d 30) as [H30 | H30].
    { replace (d - 53 - 10 - 10 <? -42) with true by (symmetry; apply Z.ltb_lt; lia).
      replace (d - 53 - 10 * 2) with (d - 53 - 10 - 10) by lia. reflexivity. }
    replace (d - 53 - 10 - 10 <? -42) with false by (symmetry; apply Z.ltb_ge; lia).
    rewrite D1, D2, D3. cbn [mbind result_bind bind].
    destruct (Z.leb_spec d 40) as [H40 | H40].
    { replace (d - 53 - 10 - 10 - 10 <? -42) with true by (symmetry; apply Z.ltb_lt; lia).
      replace (d - 53 - 10 * 3) with (d - 53 - 10 - 10 - 10) by lia. reflexivity. }
    replace (d - 53 - 10 - 10 - 10 <? -42) with false by (symmetry; apply Z.ltb_ge; lia).
    rewrite F2. cbn [mbind result_bind bind].
    replace (d - 53 - 10 * 4) with (d - 53 - 10 - 10 - 10 - 10) by lia. reflexivity.
  - intros Hsmall.
    pose proof format_small_sizes as Hall. rewrite forallb_forall in Hall.
    specialize (Hall n). lapply Hall.
    + destruct (utils.format_bytes (PyInt n)) as [ text | ex ]; [ | discriminate ].
      intros Heq. apply String.eqb_eq in Heq. rewrite Heq. reflexivity.
    + apply in_map_iff. exists (Z.to_nat n). split; [ lia | ].
      apply List.in_seq. lia.
Qed.

(** X30, on an example: 1536 bytes are 1.50 KB. *)
Lemma format_bytes_goes_by_powers_of_1024_example :
  exists (m : positive) (e : Z),
    F64.of_Z 1536 = S754_finite false m e
    /\ utils.format_bytes (PyInt 1536)
       = Ok (utils.format_2f (S754_finite false m (e - 10 * 1)) ++ " KB")
    /\ (1536 < 1024 -> utils.format_bytes (PyInt 1536) = Ok (str_of_int 1536 ++ ".00 B")).
Proof.
  apply (format_bytes_goes_by_powers_of_1024 1536). split; reflexivity.
Defined.
